(** * Seat reservation service: the reservation routes over a transactional store

    A shallow embedding of [routes/reservations.ts] (the four handlers GET,
    DELETE, POST and PUT of [/api/reservations] and the six query helpers
    they call) together with the tables of [SQL/*.sql].

    Conventions of the model.
    - A TIME value is the number of milliseconds since midnight, a DATE value
      an integer that respects the calendar order; both are [Z].
    - A JavaScript number is [NaN], an infinity, an integer, or a number
      between two neighbouring integers, of which the model keeps the lower
      one: the routes and the driver compare a number with integers, test
      whether it is zero and cut its fraction off, nothing else.
    - The driver validates a parameter typed [sql.Int] before it sends the
      query: a number that is no INT makes the query throw.  What the driver
      and the server make of an untyped value that is no INT, and how the
      server compares two NVARCHARs, is left open.
    - One handler runs at a time: a transaction works on a private copy of
      the tables which [commit] installs and [rollback] drops.  The lock
      hints of [checkOverlap] have no meaning in such a run and are left out.
    - Every call that reaches the database can fail: an environment says, for
      the n-th call issued by a handler, whether the driver rejects it.  A
      rejected call has no effect on the tables.
    - The module-level [pool] of [db.ts] is a promise; whether it resolved is
      part of the environment. *)

From Stdlib Require Import ZArith List String Ascii Bool Lia.
From Stdlib Require Import Sorted Permutation.
Import ListNotations.
Local Open Scope string_scope.
Local Open Scope list_scope.
Local Open Scope Z_scope.

(** ** JavaScript values *)

(** A number: [Number(...)] of a string, or a number of a JSON body. *)
Inductive jsnum : Type :=
| NaN
| Num (z : Z)                (* an integer *)
| Frac (floor : Z)           (* a number above [floor] and below [floor + 1] *)
| Infinity (negative : bool).

Coercion Num : Z >-> jsnum.

(** [if (n)] on a number: [0] and [NaN] are falsy. *)
Definition truthy (n : jsnum) : bool :=
  match n with
  | NaN => false
  | Num z => negb (z =? 0)
  | Frac _ => true
  | Infinity _ => true
  end.

(** [if (s)] on a string: only the empty string is falsy. *)
Definition truthy_string (s : string) : bool :=
  match s with
  | EmptyString => false
  | String _ _ => true
  end.

(** A field of a parsed JSON body. *)
Inductive jsval : Type :=
| JUndefined
| JNull
| JBool (b : bool)
| JNumber (n : jsnum)
| JString (s : string)
| JObject.

Definition typeof (v : jsval) : string :=
  match v with
  | JUndefined => "undefined"
  | JNull => "object"
  | JBool _ => "boolean"
  | JNumber _ => "number"
  | JString _ => "string"
  | JObject => "object"
  end.

(** ** Times of day *)

Definition char_between (lo hi c : ascii) : bool :=
  ((N_of_ascii lo <=? N_of_ascii c) && (N_of_ascii c <=? N_of_ascii hi))%N.

(** [\d] *)
Definition is_digit (c : ascii) : bool := char_between "0" "9" c.

Definition digit_value (c : ascii) : Z := Z.of_N (N_of_ascii c) - 48.

(** [/^([01]\d|2[0-3]):[0-5]\d$/.test(s)] *)
Definition timeRegex_test (s : string) : bool :=
  match s with
  | String h1 (String h2 (String c (String m1 (String m2 EmptyString)))) =>
      ((char_between "0" "1" h1 && is_digit h2)
       || (Ascii.eqb h1 "2" && char_between "0" "3" h2))
      && Ascii.eqb c ":"
      && char_between "0" "5" m1
      && is_digit m2
  | _ => false
  end.

(** [toTime(t) = new Date(`1970-01-01T${t}:00Z`)], as the milliseconds of the
    resulting instant.  The routes call it only on strings [timeRegex]
    accepts; on those the instant lies on 1970-01-01 and equals the time of
    day. *)
Definition toTime (t : string) : Z :=
  match t with
  | String h1 (String h2 (String _ (String m1 (String m2 _)))) =>
      ((digit_value h1 * 10 + digit_value h2) * 60
       + (digit_value m1 * 10 + digit_value m2)) * 60000
  | _ => 0
  end.

(** ** Tables *)

Inductive status : Type :=
| reserved
| canceled.

Definition status_eqb (a b : status) : bool :=
  match a, b with
  | reserved, reserved => true
  | canceled, canceled => true
  | _, _ => false
  end.

(** The NVARCHAR stored in [Reservations.status]. *)
Definition status_text (s : status) : string :=
  match s with
  | reserved => "reserved"
  | canceled => "canceled"
  end.

Module Users.
Record row : Type := mk {
  id : Z;
  last_name : string;
  first_name : string;
  email : string;
  password : string;
  role : string
}.
End Users.

Module Seats.
Record row : Type := mk {
  id : Z;
  name : string
}.
End Seats.

Module Reservations.
Record row : Type := mk {
  id : Z;
  user_id : Z;
  seat_id : Z;
  reserved_date : Z;
  start_time : Z;
  end_time : Z;
  status : status;
  created_at : Z
}.
End Reservations.

Record Tables : Type := mkTables {
  tUsers : list Users.row;
  tSeats : list Seats.row;
  tReservations : list Reservations.row
}.

(** ** The store as a handler sees it *)

(** What a handler sends to the database. *)
Inductive call : Type :=
| Begin
| Commit
| Rollback
| SelectReservation      (* checkReservationExists *)
| SelectUser             (* checkUserExists *)
| SelectSeat             (* checkSeatExists *)
| SelectOverlap          (* checkOverlap *)
| InsertReservation      (* createReservation *)
| UpdateCanceled         (* cancelReservation *)
| SelectList.            (* the query of GET *)

(** A thrown value. *)
Inductive error : Type :=
| DriverError (n : nat)      (* the n-th call was rejected *)
| InvalidDate                (* a string that is no DATE *)
| InvalidNumber              (* a number that is no INT *)
| ForeignKeyViolation
| NoTransaction
| ConnectionError.           (* the pool did not connect *)

Inductive conn : Type :=
| OnTransaction
| OnPool.

(** [console.error(label, err)] *)
Record logline : Type := mkLog {
  log_label : string;
  log_error : error
}.

Record World : Type := mkWorld {
  committed : Tables;          (* what every connection reads *)
  identity : Z;                (* next IDENTITY(1,1) of Reservations;
                                  a rollback does not give a value back *)
  tx : option Tables;          (* tables of the open transaction *)
  trace : list (call * bool);  (* calls issued, with success *)
  console : list logline
}.

Record Env : Type := mkEnv {
  fails : nat -> bool;         (* is the n-th call rejected? *)
  GETDATE : nat -> Z;          (* server clock at the n-th call *)
  connected : bool             (* did the [pool] promise resolve? *)
}.

Definition no_faults (clock : nat -> Z) : Env :=
  {| fails := fun _ => false; GETDATE := clock; connected := true |}.

Inductive result (A : Type) : Type :=
| Ok (a : A)
| Throw (e : error).
Arguments Ok {A} a.
Arguments Throw {A} e.

Definition is_ok {A} (r : result A) : bool :=
  match r with
  | Ok _ => true
  | Throw _ => false
  end.

(** An [async] computation: it ends with a value or a thrown error. *)
Definition M (A : Type) : Type := World -> result A * World.

Definition ret {A} (a : A) : M A := fun w => (Ok a, w).

Definition bind {A B} (m : M A) (k : A -> M B) : M B :=
  fun w =>
    match m w with
    | (Ok a, w') => k a w'
    | (Throw e, w') => (Throw e, w')
    end.

(** [try { body } catch (err) { handler }] *)
Definition try_catch {A} (body : M A) (handler : error -> M A) : M A :=
  fun w =>
    match body w with
    | (Ok a, w') => (Ok a, w')
    | (Throw e, w') => handler e w'
    end.

Declare Scope async_scope.
Delimit Scope async_scope with async.
Notation "x <- m ;; k" := (bind m (fun x => k))
  (at level 61, m at next level, right associativity) : async_scope.
Notation "m ;; k" := (bind m (fun _ => k))
  (at level 61, right associativity) : async_scope.
Local Open Scope async_scope.

(** The result of a query that is put together from several parameters. *)
Definition and_then {A B} (r : result A) (k : A -> result B) : result B :=
  match r with
  | Ok a => k a
  | Throw e => Throw e
  end.

Definition console_error (label : string) (e : error) : M unit :=
  fun w =>
    (Ok tt,
     {| committed := committed w; identity := identity w; tx := tx w;
        trace := trace w; console := console w ++ [mkLog label e] |}).

Definition record (c : call) (ok : bool) (w : World) : World :=
  {| committed := committed w; identity := identity w; tx := tx w;
     trace := trace w ++ [(c, ok)]; console := console w |}.

(** One round trip to the database: rejected by the environment, or run. *)
Definition issue {A} (E : Env) (c : call) (run : World -> result A * World)
  : M A :=
  fun w =>
    let n := List.length (trace w) in
    if fails E n then (Throw (DriverError n), record c false w)
    else let (r, w') := run w in (r, record c (is_ok r) w').

Definition set_tx (t : option Tables) (w : World) : World :=
  {| committed := committed w; identity := identity w; tx := t;
     trace := trace w; console := console w |}.

(** [await pool] *)
Definition await_pool (E : Env) : M unit :=
  fun w => if connected E then (Ok tt, w) else (Throw ConnectionError, w).

(** [transaction.begin()] *)
Definition begin (E : Env) : M unit :=
  issue E Begin (fun w => (Ok tt, set_tx (Some (committed w)) w)).

(** [transaction.commit()] *)
Definition commit (E : Env) : M unit :=
  issue E Commit (fun w =>
    match tx w with
    | Some t =>
        (Ok tt,
         {| committed := t; identity := identity w; tx := None;
            trace := trace w; console := console w |})
    | None => (Throw NoTransaction, w)
    end).

(** [transaction.rollback()].  That the driver may refuse to roll back, a
    transaction that never began for one, is left to the environment. *)
Definition rollback (E : Env) : M unit :=
  issue E Rollback (fun w => (Ok tt, set_tx None w)).

(** The tables a request on [transactionOrPool] reads. *)
Definition view (c : conn) (w : World) : option Tables :=
  match c with
  | OnTransaction => tx w
  | OnPool => Some (committed w)
  end.

(** A SELECT. *)
Definition select {A} (E : Env) (c : call) (on : conn)
  (q : Tables -> result A) : M A :=
  issue E c (fun w =>
    match view on w with
    | Some t => (q t, w)
    | None => (Throw NoTransaction, w)
    end).

(** An INSERT or UPDATE: it replaces the tables the connection works on. *)
Definition put_view (on : conn) (t : Tables) (w : World) : World :=
  match on with
  | OnTransaction => set_tx (Some t) w
  | OnPool =>
      {| committed := t; identity := identity w; tx := tx w;
         trace := trace w; console := console w |}
  end.

(** [result.recordset.length > 0] *)
Definition nonempty {A} (recordset : list A) : bool :=
  match recordset with
  | [] => false
  | _ :: _ => true
  end.

(** The values of an INT. *)
Definition int32 (z : Z) : bool :=
  (-2147483648 <=? z) && (z <=? 2147483647).

(** The value [req.input(name, sql.Int, n)] sends.  The driver's validation
    of an INT throws on [NaN] and on a number below -2147483648 or above
    2147483647, and answers [n | 0] otherwise, which cuts a fraction off
    towards zero.  [None]: it throws. *)
Definition sqlInt (n : jsnum) : option Z :=
  match n with
  | Num z => if int32 z then Some z else None
  | Frac floor =>
      if (-2147483648 <=? floor) && (floor <=? 2147483646)
      then Some (if 0 <=? floor then floor else floor + 1)
      else None
  | NaN => None
  | Infinity _ => None
  end.

(** [if (v) { sqlQuery += " AND col = @v"; request.input("v", v) }] for a
    numeric parameter, which is bound without a type.  For an integer of
    the INT range the driver picks INT.  For another number it picks BIGINT
    or FLOAT; whether such a query fails, in the driver or on the server, is
    left to [refused], and when it runs no INT equals a number that is no
    integer. *)
Definition and_number (refused : jsnum -> bool) (v : option jsnum)
  : result (Z -> bool) :=
  match v with
  | Some n =>
      if truthy n
      then
        match n with
        | Num z =>
            if int32 z || negb (refused n)
            then Ok (fun col => col =? z)
            else Throw InvalidNumber
        | _ =>
            if refused n then Throw InvalidNumber else Ok (fun _ => false)
        end
      else Ok (fun _ => true)
  | None => Ok (fun _ => true)
  end.

(** A string parameter a route uses only when it is truthy. *)
Definition supplied (v : option string) : option string :=
  match v with
  | Some s => if truthy_string s then Some s else None
  | None => None
  end.

Definition set_status (s : status) (r : Reservations.row) : Reservations.row :=
  {| Reservations.id := Reservations.id r;
     Reservations.user_id := Reservations.user_id r;
     Reservations.seat_id := Reservations.seat_id r;
     Reservations.reserved_date := Reservations.reserved_date r;
     Reservations.start_time := Reservations.start_time r;
     Reservations.end_time := Reservations.end_time r;
     Reservations.status := s;
     Reservations.created_at := Reservations.created_at r |}.

Definition with_reservations (t : Tables) (rs : list Reservations.row)
  : Tables :=
  {| tUsers := tUsers t; tSeats := tSeats t; tReservations := rs |}.

(** [UPDATE Reservations SET status = 'canceled' WHERE id = @id] *)
Definition update_canceled (id : Z) (t : Tables) : Tables :=
  with_reservations t
    (map (fun r => if Reservations.id r =? id then set_status canceled r else r)
       (tReservations t)).

(** The row of [INSERT INTO Reservations (...) VALUES (..., 'reserved')]. *)
Definition inserted (id userId seatId date startTime endTime now : Z)
  : Reservations.row :=
  {| Reservations.id := id;
     Reservations.user_id := userId;
     Reservations.seat_id := seatId;
     Reservations.reserved_date := date;
     Reservations.start_time := startTime;
     Reservations.end_time := endTime;
     Reservations.status := reserved;
     Reservations.created_at := now |}.

Definition insert_row (r : Reservations.row) (t : Tables) : Tables :=
  with_reservations t (tReservations t ++ [r]).

Definition has_user (t : Tables) (userId : Z) : bool :=
  nonempty (filter (fun u => Users.id u =? userId) (tUsers t)).

Definition has_seat (t : Tables) (seatId : Z) : bool :=
  nonempty (filter (fun s => Seats.id s =? seatId) (tSeats t)).

(** [WHERE id = @id AND status = 'reserved'] *)
Definition where_reserved (id : Z) (r : Reservations.row) : bool :=
  (Reservations.id r =? id) && status_eqb (Reservations.status r) reserved.

(** The WHERE clause of [checkOverlap]. *)
Definition where_overlap (seatId date startTime endTime : Z)
  (excludeId : option Z) (r : Reservations.row) : bool :=
  (Reservations.seat_id r =? seatId)
  && (Reservations.reserved_date r =? date)
  && status_eqb (Reservations.status r) reserved
  && (Reservations.start_time r <? endTime)
  && (Reservations.end_time r >? startTime)
  && match excludeId with
     | Some x => negb (Reservations.id r =? x)
     | None => true
     end.

(** ** What a route answers *)

Module Formatted.
Record row : Type := mk {
  reservation_id : Z;
  user_id : Z;
  first_name : string;
  last_name : string;
  seat_id : Z;
  seat_name : string;
  reserved_date : Z;
  start_time : Z;
  end_time : Z;
  status : status
}.
End Formatted.

Inductive payload : Type :=
| ErrorBody (error : string)
| MessageBody (message : string)
| ReservationBody (message : string) (reservation : Reservations.row)
| ListBody (rows : list Formatted.row).

(** [res.status(code).json(body)] *)
Record Response : Type := mkResponse {
  code : Z;
  body : payload
}.

(** [req.body] of POST and PUT. *)
Record Body : Type := mkBody {
  userId : jsval;
  seatId : jsval;
  reservedDate : jsval;
  startTime : jsval;
  endTime : jsval
}.

(** [req.query] of GET. *)
Module Query.
Record t : Type := mk {
  userId : option string;
  fromDate : option string;
  toDate : option string;
  seatId : option string;
  status : option string;
  order : option string
}.
End Query.

Definition joined_row : Type := (Reservations.row * Users.row * Seats.row)%type.

(** [FROM Reservations r JOIN Users u ON r.user_id = u.id
     JOIN Seats s ON r.seat_id = s.id] *)
Definition join (t : Tables) : list joined_row :=
  flat_map (fun r =>
    flat_map (fun u =>
      map (fun s => (r, u, s))
        (filter (fun s => Reservations.seat_id r =? Seats.id s) (tSeats t)))
      (filter (fun u => Reservations.user_id r =? Users.id u) (tUsers t)))
    (tReservations t).

(** Does [a] come before [b] under
    [ORDER BY r.reserved_date DESC, r.start_time DESC]? *)
Definition before (a b : joined_row) : bool :=
  let ra := fst (fst a) in
  let rb := fst (fst b) in
  (Reservations.reserved_date rb <? Reservations.reserved_date ra)
  || ((Reservations.reserved_date rb =? Reservations.reserved_date ra)
      && (Reservations.start_time rb <=? Reservations.start_time ra)).

Fixpoint place (x : joined_row) (l : list joined_row) : list joined_row :=
  match l with
  | [] => [x]
  | y :: l' => if before x y then x :: l else y :: place x l'
  end.

Definition order_by (l : list joined_row) : list joined_row :=
  fold_right place [] l.

(** The object GET builds from a record of the result; the date and the
    times are kept as values, not cut out of their ISO strings. *)
Definition format (j : joined_row) : Formatted.row :=
  let '(r, u, s) := j in
  {| Formatted.reservation_id := Reservations.id r;
     Formatted.user_id := Reservations.user_id r;
     Formatted.first_name := Users.first_name u;
     Formatted.last_name := Users.last_name u;
     Formatted.seat_id := Reservations.seat_id r;
     Formatted.seat_name := Seats.name s;
     Formatted.reserved_date := Reservations.reserved_date r;
     Formatted.start_time := Reservations.start_time r;
     Formatted.end_time := Reservations.end_time r;
     Formatted.status := Reservations.status r |}.

(** ** The routes *)

Section Routes.

(** [Number(s)] of JavaScript. *)
Variable Number : string -> jsnum.

(** The DATE the driver sends for [req.input(name, sql.Date, s)];
    [None]: the driver refuses the string. *)
Variable dateParam : string -> option Z.

(** The DATE the server compares a DATE column with when the parameter is a
    string; [None]: the conversion fails. *)
Variable dateCast : string -> option Z.

(** Does a query fail that binds this number, which is no INT, without a
    type? *)
Variable refused : jsnum -> bool.

(** [a = b] on two NVARCHARs, as the collation of the database has it. *)
Variable nvarchar_eq : string -> string -> bool.

Definition checkReservationExists (E : Env) (transactionOrPool : conn)
  (id : jsnum) : M bool :=
  select E SelectReservation transactionOrPool (fun t =>
    match sqlInt id with
    | Some id => Ok (nonempty (filter (where_reserved id) (tReservations t)))
    | None => Throw InvalidNumber
    end).

Definition checkUserExists (E : Env) (transactionOrPool : conn)
  (userId : jsnum) : M bool :=
  select E SelectUser transactionOrPool (fun t =>
    match sqlInt userId with
    | Some userId => Ok (has_user t userId)
    | None => Throw InvalidNumber
    end).

Definition checkSeatExists (E : Env) (transactionOrPool : conn)
  (seatId : jsnum) : M bool :=
  select E SelectSeat transactionOrPool (fun t =>
    match sqlInt seatId with
    | Some seatId => Ok (has_seat t seatId)
    | None => Throw InvalidNumber
    end).

Definition checkOverlap (E : Env) (transactionOrPool : conn)
  (seatId : jsnum) (reservedDate : string) (startTime endTime : Z)
  (excludeId : option jsnum) : M bool :=
  select E SelectOverlap transactionOrPool (fun t =>
    match sqlInt seatId with
    | None => Throw InvalidNumber
    | Some seatId =>
        match dateParam reservedDate with
        | None => Throw InvalidDate
        | Some date =>
            match excludeId with
            | None =>
                Ok (nonempty
                      (filter (where_overlap seatId date startTime endTime None)
                         (tReservations t)))
            | Some excludeId =>
                match sqlInt excludeId with
                | None => Throw InvalidNumber
                | Some excludeId =>
                    Ok (nonempty
                          (filter
                             (where_overlap seatId date startTime endTime
                                (Some excludeId))
                             (tReservations t)))
                end
            end
        end
    end).

(** [result.recordset[0]] of the INSERT with [OUTPUT INSERTED.*]. *)
Definition createReservation (E : Env) (transactionOrPool : conn)
  (userId seatId : jsnum) (reservedDate : string) (startTime endTime : Z)
  : M Reservations.row :=
  issue E InsertReservation (fun w =>
    match view transactionOrPool w with
    | None => (Throw NoTransaction, w)
    | Some t =>
        match sqlInt userId with
        | None => (Throw InvalidNumber, w)
        | Some userId =>
            match sqlInt seatId with
            | None => (Throw InvalidNumber, w)
            | Some seatId =>
                match dateParam reservedDate with
                | None => (Throw InvalidDate, w)
                | Some date =>
                    if has_user t userId && has_seat t seatId
                    then
                      let r :=
                        inserted (identity w) userId seatId date startTime
                          endTime (GETDATE E (List.length (trace w))) in
                      let w' := put_view transactionOrPool (insert_row r t) w in
                      (Ok r,
                       {| committed := committed w';
                          identity := identity w + 1;
                          tx := tx w'; trace := trace w';
                          console := console w' |})
                    else (Throw ForeignKeyViolation, w)
                end
            end
        end
    end).

Definition cancelReservation (E : Env) (transactionOrPool : conn)
  (id : jsnum) : M unit :=
  issue E UpdateCanceled (fun w =>
    match view transactionOrPool w with
    | None => (Throw NoTransaction, w)
    | Some t =>
        match sqlInt id with
        | None => (Throw InvalidNumber, w)
        | Some id =>
            (Ok tt, put_view transactionOrPool (update_canceled id t) w)
        end
    end).

(** The WHERE clause GET assembles. *)
Definition where_list (userId seatId : Z -> bool)
  (fromDate toDate : option Z) (status : option string)
  (j : joined_row) : bool :=
  let r := fst (fst j) in
  userId (Reservations.user_id r)
  && match fromDate with
     | Some d => d <=? Reservations.reserved_date r
     | None => true
     end
  && match toDate with
     | Some d => Reservations.reserved_date r <=? d
     | None => true
     end
  && seatId (Reservations.seat_id r)
  && match status with
     | Some s => nvarchar_eq (status_text (Reservations.status r)) s
     | None => true
     end.

(** A date string bound to the query of GET, when it is used at all. *)
Definition cast_supplied (v : option string) : result (option Z) :=
  match supplied v with
  | Some s =>
      match dateCast s with
      | Some d => Ok (Some d)
      | None => Throw InvalidDate
      end
  | None => Ok None
  end.

(** [req.query.v ? Number(req.query.v) : undefined] *)
Definition number_supplied (v : option string) : option jsnum :=
  match supplied v with
  | Some s => Some (Number s)
  | None => None
  end.

(** The query GET puts together, on the tables: the parameters are bound
    in the order [userId], [fromDate], [toDate], [seatId], [status]. *)
Definition list_query (userId : option jsnum) (fromDate toDate : option string)
  (seatId : option jsnum) (status : option string) (order : bool)
  (t : Tables) : result (list joined_row) :=
  and_then (and_number refused userId) (fun user =>
  and_then (cast_supplied fromDate) (fun from =>
  and_then (cast_supplied toDate) (fun to =>
  and_then (and_number refused seatId) (fun seat =>
    let rows :=
      filter (where_list user seat from to (supplied status)) (join t) in
    Ok (if order then order_by rows else rows))))).

(** GET /api/reservations *)
Definition router_get (E : Env) (query : Query.t) : M Response :=
  let userId := number_supplied (Query.userId query) in
  let fromDate := Query.fromDate query in
  let toDate := Query.toDate query in
  let seatId := number_supplied (Query.seatId query) in
  let status := Query.status query in
  let order :=
    match Query.order query with
    | Some s => String.eqb s "true"
    | None => false
    end in
  try_catch
    (await_pool E ;;
     recordset <- select E SelectList OnPool
                    (list_query userId fromDate toDate seatId status order) ;;
     ret (mkResponse 200 (ListBody (map format recordset))))
    (fun error =>
       console_error "" error ;;
       ret (mkResponse 500 (ErrorBody "DB error"))).

(** DELETE /api/reservations/:id *)
Definition router_delete (E : Env) (params_id : string) : M Response :=
  let reservationId := Number params_id in
  if negb (truthy reservationId)
  then ret (mkResponse 400 (ErrorBody "Reservation ID required"))
  else
    await_pool E ;;
    let transaction := OnTransaction in
    try_catch
      (begin E ;;
       exists_ <- checkReservationExists E transaction reservationId ;;
       if negb exists_
       then
         rollback E ;;
         ret (mkResponse 404
                (ErrorBody "Reservation not found or already canceled"))
       else
         cancelReservation E transaction reservationId ;;
         commit E ;;
         ret (mkResponse 200 (MessageBody "Reservation canceled")))
      (fun err =>
         console_error "Delete error:" err ;;
         rollback E ;;
         ret (mkResponse 500 (ErrorBody "Failed to cancel reservation"))).

(** The transaction of POST, from [new sql.Transaction(db)] on. *)
Definition post_transaction (E : Env) (userId seatId : jsnum)
  (reservedDate : string) (parsedStart parsedEnd : Z) : M Response :=
  let transaction := OnTransaction in
  try_catch
    (begin E ;;
     user <- checkUserExists E transaction userId ;;
     if negb user
     then rollback E ;; ret (mkResponse 404 (ErrorBody "User not found"))
     else
       seat <- checkSeatExists E transaction seatId ;;
       if negb seat
       then rollback E ;; ret (mkResponse 404 (ErrorBody "Seat not found"))
       else
         overlap <- checkOverlap E transaction seatId reservedDate
                      parsedStart parsedEnd None ;;
         if overlap
         then
           rollback E ;;
           ret (mkResponse 409
                  (ErrorBody "Seat already reserved during that time"))
         else
           newReservation <- createReservation E transaction userId seatId
                               reservedDate parsedStart parsedEnd ;;
           commit E ;;
           ret (mkResponse 201
                  (ReservationBody "Reservation created" newReservation)))
    (fun err =>
       console_error "Reservation POST error:" err ;;
       try_catch (rollback E)
         (fun rollbackErr => console_error "Rollback failed:" rollbackErr) ;;
       ret (mkResponse 500 (ErrorBody "Reservation failed"))).

(** POST /api/reservations.  The two validation blocks of the handler test
    the same five [typeof]s, the second one the two time strings as well;
    both answer with the same body. *)
Definition router_post (E : Env) (req_body : Body) : M Response :=
  match userId req_body, seatId req_body, reservedDate req_body,
        startTime req_body, endTime req_body with
  | JNumber userId, JNumber seatId, JString reservedDate,
    JString startTime, JString endTime =>
      if negb (timeRegex_test startTime) || negb (timeRegex_test endTime)
      then ret (mkResponse 400 (ErrorBody "Missing or invalid parameters"))
      else if toTime startTime >=? toTime endTime
      then ret (mkResponse 400
                  (ErrorBody "startTime must be earlier than endTime"))
      else
        await_pool E ;;
        post_transaction E userId seatId reservedDate
          (toTime startTime) (toTime endTime)
  | _, _, _, _, _ =>
      ret (mkResponse 400 (ErrorBody "Missing or invalid parameters"))
  end.

(** The transaction of PUT, from [new sql.Transaction(db)] on. *)
Definition put_transaction (E : Env) (reservationId userId seatId : jsnum)
  (reservedDate : string) (parsedStart parsedEnd : Z) : M Response :=
  let transaction := OnTransaction in
  try_catch
    (begin E ;;
     found <- checkReservationExists E transaction reservationId ;;
     if negb found
     then
       rollback E ;;
       ret (mkResponse 404
              (ErrorBody "Reservation not found or already canceled"))
     else
       user <- checkUserExists E transaction userId ;;
       if negb user
       then rollback E ;; ret (mkResponse 404 (ErrorBody "User not found"))
       else
         seat <- checkSeatExists E transaction seatId ;;
         if negb seat
         then rollback E ;; ret (mkResponse 404 (ErrorBody "Seat not found"))
         else
           overlap <- checkOverlap E transaction seatId reservedDate
                        parsedStart parsedEnd (Some reservationId) ;;
           if overlap
           then
             rollback E ;;
             ret (mkResponse 409
                    (ErrorBody "Seat already reserved during that time"))
           else
             cancelReservation E transaction reservationId ;;
             newReservation <- createReservation E transaction userId seatId
                                 reservedDate parsedStart parsedEnd ;;
             commit E ;;
             ret (mkResponse 200
                    (ReservationBody "Reservation updated" newReservation)))
    (fun err =>
       console_error "Transaction error during reservation update:" err ;;
       try_catch (rollback E)
         (fun rollbackErr => console_error "Rollback failed:" rollbackErr) ;;
       ret (mkResponse 500 (ErrorBody "Failed to update reservation"))).

(** PUT /api/reservations/:id *)
Definition router_put (E : Env) (params_id : string) (req_body : Body)
  : M Response :=
  let reservationId := Number params_id in
  match userId req_body, seatId req_body, reservedDate req_body,
        startTime req_body, endTime req_body with
  | JNumber userId, JNumber seatId, JString reservedDate,
    JString startTime, JString endTime =>
      if negb (truthy reservationId)
         || negb (timeRegex_test startTime)
         || negb (timeRegex_test endTime)
      then ret (mkResponse 400 (ErrorBody "Missing or invalid parameters"))
      else if toTime startTime >=? toTime endTime
      then ret (mkResponse 400
                  (ErrorBody "startTime must be earlier than endTime"))
      else
        await_pool E ;;
        put_transaction E reservationId userId seatId reservedDate
          (toTime startTime) (toTime endTime)
  | _, _, _, _, _ =>
      ret (mkResponse 400 (ErrorBody "Missing or invalid parameters"))
  end.

(** A request arrives: the handler starts with a transaction object of its
    own and has issued no call yet. *)
Definition arrive (db : Tables) (next_id : Z) : World :=
  {| committed := db; identity := next_id; tx := None;
     trace := []; console := [] |}.

End Routes.

(** ** The service as a transition system *)

Inductive request : Type :=
| GET (query : Query.t)
| DELETE (params_id : string)
| POST (req_body : Body)
| PUT (params_id : string) (req_body : Body).

(** What outlives a request: the committed tables and the identity counter. *)
Definition Server : Type := (Tables * Z)%type.

Section Service.

Variable Number : string -> jsnum.
Variable dateParam : string -> option Z.
Variable dateCast : string -> option Z.
Variable refused : jsnum -> bool.
Variable nvarchar_eq : string -> string -> bool.

Definition handle (E : Env) (rq : request) : M Response :=
  match rq with
  | GET query => router_get Number dateCast refused nvarchar_eq E query
  | DELETE params_id => router_delete Number E params_id
  | POST req_body => router_post dateParam E req_body
  | PUT params_id req_body => router_put Number dateParam E params_id req_body
  end.

Definition serve (E : Env) (rq : request) (s : Server) : Server :=
  let w := snd (handle E rq (arrive (fst s) (snd s))) in
  (committed w, identity w).

(** The states the service can be in after any requests, under any
    environments, from [init]. *)
Inductive reachable (init : Server) : Server -> Prop :=
| reachable_init : reachable init init
| reachable_serve : forall s E rq,
    reachable init s -> reachable init (serve E rq s).

End Service.

(** Every reservation starts before it ends. *)
Definition times_ordered (t : Tables) : Prop :=
  forall r, In r (tReservations t) ->
    Reservations.start_time r < Reservations.end_time r.

(** In a trace, is every INSERT issued right after an UPDATE that went
    through? *)
Fixpoint cancel_before_insert (prev : option (call * bool))
  (tr : list (call * bool)) : bool :=
  match tr with
  | [] => true
  | (InsertReservation, ok) :: tr' =>
      match prev with
      | Some (UpdateCanceled, true) =>
          cancel_before_insert (Some (InsertReservation, ok)) tr'
      | _ => false
      end
  | e :: tr' => cancel_before_insert (Some e) tr'
  end.

(** Has [call] been issued? *)
Definition issued (c : call) (tr : list (call * bool)) : bool :=
  existsb (fun e =>
    match fst e, c with
    | Begin, Begin | Commit, Commit | Rollback, Rollback
    | SelectReservation, SelectReservation | SelectUser, SelectUser
    | SelectSeat, SelectSeat | SelectOverlap, SelectOverlap
    | InsertReservation, InsertReservation
    | UpdateCanceled, UpdateCanceled | SelectList, SelectList => true
    | _, _ => false
    end) tr.

(** ** Concrete platform functions for the examples *)

Fixpoint digits (acc : Z) (s : string) : option Z :=
  match s with
  | EmptyString => Some acc
  | String c s' =>
      if is_digit c then digits (acc * 10 + digit_value c) s' else None
  end.

(** The digits after a point: is one of them not [0]? *)
Fixpoint fraction (nonzero : bool) (s : string) : option bool :=
  match s with
  | EmptyString => Some nonzero
  | String c s' =>
      if is_digit c
      then fraction (nonzero || negb (Ascii.eqb c "0")) s'
      else None
  end.

(** Digits, or digits, a point and digits: the integer part, and whether a
    fraction is left. *)
Fixpoint unsigned (acc : Z) (s : string) : option (Z * bool) :=
  match s with
  | EmptyString => Some (acc, false)
  | String c s' =>
      if is_digit c then unsigned (acc * 10 + digit_value c) s'
      else if Ascii.eqb c "."
      then match s' with
           | EmptyString => None
           | _ => match fraction false s' with
                  | Some nonzero => Some (acc, nonzero)
                  | None => None
                  end
           end
      else None
  end.

(** [Number] on the empty string and on the strings made of a digit,
    further digits and, optionally, a point with digits, with an optional
    minus sign in front; there it agrees with JavaScript.  Other strings,
    some of which JavaScript reads as numbers, are [NaN] here.  The examples
    use it on strings of the first kind. *)
Definition decimal (s : string) : jsnum :=
  match s with
  | EmptyString => Num 0
  | String "-" (String c s') =>
      if is_digit c
      then match unsigned 0 (String c s') with
           | Some (z, false) => Num (- z)
           | Some (z, true) => Frac (- z - 1)
           | None => NaN
           end
      else NaN
  | String c s' =>
      if is_digit c
      then match unsigned 0 (String c s') with
           | Some (z, false) => Num z
           | Some (z, true) => Frac z
           | None => NaN
           end
      else NaN
  end.

(** Dates written [YYYY-MM-DD], numbered [YYYYMMDD]; for the examples, which
    use days of the calendar. *)
Definition iso_date (s : string) : option Z :=
  match s with
  | String y1 (String y2 (String y3 (String y4 (String "-"
      (String m1 (String m2 (String "-"
        (String d1 (String d2 EmptyString))))))))) =>
      match digits 0 (String y1 (String y2 (String y3 (String y4 ""))) ),
            digits 0 (String m1 (String m2 "")),
            digits 0 (String d1 (String d2 "")) with
      | Some y, Some m, Some d =>
          if (1 <=? m) && (m <=? 12) && (1 <=? d) && (d <=? 31)
          then Some (y * 10000 + m * 100 + d)
          else None
      | _, _, _ => None
      end
  | _ => None
  end.

(** An untyped number that is no INT fails the query when it is infinite;
    for the examples. *)
Definition refuse_infinite (n : jsnum) : bool :=
  match n with
  | Infinity _ => true
  | _ => false
  end.

Definition lower (c : ascii) : ascii :=
  if char_between "A" "Z" c then ascii_of_N (N_of_ascii c + 32) else c.

(** The string without its trailing blanks, in lower case. *)
Fixpoint folded (s : string) : string :=
  match s with
  | EmptyString => EmptyString
  | String c s' =>
      match folded s' with
      | EmptyString =>
          if Ascii.eqb c " " then EmptyString
          else String (lower c) EmptyString
      | rest => String (lower c) rest
      end
  end.

(** Equality of NVARCHARs that ignores trailing blanks and the case of the
    letters A to Z; for the examples. *)
Definition ci_eq (a b : string) : bool := String.eqb (folded a) (folded b).

Definition epoch : nat -> Z := fun _ => 0.

Definition tanaka : Users.row :=
  Users.mk 1 "Tanaka" "Taro" "tanaka@example.com" "pass123" "admin".

Definition suzuki : Users.row :=
  Users.mk 2 "Suzuki" "Hanako" "suzuki@example.com" "pass456" "user".

Definition seat10 : Seats.row := Seats.mk 10 "B-3".

Definition seat11 : Seats.row := Seats.mk 11 "B-4".

(** One user, one seat, no reservation. *)
Definition empty_db : Tables :=
  {| tUsers := [tanaka]; tSeats := [seat10]; tReservations := [] |}.

(** Seat 10 reserved on 2025-07-15 from 14:00 to 15:00 as reservation 1. *)
Definition booked : Reservations.row :=
  Reservations.mk 1 1 10 20250715 50400000 54000000 reserved 0.

Definition booked_db : Tables :=
  {| tUsers := [tanaka]; tSeats := [seat10]; tReservations := [booked] |}.

(** Two users, two seats and four reservations: reservation 1 as above;
    seat 11 reserved that day from 15:00 to 16:00; a canceled reservation
    of seat 10 that day from 15:00 to 16:00; seat 10 reserved the day after
    from 09:00 to 10:00. *)
Definition busy_db : Tables :=
  {| tUsers := [tanaka; suzuki];
     tSeats := [seat10; seat11];
     tReservations :=
       [booked;
        Reservations.mk 2 2 11 20250715 54000000 57600000 reserved 0;
        Reservations.mk 3 1 10 20250715 54000000 57600000 canceled 0;
        Reservations.mk 4 2 10 20250716 32400000 36000000 reserved 0] |}.

Definition body_of (u s : jsnum) (d st en : string) : Body :=
  mkBody (JNumber u) (JNumber s) (JString d) (JString st) (JString en).

(** ** Vocabulary of the statements *)

(** The world a handler leaves behind when its transaction is over and
    nothing was written to the console. *)
Definition ended (tr : list (call * bool)) (t : Tables) (next : Z) : World :=
  {| committed := t; identity := next; tx := None; trace := tr;
     console := [] |}.

Definition not_found : Response :=
  mkResponse 404 (ErrorBody "Reservation not found or already canceled").

Definition user_exists (t : Tables) (userId : Z) : Prop :=
  exists u, In u (tUsers t) /\ Users.id u = userId.

Definition seat_exists (t : Tables) (seatId : Z) : Prop :=
  exists s, In s (tSeats t) /\ Seats.id s = seatId.

(** No row with this id has status [reserved]. *)
Definition no_reserved_row (id : Z) (t : Tables) : Prop :=
  forall r, In r (tReservations t) ->
    ~ (Reservations.id r = id /\ Reservations.status r = reserved).

(** A reserved reservation holds the seat on the date at a time that
    overlaps the interval from [a] to [b]. *)
Definition overlapping (seatId date a b : Z) (r : Reservations.row) : Prop :=
  Reservations.seat_id r = seatId
  /\ Reservations.reserved_date r = date
  /\ Reservations.status r = reserved
  /\ Reservations.start_time r < b
  /\ a < Reservations.end_time r.

(** [new] is [old] with the status [canceled] when it is numbered [id], and
    [old] otherwise. *)
Definition canceled_if (id : Z) (old new : Reservations.row) : Prop :=
  Reservations.id new = Reservations.id old
  /\ Reservations.user_id new = Reservations.user_id old
  /\ Reservations.seat_id new = Reservations.seat_id old
  /\ Reservations.reserved_date new = Reservations.reserved_date old
  /\ Reservations.start_time new = Reservations.start_time old
  /\ Reservations.end_time new = Reservations.end_time old
  /\ Reservations.created_at new = Reservations.created_at old
  /\ Reservations.status new
     = if Reservations.id old =? id then canceled
       else Reservations.status old.

(** [after] holds the rows of [before], in place, those numbered [id]
    canceled and the others as they were. *)
Definition canceled_in_place (id : Z) (before after : list Reservations.row)
  : Prop :=
  Forall2 (canceled_if id) before after.

(** [after] is [before] with the status of the rows numbered [id] set to
    [canceled] and nothing else touched. *)
Definition canceled_only (id : Z) (before after : Tables) : Prop :=
  tUsers after = tUsers before
  /\ tSeats after = tSeats before
  /\ canceled_in_place id (tReservations before) (tReservations after).

(** The tables [t] with the reservations [rows]. *)
Definition reservations_are (t : Tables) (rows : list Reservations.row)
  : Tables :=
  {| tUsers := tUsers t; tSeats := tSeats t; tReservations := rows |}.

(** A numeric filter of the query string is in use: its string is not empty
    and converts to a number other than [0] and [NaN]. *)
Definition in_use (Number : string -> jsnum) (v : option string) (n : jsnum)
  : Prop :=
  exists s, v = Some s /\ s <> "" /\ Number s = n /\ truthy n = true.

(** A reservation satisfies every filter of the query string that is in
    use: a string filter that is not empty, a numeric one that converts to
    a number other than [0] and [NaN]. *)
Definition passes (Number : string -> jsnum) (dateCast : string -> option Z)
  (nvarchar_eq : string -> string -> bool) (q : Query.t)
  (r : Reservations.row) : Prop :=
  (forall n, in_use Number (Query.userId q) n ->
     n = Num (Reservations.user_id r))
  /\ (forall s, Query.fromDate q = Some s -> s <> "" ->
        exists d, dateCast s = Some d /\ d <= Reservations.reserved_date r)
  /\ (forall s, Query.toDate q = Some s -> s <> "" ->
        exists d, dateCast s = Some d /\ Reservations.reserved_date r <= d)
  /\ (forall n, in_use Number (Query.seatId q) n ->
        n = Num (Reservations.seat_id r))
  /\ (forall s, Query.status q = Some s -> s <> "" ->
        nvarchar_eq (status_text (Reservations.status r)) s = true).

(** The query goes through: the pool is connected, the SELECT is not
    rejected, the date strings in use are dates, and a numeric filter in use
    that is no INT does not make the query fail. *)
Definition goes_through (Number : string -> jsnum)
  (dateCast : string -> option Z) (refused : jsnum -> bool) (E : Env)
  (q : Query.t) : Prop :=
  connected E = true
  /\ fails E 0%nat = false
  /\ (forall s, Query.fromDate q = Some s -> s <> "" -> dateCast s <> None)
  /\ (forall s, Query.toDate q = Some s -> s <> "" -> dateCast s <> None)
  /\ (forall n, in_use Number (Query.userId q) n ->
        (exists z, n = Num z /\ int32 z = true) \/ refused n = false)
  /\ (forall n, in_use Number (Query.seatId q) n ->
        (exists z, n = Num z /\ int32 z = true) \/ refused n = false).

(** The query of GET for a query string, on the tables. *)
Definition query_of (Number : string -> jsnum) (dateCast : string -> option Z)
  (refused : jsnum -> bool) (nvarchar_eq : string -> string -> bool)
  (q : Query.t) (t : Tables) : result (list joined_row) :=
  list_query dateCast refused nvarchar_eq
    (number_supplied Number (Query.userId q)) (Query.fromDate q)
    (Query.toDate q) (number_supplied Number (Query.seatId q))
    (Query.status q)
    match Query.order q with
    | Some s => String.eqb s "true"
    | None => false
    end t.

(** The rows GET answered with, if it answered 200. *)
Definition listed (r : result Response) : option (list Formatted.row) :=
  match r with
  | Ok {| code := 200; body := ListBody rows |} => Some rows
  | _ => None
  end.

(** Every call is rejected: the database cannot be reached any more. *)
Definition outage : Env :=
  {| fails := fun _ => true; GETDATE := epoch; connected := true |}.

(** Two reservations hold the same seat on the same date at overlapping
    times. *)
Definition double_booked (a b : Reservations.row) : Prop :=
  Reservations.seat_id a = Reservations.seat_id b
  /\ Reservations.reserved_date a = Reservations.reserved_date b
  /\ Reservations.status a = reserved
  /\ Reservations.status b = reserved
  /\ Reservations.start_time a < Reservations.end_time b
  /\ Reservations.start_time b < Reservations.end_time a.

Definition no_double_booking (t : Tables) : Prop :=
  ForallOrdPairs (fun a b => ~ double_booked a b) (tReservations t).

(** Was some call of the trace rejected or did it throw? *)
Definition failed (tr : list (call * bool)) : bool :=
  existsb (fun e => negb (snd e)) tr.

(** The status code a handler answered with, if it answered. *)
Definition answered (r : result Response) : option Z :=
  match r with
  | Ok response => Some (code response)
  | Throw _ => None
  end.

(** The trace of a rebook that went through. *)
Definition rebook_trace : list (call * bool) :=
  [(Begin, true); (SelectReservation, true); (SelectUser, true);
   (SelectSeat, true); (SelectOverlap, true); (UpdateCanceled, true);
   (InsertReservation, true); (Commit, true)].

(** The trace of a creation that went through. *)
Definition create_trace : list (call * bool) :=
  [(Begin, true); (SelectUser, true); (SelectSeat, true);
   (SelectOverlap, true); (InsertReservation, true); (Commit, true)].

(** Unfolding the routes down to the calls they issue. *)
Ltac run_route :=
  unfold post_transaction, put_transaction, router_delete, router_get,
    checkReservationExists, checkUserExists, checkSeatExists, checkOverlap,
    createReservation, cancelReservation, begin, commit, rollback, select,
    issue, try_catch, bind, ret, console_error, await_pool, arrive, ended;
  cbn.

(** One case split along the run of a route: on what the driver makes of a
    parameter, on the fate of the next call, or on what a check found. *)
Ltac split_call E :=
  match goal with
  | |- context [match sqlInt ?n with Some _ => _ | None => _ end] =>
      destruct (sqlInt n) eqn:?
  | |- context [match ?f ?d with Some _ => _ | None => _ end] =>
      destruct (f d) eqn:?
  | |- context [connected E] => destruct (connected E) eqn:?
  | |- context [fails E ?k] => destruct (fails E k) eqn:?
  | |- context [if negb ?c then _ else _] => destruct c eqn:?
  | |- context [if ?c then _ else _] => destruct c eqn:?
  end; cbn.

(** ** Times on the wire *)

Definition digit_char (d : Z) : ascii := ascii_of_N (Z.to_N (48 + d)).

Definition two_digits (n : Z) : string :=
  String (digit_char (n / 10)) (String (digit_char (n mod 10)) EmptyString).

(** [t.toISOString().substring(11, 16)] for a TIME [t], which the driver
    hands back as an instant of 1970-01-01: the hours and minutes of
    [1970-01-01THH:mm:ss.sssZ]. *)
Definition hhmm (ms : Z) : string :=
  (two_digits (ms / 3600000) ++ ":" ++ two_digits ((ms / 60000) mod 60))%string.

(** ** The seed of [create_reservations.sql] *)

(** The batch variables that matter between statements: the tables, the
    identity counter and how many times [NEWID()] has been evaluated. *)
Record Seeding : Type := mkSeeding {
  seeded : Tables;
  next_identity : Z;
  draws : nat
}.

(** ['2025-07-01'] and ['2025-07-30'] in the numbering of [iso_date];
    between them [DATEADD(DAY, 1, d)] is [d + 1]. *)
Definition july_first : Z := 20250701.
Definition july_last : Z := 20250730.

Section Seed.

(** [CHECKSUM(NEWID())] at its k-th evaluation, and [GETDATE()] then. *)
Variable CHECKSUM_NEWID : nat -> Z.
Variable now : nat -> Z.

(** [ABS(CHECKSUM(NEWID())) % m], the [%] of T-SQL truncating.  [ABS]
    overflows on -2147483648, the one checksum that has no absolute value
    among the INTs; the statements on how many rows are seeded leave that
    checksum out. *)
Definition draw (k : nat) (m : Z) : Z := Z.rem (Z.abs (CHECKSUM_NEWID k)) m.

(** The WHERE clause of the seed's [IF NOT EXISTS]. *)
Definition where_seed (date seat start endTime : Z) (r : Reservations.row)
  : bool :=
  (Reservations.reserved_date r =? date)
  && (Reservations.seat_id r =? seat)
  && ((Reservations.start_time r <? endTime)
      && (Reservations.end_time r >? start)).

(** One turn of the inner loop: three draws, the test, the INSERT.  An
    INSERT the foreign keys refuse inserts nothing and the batch goes on. *)
Definition seed_attempt (date : Z) (st : Seeding) : Seeding :=
  let k := draws st in
  let user := draw k 5 + 1 in
  let seat := draw (S k) 42 + 1 in
  let startSlot := draw (S (S k)) 9 + 9 in
  let start := startSlot * 3600000 in
  let endTime := (startSlot + 1) * 3600000 in
  let t := seeded st in
  if negb (nonempty (filter (where_seed date seat start endTime)
                       (tReservations t)))
     && has_user t user && has_seat t seat
  then
    {| seeded :=
         insert_row
           (inserted (next_identity st) user seat date start endTime
              (now (S (S (S k))))) t;
       next_identity := next_identity st + 1;
       draws := S (S (S k)) |}
  else
    {| seeded := t; next_identity := next_identity st;
       draws := S (S (S k)) |}.

(** [WHILE @i <= limit ... SET @i += 1] *)
Fixpoint seed_attempts (fuel : nat) (i limit date : Z) (st : Seeding)
  : Seeding :=
  match fuel with
  | O => st
  | S fuel' =>
      if i <=? limit
      then seed_attempts fuel' (i + 1) limit date (seed_attempt date st)
      else st
  end.

(** The body of the outer loop for one date: one or two attempts. *)
Definition seed_day (date : Z) (st : Seeding) : Seeding :=
  let randBase := Z.abs (CHECKSUM_NEWID (draws st)) in
  let limit := if Z.rem randBase 2 =? 0 then 1 else 2 in
  seed_attempts 2 1 limit date
    {| seeded := seeded st; next_identity := next_identity st;
       draws := S (draws st) |}.

(** [WHILE @date <= @end ... SET @date = DATEADD(DAY, 1, @date)] *)
Fixpoint seed_dates (fuel : nat) (date : Z) (st : Seeding) : Seeding :=
  match fuel with
  | O => st
  | S fuel' =>
      if date <=? july_last
      then seed_dates fuel' (date + 1) (seed_day date st)
      else st
  end.

(** The batch: it seeds an empty table only. *)
Definition seed_reservations (fuel : nat) (t : Tables) (next_id : Z)
  : Seeding :=
  let st := {| seeded := t; next_identity := next_id; draws := O |} in
  if nonempty (tReservations t) then st else seed_dates fuel july_first st.

End Seed.

(** ** The older POST of [dist/routes/reservations_old.js] *)

(** The older file writes its queries in the handlers.  Its POST issues the
    queries of the present one, with the same typed parameters, and differs
    in one validation message. *)

Section Legacy.

Variable dateParam : string -> option Z.

(** POST /api/reservations, older version *)
Definition router_post_old (E : Env) (req_body : Body) : M Response :=
  match userId req_body, seatId req_body, reservedDate req_body,
        startTime req_body, endTime req_body with
  | JNumber userId, JNumber seatId, JString reservedDate,
    JString startTime, JString endTime =>
      if negb (timeRegex_test startTime) || negb (timeRegex_test endTime)
      then ret (mkResponse 400 (ErrorBody "Time must be in HH:mm format"))
      else if toTime startTime >=? toTime endTime
      then ret (mkResponse 400
                  (ErrorBody "startTime must be earlier than endTime"))
      else
        let parsedStart := toTime startTime in
        let parsedEnd := toTime endTime in
        await_pool E ;;
        let transaction := OnTransaction in
        try_catch
          (begin E ;;
           userCheck <- checkUserExists E transaction userId ;;
           if negb userCheck
           then
             rollback E ;;
             ret (mkResponse 404 (ErrorBody "User not found"))
           else
             seatCheck <- checkSeatExists E transaction seatId ;;
             if negb seatCheck
             then
               rollback E ;;
               ret (mkResponse 404 (ErrorBody "Seat not found"))
             else
               overlap <- checkOverlap dateParam E transaction seatId
                            reservedDate parsedStart parsedEnd None ;;
               if overlap
               then
                 rollback E ;;
                 ret (mkResponse 409
                        (ErrorBody "Seat already reserved during that time"))
               else
                 newRow <- createReservation dateParam E transaction userId
                             seatId reservedDate parsedStart parsedEnd ;;
                 commit E ;;
                 ret (mkResponse 201
                        (ReservationBody "Reservation created" newRow)))
          (fun err =>
             console_error "Reservation POST error:" err ;;
             try_catch (rollback E)
               (fun rollbackErr =>
                  console_error "Rollback failed:" rollbackErr) ;;
             ret (mkResponse 500 (ErrorBody "Reservation failed")))
  | _, _, _, _, _ =>
      ret (mkResponse 400 (ErrorBody "Missing or invalid parameters"))
  end.

End Legacy.

(** ** More vocabulary *)

(** A seeded row: a reserved hour between 09:00 and 18:00 of a day of July
    2025, for one of the users 1 to 5 and one of the seats 1 to 42. *)
Definition seed_row (r : Reservations.row) : Prop :=
  Reservations.status r = reserved
  /\ july_first <= Reservations.reserved_date r <= july_last
  /\ 1 <= Reservations.user_id r <= 5
  /\ 1 <= Reservations.seat_id r <= 42
  /\ (exists slot, 9 <= slot <= 17
        /\ Reservations.start_time r = slot * 3600000
        /\ Reservations.end_time r = (slot + 1) * 3600000).

(** [new] is [old], or [old] canceled. *)
Definition same_or_canceled (old new : Reservations.row) : Prop :=
  new = old \/ new = set_status canceled old.

(** From [a] to [b] users and seats are the same, every reservation of [a]
    is still there, in place, at most canceled, and rows were added at the
    end only. *)
Definition grows (a b : Tables) : Prop :=
  tUsers b = tUsers a
  /\ tSeats b = tSeats a
  /\ exists kept added,
       tReservations b = kept ++ added
       /\ Forall2 same_or_canceled (tReservations a) kept.

(** Reservation ids are pairwise different and below the identity counter. *)
Definition ids_fresh (s : Server) : Prop :=
  NoDup (map Reservations.id (tReservations (fst s)))
  /\ (forall r, In r (tReservations (fst s)) -> Reservations.id r < snd s).

(** Every reservation names a user and a seat of the tables. *)
Definition references_hold (t : Tables) : Prop :=
  forall r, In r (tReservations t) ->
    has_user t (Reservations.user_id r) = true
    /\ has_seat t (Reservations.seat_id r) = true.

(** [a] comes no later than [b] under
    [ORDER BY reserved_date DESC, start_time DESC]. *)
Definition listed_before (a b : Formatted.row) : Prop :=
  Formatted.reserved_date b < Formatted.reserved_date a
  \/ (Formatted.reserved_date b = Formatted.reserved_date a
      /\ Formatted.start_time b <= Formatted.start_time a).

(** The code a route answers a request it carried out with. *)
Definition success_code (rq : request) : Z :=
  match rq with
  | POST _ => 201
  | _ => 200
  end.

(** What the seed keeps true of the tables it works on: users and seats
    as at the start, seeded rows only, none dated after [today], and the
    invariants of the service. *)
Definition seed_keeps (t0 : Tables) (n0 : Z) (today : Z) (st : Seeding)
  : Prop :=
  tUsers (seeded st) = tUsers t0
  /\ tSeats (seeded st) = tSeats t0
  /\ Forall seed_row (tReservations (seeded st))
  /\ Forall (fun r => Reservations.reserved_date r <= today)
       (tReservations (seeded st))
  /\ no_double_booking (seeded st)
  /\ references_hold (seeded st)
  /\ ids_fresh (seeded st, next_identity st)
  /\ next_identity st = n0 + Z.of_nat (List.length (tReservations (seeded st))).

(** The users 1 to 5 and the seats 1 to 42 are there, as after the seeds of
    [Users] and [Seats] on empty tables. *)
Definition stocked (t : Tables) : Prop :=
  (forall u, 1 <= u <= 5 -> has_user t u = true)
  /\ (forall s, 1 <= s <= 42 -> has_seat t s = true).

(** Tables with the users 1 to 5 and the seats 1 to 42 and no reservation,
    and a sequence of checksums, for the examples. *)
Definition bare_db : Tables :=
  {| tUsers := map (fun i => Users.mk (Z.of_nat i) "" "" "" "" "user")
                 (seq 1 5);
     tSeats := map (fun i => Seats.mk (Z.of_nat i) "seat") (seq 1 42);
     tReservations := [] |}.

Definition sample_checksum (k : nat) : Z :=
  (Z.of_nat k * 7919 + 13) * (if Nat.even k then 1 else -1).

(** The status codes a route can answer with. *)
Definition codes (rq : request) : list Z :=
  match rq with
  | GET _ => [200; 500]
  | DELETE _ => [200; 400; 404; 500]
  | POST _ => [201; 400; 404; 409; 500]
  | PUT _ _ => [200; 400; 404; 409; 500]
  end.

(** A query string without its [order] parameter. *)
Definition without_order (q : Query.t) : Query.t :=
  Query.mk (Query.userId q) (Query.fromDate q) (Query.toDate q)
    (Query.seatId q) (Query.status q) None.

(** A body the validation of POST and PUT lets through. *)
Definition valid_body (req_body : Body) : Prop :=
  exists u s d st en,
    req_body = body_of u s d st en
    /\ timeRegex_test st = true
    /\ timeRegex_test en = true
    /\ toTime st < toTime en.

(** A listed row shows this reservation. *)
Definition shows (row : Formatted.row) (r : Reservations.row) : Prop :=
  Formatted.reservation_id row = Reservations.id r
  /\ Formatted.user_id row = Reservations.user_id r
  /\ Formatted.seat_id row = Reservations.seat_id r
  /\ Formatted.reserved_date row = Reservations.reserved_date r
  /\ Formatted.start_time row = Reservations.start_time r
  /\ Formatted.end_time row = Reservations.end_time r
  /\ Formatted.status row = Reservations.status r.

(** The query string with no parameter. *)
Definition no_filter : Query.t := Query.mk None None None None None None.

(** * Properties *)

(** ** Lists and WHERE clauses *)

Lemma nonempty_filter {A} (p : A -> bool) (l : list A) :
  nonempty (filter p l) = true <-> exists x, In x l /\ p x = true.
Proof.
  induction l as [|a l IH]; cbn.
  - split; [discriminate | intros [x [[] _]]].
  - destruct (p a) eqn:Hpa; cbn.
    + split; [intros _; exists a; auto | reflexivity].
    + rewrite IH. split; intros [x [Hin Hp]].
      * exists x; auto.
      * destruct Hin as [->|Hin]; [congruence | exists x; auto].
Qed.

Lemma nonempty_filter_false {A} (p : A -> bool) (l : list A) :
  nonempty (filter p l) = false <-> forall x, In x l -> p x = false.
Proof.
  split.
  - intros Hne x Hin. destruct (p x) eqn:Hp; [|reflexivity].
    assert (nonempty (filter p l) = true) as Habs
      by (apply nonempty_filter; exists x; auto).
    congruence.
  - intros Hall. destruct (nonempty (filter p l)) eqn:Hne; [|reflexivity].
    apply nonempty_filter in Hne as [x [Hin Hp]].
    rewrite (Hall x Hin) in Hp. discriminate.
Qed.

Lemma status_eqb_eq (a b : status) : status_eqb a b = true <-> a = b.
Proof. destruct a, b; cbn; split; congruence. Qed.

(** The WHERE clause of [checkOverlap], read as a proposition. *)
Lemma where_overlap_spec seatId date startTime endTime excludeId r :
  where_overlap seatId date startTime endTime excludeId r = true <->
  overlapping seatId date startTime endTime r
  /\ (forall x, excludeId = Some x -> Reservations.id r <> x).
Proof.
  unfold where_overlap, overlapping.
  rewrite !andb_true_iff, !Z.eqb_eq, status_eqb_eq, Z.ltb_lt, Z.gtb_ltb,
    Z.ltb_lt.
  destruct excludeId as [x|].
  - rewrite negb_true_iff, Z.eqb_neq. split.
    + intros [[[[[? ?] ?] ?] ?] ?]. repeat split; auto. congruence.
    + intros ((? & ? & ? & ? & ?) & Hx). repeat split; auto.
  - split.
    + intros [[[[[? ?] ?] ?] ?] ?]. repeat split; auto. discriminate.
    + intros ((? & ? & ? & ? & ?) & Hx). repeat split; auto.
Qed.

Lemma where_reserved_spec id r :
  where_reserved id r = true <->
  Reservations.id r = id /\ Reservations.status r = reserved.
Proof.
  unfold where_reserved.
  now rewrite andb_true_iff, Z.eqb_eq, status_eqb_eq.
Qed.

Lemma has_user_In t userId : has_user t userId = true <-> user_exists t userId.
Proof.
  unfold has_user, user_exists. rewrite nonempty_filter.
  split; intros (u & Hin & Hu); exists u; split; auto;
    now apply Z.eqb_eq.
Qed.

Lemma has_seat_In t seatId : has_seat t seatId = true <-> seat_exists t seatId.
Proof.
  unfold has_seat, seat_exists. rewrite nonempty_filter.
  split; intros (s & Hin & Hs); exists s; split; auto;
    now apply Z.eqb_eq.
Qed.

Lemma no_user t userId : ~ user_exists t userId -> has_user t userId = false.
Proof.
  intros H. destruct (has_user t userId) eqn:Hu; [|reflexivity].
  exfalso. apply H. now apply has_user_In.
Qed.

Lemma no_seat t seatId : ~ seat_exists t seatId -> has_seat t seatId = false.
Proof.
  intros H. destruct (has_seat t seatId) eqn:Hs; [|reflexivity].
  exfalso. apply H. now apply has_seat_In.
Qed.

(** What the SELECT of [checkOverlap] finds. *)
Lemma overlap_found seatId date a b l :
  nonempty (filter (where_overlap seatId date a b None) l) = true <->
  exists r, In r l /\ overlapping seatId date a b r.
Proof.
  rewrite nonempty_filter. split; intros (r & Hin & H); exists r;
    (split; [exact Hin|]).
  - now apply where_overlap_spec in H.
  - apply where_overlap_spec. split; [exact H | discriminate].
Qed.

Lemma overlap_free seatId date a b l :
  nonempty (filter (where_overlap seatId date a b None) l) = false <->
  forall r, In r l -> ~ overlapping seatId date a b r.
Proof.
  rewrite nonempty_filter_false. split; intros H r Hin.
  - intros Hov. specialize (H r Hin).
    assert (where_overlap seatId date a b None r = true) as Ht
      by (apply where_overlap_spec; split; [exact Hov | discriminate]).
    congruence.
  - destruct (where_overlap seatId date a b None r) eqn:Hw; [|reflexivity].
    apply where_overlap_spec in Hw as [Hov _]. destruct (H r Hin Hov).
Qed.

Lemma overlap_free_besides seatId date a b id l :
  nonempty (filter (where_overlap seatId date a b (Some id)) l) = false <->
  forall r, In r l -> overlapping seatId date a b r -> Reservations.id r = id.
Proof.
  rewrite nonempty_filter_false. split; intros H r Hin.
  - intros Hov. specialize (H r Hin).
    destruct (Z.eq_dec (Reservations.id r) id) as [Heq|Hne]; [exact Heq|].
    assert (where_overlap seatId date a b (Some id) r = true) as Ht.
    { apply where_overlap_spec. split; [exact Hov|].
      intros x Hx. inversion Hx. subst. exact Hne. }
    congruence.
  - destruct (where_overlap seatId date a b (Some id) r) eqn:Hw;
      [|reflexivity].
    apply where_overlap_spec in Hw as [Hov Hne].
    destruct (Hne id eq_refl (H r Hin Hov)).
Qed.

Lemma no_reserved_row_iff id t :
  nonempty (filter (where_reserved id) (tReservations t)) = false
  <-> no_reserved_row id t.
Proof.
  rewrite nonempty_filter_false. unfold no_reserved_row.
  split; intros H r Hin.
  - rewrite <- where_reserved_spec, (H r Hin). discriminate.
  - specialize (H r Hin). rewrite <- where_reserved_spec in H.
    destruct (where_reserved id r); congruence.
Qed.

Lemma reserved_row_found id t :
  nonempty (filter (where_reserved id) (tReservations t)) = true
  <-> exists r, In r (tReservations t)
        /\ Reservations.id r = id /\ Reservations.status r = reserved.
Proof.
  rewrite nonempty_filter. split; intros (r & Hin & H); exists r;
    (split; [exact Hin|]); now apply where_reserved_spec.
Qed.

(** What the UPDATE of [cancelReservation] does to the rows. *)
Lemma update_canceled_in_place id t :
  canceled_in_place id (tReservations t)
    (tReservations (update_canceled id t)).
Proof.
  unfold canceled_in_place, update_canceled. cbn.
  induction (tReservations t) as [|r l IH]; cbn; constructor; auto.
  unfold canceled_if.
  destruct (Reservations.id r =? id); cbn; repeat split; reflexivity.
Qed.

Lemma update_canceled_only id t : canceled_only id t (update_canceled id t).
Proof.
  split; [reflexivity|]. split; [reflexivity|].
  apply update_canceled_in_place.
Qed.

Lemma update_canceled_no_reserved id t :
  nonempty (filter (where_reserved id) (tReservations (update_canceled id t)))
  = false.
Proof.
  apply nonempty_filter_false. intros r Hin. cbn in Hin.
  apply in_map_iff in Hin as [r0 [<- _]].
  unfold where_reserved.
  destruct (Z.eqb_spec (Reservations.id r0) id) as [Heq|Hne]; cbn.
  - rewrite Heq, Z.eqb_refl. reflexivity.
  - apply Z.eqb_neq in Hne. rewrite Hne. reflexivity.
Qed.

(** An integer of the INT range is bound as it is. *)
Lemma sqlInt_int z :
  -2147483648 <= z <= 2147483647 -> sqlInt (Num z) = Some z.
Proof.
  intros Hz. unfold sqlInt, int32.
  destruct (Z.leb_spec (-2147483648) z); [|lia].
  destruct (Z.leb_spec z 2147483647); [|lia]. reflexivity.
Qed.

(** What [sql.Int] sends lies in the INT range. *)
Lemma sqlInt_range n z :
  sqlInt n = Some z -> -2147483648 <= z <= 2147483647.
Proof.
  destruct n as [|x|f|b]; cbn; try discriminate.
  - unfold int32. destruct (Z.leb_spec (-2147483648) x); cbn;
      [|discriminate].
    destruct (Z.leb_spec x 2147483647); [|discriminate].
    intros Heq. inversion Heq. subst. lia.
  - destruct (Z.leb_spec (-2147483648) f); cbn; [|discriminate].
    destruct (Z.leb_spec f 2147483646); [|discriminate].
    destruct (Z.leb_spec 0 f); intros Heq; inversion Heq; subst; lia.
Qed.

(** On the strings [timeRegex] accepts, [toTime] is a time of day on the
    minute. *)
Lemma toTime_of_day t :
  timeRegex_test t = true ->
  exists h m, 0 <= h < 24 /\ 0 <= m < 60 /\ toTime t = (h * 60 + m) * 60000.
Proof.
  destruct t as [|h1 [|h2 [|c [|m1 [|m2 [|]]]]]]; try discriminate.
  unfold timeRegex_test, toTime, is_digit, char_between, digit_value.
  change (N_of_ascii "0") with 48%N. change (N_of_ascii "1") with 49%N.
  change (N_of_ascii "3") with 51%N. change (N_of_ascii "5") with 53%N.
  change (N_of_ascii "9") with 57%N.
  intros H. apply andb_true_iff in H as [H Hm2].
  apply andb_true_iff in H as [H Hm1].
  apply andb_true_iff in H as [Hh _].
  apply andb_true_iff in Hm1 as [Hm1a Hm1b].
  apply andb_true_iff in Hm2 as [Hm2a Hm2b].
  apply N.leb_le in Hm1a, Hm1b, Hm2a, Hm2b.
  exists ((Z.of_N (N_of_ascii h1) - 48) * 10 + (Z.of_N (N_of_ascii h2) - 48)),
    ((Z.of_N (N_of_ascii m1) - 48) * 10 + (Z.of_N (N_of_ascii m2) - 48)).
  apply orb_true_iff in Hh as [Hh|Hh].
  - apply andb_true_iff in Hh as [Ha Hb].
    apply andb_true_iff in Ha as [Ha1 Ha2].
    apply andb_true_iff in Hb as [Hb1 Hb2].
    apply N.leb_le in Ha1, Ha2, Hb1, Hb2. lia.
  - apply andb_true_iff in Hh as [Ha Hb].
    apply Ascii.eqb_eq in Ha. subst h1.
    apply andb_true_iff in Hb as [Hb1 Hb2].
    apply N.leb_le in Hb1, Hb2.
    change (N_of_ascii "2") with 50%N. lia.
Qed.

(** [await pool] in front of a computation. *)
Lemma awaited {A} E (m : M A) w :
  (await_pool E ;; m) w
  = if connected E then m w else (Throw ConnectionError, w).
Proof. unfold bind, await_pool. destruct (connected E); reflexivity. Qed.

(** ** The overlap check and the transactions of POST and PUT *)

Section Post.

Variable dateParam : string -> option Z.

Lemma checkOverlap_run E w on t seatId seat reservedDate date a b :
  fails E (List.length (trace w)) = false ->
  view on w = Some t ->
  sqlInt seatId = Some seat ->
  dateParam reservedDate = Some date ->
  checkOverlap dateParam E on seatId reservedDate a b None w
  = (Ok (nonempty (filter (where_overlap seat date a b None)
                     (tReservations t))),
     record SelectOverlap true w).
Proof.
  intros Hf Hv Hs Hd. unfold checkOverlap, select, issue.
  rewrite Hf, Hv, Hs, Hd. reflexivity.
Qed.

(** C2. On any table, for a seat and a date the driver accepts and with the
    call going through, [checkOverlap] flags the requested interval
    [(s2, e2)] exactly when some reservation [(s1, e1)] of that seat and
    date with status [reserved] has [s1 < e2] and [s2 < e1].  Reservations
    of other seats, of other dates and canceled ones never count, and the
    request is not flagged when every reserved reservation of the seat and
    date ends no later than it starts, or starts no earlier than it ends:
    intervals that touch are not flagged. *)
Theorem checkOverlap_flags_iff :
  forall E w t seatId seat reservedDate date s2 e2,
    fails E (List.length (trace w)) = false ->
    tx w = Some t ->
    sqlInt seatId = Some seat ->
    dateParam reservedDate = Some date ->
    exists flagged,
      fst (checkOverlap dateParam E OnTransaction seatId reservedDate s2 e2
             None w) = Ok flagged
      /\ (flagged = true <->
          exists r, In r (tReservations t)
            /\ Reservations.seat_id r = seat
            /\ Reservations.reserved_date r = date
            /\ Reservations.status r = reserved
            /\ Reservations.start_time r < e2
            /\ s2 < Reservations.end_time r)
      /\ ((forall r, In r (tReservations t) ->
             Reservations.seat_id r = seat ->
             Reservations.reserved_date r = date ->
             Reservations.status r = reserved ->
             Reservations.end_time r <= s2 \/ e2 <= Reservations.start_time r) ->
          flagged = false).
Proof.
  intros E w t seatId seat reservedDate date s2 e2 Hf Ht Hs Hd.
  rewrite (checkOverlap_run E w OnTransaction t _ _ _ _ _ _ Hf Ht Hs Hd).
  eexists. split; [reflexivity|]. split.
  - apply overlap_found.
  - intros Hfree. apply overlap_free.
    intros r Hin (H1 & H2 & H3 & H4 & H5).
    destruct (Hfree r Hin H1 H2 H3); lia.
Qed.

Lemma post_validated E u s d st en w :
  timeRegex_test st = true ->
  timeRegex_test en = true ->
  toTime st < toTime en ->
  router_post dateParam E (body_of u s d st en) w
  = if connected E
    then post_transaction dateParam E u s d (toTime st) (toTime en) w
    else (Throw ConnectionError, w).
Proof.
  intros Hst Hen Hlt. unfold router_post, body_of.
  cbn [userId seatId reservedDate startTime endTime].
  rewrite Hst, Hen. cbn [negb orb].
  destruct (Z.geb_spec (toTime st) (toTime en)); [lia | apply awaited].
Qed.

(** The pattern on the body stands for the [typeof] tests of the handler. *)
Lemma post_rejects_typeof E req_body w :
  typeof (userId req_body) <> "number"
  \/ typeof (seatId req_body) <> "number"
  \/ typeof (reservedDate req_body) <> "string"
  \/ typeof (startTime req_body) <> "string"
  \/ typeof (endTime req_body) <> "string" ->
  router_post dateParam E req_body w
  = (Ok (mkResponse 400 (ErrorBody "Missing or invalid parameters")), w).
Proof.
  destruct req_body as [f1 f2 f3 f4 f5]. unfold router_post.
  cbn [userId seatId reservedDate startTime endTime]. intros H.
  destruct f1; try reflexivity.
  destruct f2; try reflexivity.
  destruct f3; try reflexivity.
  destruct f4; try reflexivity.
  destruct f5; try reflexivity.
  cbn in H. intuition congruence.
Qed.

Lemma post_dispatch E req_body w :
  (exists msg,
     router_post dateParam E req_body w
     = (Ok (mkResponse 400 (ErrorBody msg)), w))
  \/ (exists u s d st en,
        req_body = body_of u s d st en
        /\ timeRegex_test st = true
        /\ timeRegex_test en = true
        /\ toTime st < toTime en
        /\ router_post dateParam E req_body w
           = if connected E
             then post_transaction dateParam E u s d (toTime st) (toTime en) w
             else (Throw ConnectionError, w)).
Proof.
  destruct req_body as [f1 f2 f3 f4 f5]. unfold router_post.
  cbn [userId seatId reservedDate startTime endTime].
  destruct f1 as [| | |u|?|]; try (left; eexists; reflexivity).
  destruct f2 as [| | |s|?|]; try (left; eexists; reflexivity).
  destruct f3 as [| | | |d|]; try (left; eexists; reflexivity).
  destruct f4 as [| | | |st|]; try (left; eexists; reflexivity).
  destruct f5 as [| | | |en|]; try (left; eexists; reflexivity).
  destruct (timeRegex_test st) eqn:Hst; cbn [negb orb];
    [|left; eexists; reflexivity].
  destruct (timeRegex_test en) eqn:Hen; cbn [negb orb];
    [|left; eexists; reflexivity].
  destruct (Z.geb_spec (toTime st) (toTime en)) as [|Hlt];
    [left; eexists; reflexivity|].
  right. exists u, s, d, st, en. rewrite awaited. repeat split; auto.
Qed.

(** What the transaction of POST leaves behind, whatever fails: nothing, or
    the row it answers 201 with. *)
Lemma post_transaction_effect E u s d a b db n :
  let out := post_transaction dateParam E u s d a b (arrive db n) in
  (committed (snd out) = db
   /\ answered (fst out) <> Some 201
   /\ (identity (snd out) = n \/ identity (snd out) = n + 1))
  \/ (exists userId seatId date,
        sqlInt u = Some userId
        /\ sqlInt s = Some seatId
        /\ dateParam d = Some date
        /\ has_user db userId = true
        /\ has_seat db seatId = true
        /\ nonempty (filter (where_overlap seatId date a b None)
                       (tReservations db)) = false
        /\ out = (Ok (mkResponse 201
                        (ReservationBody "Reservation created"
                           (inserted n userId seatId date a b
                              (GETDATE E 4%nat)))),
                  ended create_trace
                    (insert_row
                       (inserted n userId seatId date a b (GETDATE E 4%nat))
                       db) (n + 1))).
Proof.
  run_route.
  repeat split_call E;
    try (left; split; [reflexivity|];
         split; [discriminate | auto]; fail).
  right. do 3 eexists. repeat split; reflexivity || assumption.
Qed.

(** What the transaction of POST answers. *)
Lemma post_transaction_answers E u s d a b db n :
  let out := post_transaction dateParam E u s d a b (arrive db n) in
  (exists c, answered (fst out) = Some c /\ In c [201; 404; 409; 500])
  /\ (answered (fst out) = Some 500 <-> failed (trace (snd out)) = true)
  /\ (failed (trace (snd out)) = true ->
      fst out = Ok (mkResponse 500 (ErrorBody "Reservation failed"))
      /\ committed (snd out) = db
      /\ issued Rollback (trace (snd out)) = true
      /\ exists err,
           hd_error (console (snd out))
           = Some (mkLog "Reservation POST error:" err))
  /\ (failed (trace (snd out)) = false -> console (snd out) = []).
Proof.
  run_route.
  repeat split_call E;
    (split; [eexists; split; [reflexivity | cbn; tauto]|]);
    (split; [split; intros H; (reflexivity || discriminate H)|]);
    (split; [intros H; try discriminate H; repeat split; eexists; reflexivity
            | intros H; (reflexivity || discriminate H)]).
Qed.

(** POST: a call that throws sends the handler to its [catch], which logs,
    attempts a rollback, logs a failure of that rollback and answers 500. *)
Lemma post_failure_handled E u s d a b db n :
  let out := post_transaction dateParam E u s d a b (arrive db n) in
  failed (trace (snd out)) = true ->
  fst out = Ok (mkResponse 500 (ErrorBody "Reservation failed"))
  /\ issued Rollback (trace (snd out)) = true
  /\ exists err,
       console (snd out) = [mkLog "Reservation POST error:" err]
       \/ exists rollbackErr,
            console (snd out) = [mkLog "Reservation POST error:" err;
                                 mkLog "Rollback failed:" rollbackErr].
Proof.
  run_route.
  repeat split_call E; cbn; intros Hfailed; try discriminate Hfailed;
    (split; [reflexivity|]); (split; [reflexivity|]);
    eexists; solve [left; reflexivity | right; eexists; reflexivity].
Qed.



(** *** The transaction of PUT *)

(** What the transaction of PUT leaves behind, whatever fails: nothing, or
    the old reservation canceled and the row it answers 200 with. *)
Lemma put_transaction_effect E pid u s d a b db n :
  let out := put_transaction dateParam E pid u s d a b (arrive db n) in
  (committed (snd out) = db
   /\ answered (fst out) <> Some 200
   /\ (identity (snd out) = n \/ identity (snd out) = n + 1))
  \/ (exists id userId seatId date,
        sqlInt pid = Some id
        /\ sqlInt u = Some userId
        /\ sqlInt s = Some seatId
        /\ dateParam d = Some date
        /\ nonempty (filter (where_reserved id) (tReservations db)) = true
        /\ has_user db userId = true
        /\ has_seat db seatId = true
        /\ nonempty (filter (where_overlap seatId date a b (Some id))
                       (tReservations db)) = false
        /\ out = (Ok (mkResponse 200
                        (ReservationBody "Reservation updated"
                           (inserted n userId seatId date a b
                              (GETDATE E 6%nat)))),
                  ended rebook_trace
                    (insert_row
                       (inserted n userId seatId date a b (GETDATE E 6%nat))
                       (update_canceled id db)) (n + 1))).
Proof.
  run_route.
  repeat split_call E;
    try (left; split; [reflexivity|];
         split; [discriminate | auto]; fail).
  right. do 4 eexists. repeat split; reflexivity || assumption.
Qed.

(** The order of the cancel and the insert, and the rollback of a cancel
    that is not committed. *)
Lemma put_transaction_order E pid u s d a b db n :
  let out := put_transaction dateParam E pid u s d a b (arrive db n) in
  cancel_before_insert None (trace (snd out)) = true
  /\ (answered (fst out) <> Some 200 ->
      issued UpdateCanceled (trace (snd out)) = true ->
      issued Rollback (trace (snd out)) = true).
Proof.
  run_route.
  repeat split_call E;
    (split; [reflexivity|]);
    intros H1 H2; try reflexivity; try discriminate H2;
    exfalso; apply H1; reflexivity.
Qed.

(** What the transaction of PUT answers. *)
Lemma put_transaction_answers E pid u s d a b db n :
  let out := put_transaction dateParam E pid u s d a b (arrive db n) in
  (exists c, answered (fst out) = Some c /\ In c [200; 404; 409; 500])
  /\ (answered (fst out) = Some 500 <-> failed (trace (snd out)) = true)
  /\ (failed (trace (snd out)) = true ->
      fst out = Ok (mkResponse 500 (ErrorBody "Failed to update reservation"))
      /\ committed (snd out) = db
      /\ issued Rollback (trace (snd out)) = true
      /\ exists err,
           hd_error (console (snd out))
           = Some (mkLog "Transaction error during reservation update:" err))
  /\ (failed (trace (snd out)) = false -> console (snd out) = []).
Proof.
  run_route.
  repeat split_call E;
    (split; [eexists; split; [reflexivity | cbn; tauto]|]);
    (split; [split; intros H; (reflexivity || discriminate H)|]);
    (split; [intros H; try discriminate H; repeat split; eexists; reflexivity
            | intros H; (reflexivity || discriminate H)]).
Qed.

(** PUT does what POST does when a call throws. *)
Lemma put_failure_handled E pid u s d a b db n :
  let out := put_transaction dateParam E pid u s d a b (arrive db n) in
  failed (trace (snd out)) = true ->
  fst out = Ok (mkResponse 500 (ErrorBody "Failed to update reservation"))
  /\ issued Rollback (trace (snd out)) = true
  /\ exists err,
       console (snd out)
       = [mkLog "Transaction error during reservation update:" err]
       \/ exists rollbackErr,
            console (snd out)
            = [mkLog "Transaction error during reservation update:" err;
               mkLog "Rollback failed:" rollbackErr].
Proof.
  run_route.
  repeat split_call E; cbn; intros Hfailed; try discriminate Hfailed;
    (split; [reflexivity|]); (split; [reflexivity|]);
    eexists; solve [left; reflexivity | right; eexists; reflexivity].
Qed.

(** The checks of PUT when no call is rejected and the driver accepts the
    three numbers. *)
Lemma put_transaction_run clock pid u s d a b db n id userId seatId :
  sqlInt pid = Some id ->
  sqlInt u = Some userId ->
  sqlInt s = Some seatId ->
  let out :=
    put_transaction dateParam (no_faults clock) pid u s d a b (arrive db n) in
  if negb (nonempty (filter (where_reserved id) (tReservations db)))
  then out = (Ok not_found,
              ended [(Begin, true); (SelectReservation, true);
                     (Rollback, true)] db n)
  else if negb (has_user db userId)
  then out = (Ok (mkResponse 404 (ErrorBody "User not found")),
              ended [(Begin, true); (SelectReservation, true);
                     (SelectUser, true); (Rollback, true)] db n)
  else if negb (has_seat db seatId)
  then out = (Ok (mkResponse 404 (ErrorBody "Seat not found")),
              ended [(Begin, true); (SelectReservation, true);
                     (SelectUser, true); (SelectSeat, true);
                     (Rollback, true)] db n)
  else
    match dateParam d with
    | None =>
        fst out
        = Ok (mkResponse 500 (ErrorBody "Failed to update reservation"))
        /\ committed (snd out) = db
    | Some date =>
        if nonempty (filter (where_overlap seatId date a b (Some id))
                       (tReservations db))
        then out
             = (Ok (mkResponse 409
                      (ErrorBody "Seat already reserved during that time")),
                ended [(Begin, true); (SelectReservation, true);
                       (SelectUser, true); (SelectSeat, true);
                       (SelectOverlap, true); (Rollback, true)] db n)
        else
          let created :=
            Reservations.mk n userId seatId date a b reserved
              (clock 6%nat) in
          out
          = (Ok (mkResponse 200
                   (ReservationBody "Reservation updated" created)),
             ended rebook_trace
               (reservations_are db
                  (tReservations (update_canceled id db) ++ [created]))
               (n + 1))
    end.
Proof.
  intros Hid Hu Hs. run_route. rewrite Hid. cbn.
  destruct (nonempty (filter (where_reserved id) _)) eqn:Hf; cbn;
    [|reflexivity].
  rewrite Hu. cbn.
  destruct (has_user db userId) eqn:Hhu; cbn; [|reflexivity].
  rewrite Hs. cbn.
  destruct (has_seat db seatId) eqn:Hhs; cbn; [|reflexivity].
  destruct (dateParam d) as [date|]; cbn; [|split; reflexivity].
  destruct (nonempty (filter (where_overlap _ _ _ _ _) _)) eqn:Ho; cbn;
    [reflexivity|].
  unfold has_user, has_seat in *. cbn. rewrite Hhu, Hhs. reflexivity.
Qed.

End Post.

(** ** DELETE *)

Section Delete.

Variable Number : string -> jsnum.

(** C10. When [Number(req.params.id)] is [0] or [NaN], DELETE answers
    400 "Reservation ID required" and leaves the world as it found it: no
    transaction is begun, no query is issued, no table changes.  This holds
    whatever the environment would do to a call. *)
Theorem delete_rejects_falsy_id :
  forall E w params_id,
    Number params_id = Num 0 \/ Number params_id = NaN ->
    router_delete Number E params_id w
    = (Ok (mkResponse 400 (ErrorBody "Reservation ID required")), w).
Proof.
  intros E w params_id [H|H]; unfold router_delete; rewrite H; reflexivity.
Qed.

(** DELETE with an id the guard lets through and the driver accepts, with
    the pool connected and no call rejected. *)
Lemma delete_run clock db n params_id id :
  truthy (Number params_id) = true ->
  sqlInt (Number params_id) = Some id ->
  router_delete Number (no_faults clock) params_id (arrive db n)
  = if nonempty (filter (where_reserved id) (tReservations db))
    then (Ok (mkResponse 200 (MessageBody "Reservation canceled")),
          ended [(Begin, true); (SelectReservation, true);
                 (UpdateCanceled, true); (Commit, true)]
            (update_canceled id db) n)
    else (Ok not_found,
          ended [(Begin, true); (SelectReservation, true); (Rollback, true)]
            db n).
Proof.
  intros Hid Hint. unfold router_delete. rewrite Hid. cbn [negb].
  run_route. rewrite Hint. cbn.
  destruct (nonempty _); reflexivity.
Qed.

(** DELETE with an id the guard lets through and the driver refuses. *)
Lemma delete_refused clock db n params_id :
  truthy (Number params_id) = true ->
  sqlInt (Number params_id) = None ->
  router_delete Number (no_faults clock) params_id (arrive db n)
  = (Ok (mkResponse 500 (ErrorBody "Failed to cancel reservation")),
     {| committed := db; identity := n; tx := None;
        trace := [(Begin, true); (SelectReservation, false);
                  (Rollback, true)];
        console := [mkLog "Delete error:" InvalidNumber] |}).
Proof.
  intros Hid Hint. unfold router_delete. rewrite Hid. cbn [negb].
  run_route. rewrite Hint. reflexivity.
Qed.

(** C5, amended. For an id that is a nonzero integer of the INT range, with
    the pool connected and no call rejected, DELETE always answers; it
    answers 404 "Reservation not found or already canceled" exactly when no
    row with that id has status [reserved], and then the tables are the ones
    before; otherwise it answers 200 and the committed tables differ from
    the ones before in the status of the reservation with that id only, now
    [canceled]; and canceling the same id again answers 404 and changes
    nothing. *)
Theorem delete_not_found_iff :
  forall clock db n params_id id,
    Number params_id = Num id ->
    id <> 0 ->
    -2147483648 <= id <= 2147483647 ->
    let out := router_delete Number (no_faults clock) params_id (arrive db n) in
    (exists response, fst out = Ok response)
    /\ (fst out = Ok not_found <-> no_reserved_row id db)
    /\ (fst out = Ok not_found -> committed (snd out) = db)
    /\ (fst out <> Ok not_found ->
        fst out = Ok (mkResponse 200 (MessageBody "Reservation canceled"))
        /\ tUsers (committed (snd out)) = tUsers db
        /\ tSeats (committed (snd out)) = tSeats db
        /\ canceled_in_place id (tReservations db)
             (tReservations (committed (snd out))))
    /\ (forall clock',
          let again :=
            router_delete Number (no_faults clock') params_id
              (arrive (committed (snd out)) (identity (snd out))) in
          fst again = Ok not_found
          /\ committed (snd again) = committed (snd out)).
Proof.
  intros clock db n params_id id Hnum Hnz Hrange out.
  assert (Hid : truthy (Number params_id) = true).
  { rewrite Hnum. cbn. apply negb_true_iff. now apply Z.eqb_neq. }
  assert (Hint : sqlInt (Number params_id) = Some id)
    by (rewrite Hnum; now apply sqlInt_int).
  assert (Hout := delete_run clock db n params_id id Hid Hint).
  fold out in Hout.
  assert (Hagain : forall clock' t m,
             nonempty (filter (where_reserved id) (tReservations t)) = false ->
             router_delete Number (no_faults clock') params_id (arrive t m)
             = (Ok not_found,
                ended [(Begin, true); (SelectReservation, true);
                       (Rollback, true)] t m)).
  { intros clock' t m Hno. rewrite (delete_run clock' t m params_id id Hid Hint).
    rewrite Hno. reflexivity. }
  destruct (nonempty (filter (where_reserved id) (tReservations db))) eqn:Hfound.
  - rewrite Hout. cbn [fst snd ended committed identity].
    split; [eexists; reflexivity|].
    split.
    { split; [discriminate|]. intros Hno.
      apply no_reserved_row_iff in Hno. congruence. }
    split; [discriminate|].
    split.
    { intros _. split; [reflexivity|]. split; [reflexivity|].
      split; [reflexivity | apply update_canceled_in_place]. }
    intros clock'. cbn zeta.
    rewrite (Hagain clock' _ _ (update_canceled_no_reserved id db)).
    split; reflexivity.
  - rewrite Hout. cbn [fst snd ended committed identity].
    split; [eexists; reflexivity|].
    split.
    { split; [|reflexivity]. intros _. now apply no_reserved_row_iff. }
    split; [reflexivity|].
    split; [congruence|].
    intros clock'. cbn zeta. rewrite (Hagain clock' _ _ Hfound).
    split; reflexivity.
Qed.

(** What DELETE leaves behind, whatever fails. *)
Lemma delete_effect E params_id db n :
  let out := router_delete Number E params_id (arrive db n) in
  identity (snd out) = n
  /\ ((committed (snd out) = db /\ answered (fst out) <> Some 200)
      \/ (exists id,
            truthy (Number params_id) = true
            /\ sqlInt (Number params_id) = Some id
            /\ nonempty (filter (where_reserved id) (tReservations db)) = true
            /\ out = (Ok (mkResponse 200 (MessageBody "Reservation canceled")),
                      ended [(Begin, true); (SelectReservation, true);
                             (UpdateCanceled, true); (Commit, true)]
                        (update_canceled id db) n))).
Proof.
  unfold router_delete.
  destruct (truthy (Number params_id)) eqn:Hid; cbn [negb].
  - run_route.
    repeat split_call E; (split; [reflexivity|]);
      try (left; split; [reflexivity | discriminate]).
    right. eexists. repeat split; reflexivity || assumption.
  - cbn. split; [reflexivity|]. left. split; [reflexivity | discriminate].
Qed.

(** DELETE can end without an answer; its tables are the old ones or the
    old ones with the reservation canceled. *)
Lemma delete_committed E params_id db n :
  let out := router_delete Number E params_id (arrive db n) in
  committed (snd out) = db
  \/ (exists id, committed (snd out) = update_canceled id db).
Proof.
  destruct (delete_effect E params_id db n)
    as (_ & [[Hdb _] | (id & _ & _ & _ & Hout)]).
  - left. exact Hdb.
  - right. exists id. cbn zeta. rewrite Hout. reflexivity.
Qed.

Lemma delete_answers E params_id db n :
  let out := router_delete Number E params_id (arrive db n) in
  answered (fst out) = None
  \/ exists c, answered (fst out) = Some c /\ In c [200; 400; 404; 500].
Proof.
  unfold router_delete.
  destruct (truthy (Number params_id)); cbn [negb].
  - run_route.
    repeat split_call E; cbn;
      solve [left; reflexivity
            | right; eexists; split; [reflexivity | cbn; tauto]].
  - right. eexists. split; [reflexivity | cbn; tauto].
Qed.

(** DELETE: the rollback of its [catch] is not guarded, and [await pool]
    stands before its [try].  When the pool is connected, a call throws and
    that rollback throws too, the handler ends without an answer and with
    the first error alone on the console. *)
Lemma delete_unanswered E params_id db n :
  let out := router_delete Number E params_id (arrive db n) in
  connected E = true ->
  answered (fst out) = None ->
  failed (removelast (trace (snd out))) = true
  /\ last (trace (snd out)) (Begin, true) = (Rollback, false)
  /\ exists err, console (snd out) = [mkLog "Delete error:" err].
Proof.
  unfold router_delete.
  destruct (truthy (Number params_id)); cbn [negb]; [|discriminate].
  run_route. intros ->. cbn.
  repeat split_call E; cbn; intros Hnone; try discriminate Hnone;
    (split; [reflexivity|]); (split; [reflexivity|]);
    eexists; reflexivity.
Qed.

End Delete.

(** ** PUT *)

Section Put.

Variable Number : string -> jsnum.
Variable dateParam : string -> option Z.

Lemma put_validated E params_id u s d st en w :
  truthy (Number params_id) = true ->
  timeRegex_test st = true ->
  timeRegex_test en = true ->
  toTime st < toTime en ->
  router_put Number dateParam E params_id (body_of u s d st en) w
  = if connected E
    then put_transaction dateParam E (Number params_id) u s d
           (toTime st) (toTime en) w
    else (Throw ConnectionError, w).
Proof.
  intros Hid Hst Hen Hlt. unfold router_put, body_of.
  cbn [userId seatId reservedDate startTime endTime].
  rewrite Hid, Hst, Hen. cbn [negb orb].
  destruct (Z.geb_spec (toTime st) (toTime en)); [lia | apply awaited].
Qed.

Lemma put_dispatch E params_id req_body w :
  (exists msg,
     router_put Number dateParam E params_id req_body w
     = (Ok (mkResponse 400 (ErrorBody msg)), w))
  \/ (exists u s d st en,
        req_body = body_of u s d st en
        /\ truthy (Number params_id) = true
        /\ timeRegex_test st = true
        /\ timeRegex_test en = true
        /\ toTime st < toTime en
        /\ router_put Number dateParam E params_id req_body w
           = if connected E
             then put_transaction dateParam E (Number params_id) u s d
                    (toTime st) (toTime en) w
             else (Throw ConnectionError, w)).
Proof.
  destruct req_body as [f1 f2 f3 f4 f5]. unfold router_put.
  cbn [userId seatId reservedDate startTime endTime].
  destruct f1 as [| | |u|?|]; try (left; eexists; reflexivity).
  destruct f2 as [| | |s|?|]; try (left; eexists; reflexivity).
  destruct f3 as [| | | |d|]; try (left; eexists; reflexivity).
  destruct f4 as [| | | |st|]; try (left; eexists; reflexivity).
  destruct f5 as [| | | |en|]; try (left; eexists; reflexivity).
  destruct (truthy (Number params_id)) eqn:Hid; cbn [negb orb];
    [|left; eexists; reflexivity].
  destruct (timeRegex_test st) eqn:Hst; cbn [negb orb];
    [|left; eexists; reflexivity].
  destruct (timeRegex_test en) eqn:Hen; cbn [negb orb];
    [|left; eexists; reflexivity].
  destruct (Z.geb_spec (toTime st) (toTime en)) as [|Hlt];
    [left; eexists; reflexivity|].
  right. exists u, s, d, st, en. rewrite awaited. repeat split; auto.
Qed.

(** C6. A validated PUT for a reservation [id] that is reserved, with an
    existing user and seat, the pool connected and no call rejected: when
    every reserved reservation of the seat and date that overlaps the new
    interval is reservation [id] itself, the overlap check with
    [excludeId = id] answers [false], and the rebook goes through.  The
    answer is 200 with the new row; the committed reservations are the ones
    before, in place, the one numbered [id] now [canceled] and the others as
    they were, followed by the new row, which has the identity value as id,
    the user, the seat, the date and the times of the request and status
    [reserved]; users and seats are untouched. *)
Theorem put_excludes_own_reservation :
  forall clock db n params_id u s d st en id userId seatId date,
    truthy (Number params_id) = true ->
    timeRegex_test st = true ->
    timeRegex_test en = true ->
    toTime st < toTime en ->
    sqlInt (Number params_id) = Some id ->
    sqlInt u = Some userId ->
    sqlInt s = Some seatId ->
    dateParam d = Some date ->
    (exists old, In old (tReservations db)
       /\ Reservations.id old = id /\ Reservations.status old = reserved) ->
    user_exists db userId ->
    seat_exists db seatId ->
    (forall r, In r (tReservations db) ->
       overlapping seatId date (toTime st) (toTime en) r ->
       Reservations.id r = id) ->
    let created :=
      Reservations.mk n userId seatId date (toTime st) (toTime en) reserved
        (clock 6%nat) in
    fst (checkOverlap dateParam (no_faults clock) OnTransaction s d
           (toTime st) (toTime en) (Some (Number params_id))
           (set_tx (Some db) (arrive db n))) = Ok false
    /\ exists kept,
         canceled_in_place id (tReservations db) kept
         /\ router_put Number dateParam (no_faults clock) params_id
              (body_of u s d st en) (arrive db n)
            = (Ok (mkResponse 200
                     (ReservationBody "Reservation updated" created)),
               ended [(Begin, true); (SelectReservation, true);
                      (SelectUser, true); (SelectSeat, true);
                      (SelectOverlap, true); (UpdateCanceled, true);
                      (InsertReservation, true); (Commit, true)]
                 {| tUsers := tUsers db; tSeats := tSeats db;
                    tReservations := kept ++ [created] |}
                 (n + 1)).
Proof.
  intros clock db n params_id u s d st en id userId seatId date
    Hid Hst Hen Hlt Hint Hu Hs Hd Hold Heu Hes Hown created.
  assert (Hfree :
    nonempty (filter (where_overlap seatId date (toTime st) (toTime en)
                        (Some id)) (tReservations db)) = false)
    by now apply overlap_free_besides.
  split.
  - unfold checkOverlap, select, issue. cbn. rewrite Hs, Hd, Hint. cbn.
    rewrite Hfree. reflexivity.
  - exists (tReservations (update_canceled id db)).
    split; [apply update_canceled_in_place|].
    rewrite (put_validated _ params_id u s d st en _ Hid Hst Hen Hlt).
    cbn [connected no_faults].
    pose proof (put_transaction_run dateParam clock (Number params_id) u s d
                  (toTime st) (toTime en) db n id userId seatId Hint Hu Hs)
      as Hrun. cbn zeta in Hrun.
    rewrite (proj2 (reserved_row_found id db) Hold),
      (proj2 (has_user_In _ _) Heu), (proj2 (has_seat_In _ _) Hes), Hd, Hfree
      in Hrun.
    exact Hrun.
Qed.

(** C4. Whatever fails and whenever, a PUT leaves the committed tables
    either exactly as they were (and then it has not answered 200, and when
    the cancel had been issued a rollback was issued too), or with the old
    reservation canceled and the new one inserted, both installed by the one
    commit of a transaction whose calls are, in this order: begin, the four
    checks, the cancel, the insert, the commit.  In that case the committed
    reservations are the ones before, in place, the one numbered [id]
    canceled and the others as they were, followed by the new row; users and
    seats are untouched.  In no run is an insert issued without the cancel
    having gone through just before. *)
Theorem put_all_or_nothing :
  forall E db n params_id req_body,
    let out :=
      router_put Number dateParam E params_id req_body (arrive db n) in
    cancel_before_insert None (trace (snd out)) = true
    /\ ((committed (snd out) = db
         /\ answered (fst out) <> Some 200
         /\ (issued UpdateCanceled (trace (snd out)) = true ->
             issued Rollback (trace (snd out)) = true))
        \/ (exists u s d st en id userId seatId date kept,
              req_body = body_of u s d st en
              /\ sqlInt (Number params_id) = Some id
              /\ sqlInt u = Some userId
              /\ sqlInt s = Some seatId
              /\ dateParam d = Some date
              /\ (exists old, In old (tReservations db)
                    /\ Reservations.id old = id
                    /\ Reservations.status old = reserved)
              /\ let created :=
                   Reservations.mk n userId seatId date (toTime st)
                     (toTime en) reserved (GETDATE E 6%nat) in
                 fst out
                 = Ok (mkResponse 200
                         (ReservationBody "Reservation updated" created))
                 /\ tUsers (committed (snd out)) = tUsers db
                 /\ tSeats (committed (snd out)) = tSeats db
                 /\ tReservations (committed (snd out)) = kept ++ [created]
                 /\ canceled_in_place id (tReservations db) kept
                 /\ trace (snd out)
                    = [(Begin, true); (SelectReservation, true);
                       (SelectUser, true); (SelectSeat, true);
                       (SelectOverlap, true); (UpdateCanceled, true);
                       (InsertReservation, true); (Commit, true)])).
Proof.
  intros E db n params_id req_body out. subst out.
  destruct (put_dispatch E params_id req_body (arrive db n))
    as [[msg ->] | (u & s & d & st & en & Hb & _ & _ & _ & _ & ->)].
  { cbn. split; [reflexivity|]. left.
    split; [reflexivity|]. split; discriminate. }
  destruct (connected E).
  2:{ cbn. split; [reflexivity|]. left.
      split; [reflexivity|]. split; discriminate. }
  destruct (put_transaction_order dateParam E (Number params_id) u s d (toTime st)
              (toTime en) db n) as [Hord Hroll].
  split; [exact Hord|].
  destruct (put_transaction_effect dateParam E (Number params_id) u s d (toTime st)
              (toTime en) db n)
    as [(Hsame & Hno & _)
       | (id & userId & seatId & date & Hid & Hu & Hs & Hd & Hfound & _ & _
          & _ & Hout)].
  - left. split; [exact Hsame|]. split; [exact Hno | exact (Hroll Hno)].
  - right.
    exists u, s, d, st, en, id, userId, seatId, date,
      (tReservations (update_canceled id db)).
    split; [exact Hb|]. split; [exact Hid|]. split; [exact Hu|].
    split; [exact Hs|]. split; [exact Hd|].
    split; [now apply reserved_row_found|].
    cbn zeta in Hout |- *. rewrite Hout. cbn.
    repeat split; try reflexivity. apply update_canceled_in_place.
Qed.

End Put.

(** ** GET *)

Lemma In_place x y l : In x (place y l) <-> x = y \/ In x l.
Proof.
  induction l as [|z l IH]; cbn.
  - intuition.
  - destruct (before y z); cbn; [intuition | rewrite IH; intuition].
Qed.

Lemma In_order_by x l : In x (order_by l) <-> In x l.
Proof.
  unfold order_by. induction l as [|y l IH]; cbn.
  - reflexivity.
  - rewrite In_place, IH. intuition.
Qed.

Lemma join_spec t r u s :
  In (r, u, s) (join t) <->
  In r (tReservations t) /\ In u (tUsers t) /\ In s (tSeats t)
  /\ Reservations.user_id r = Users.id u
  /\ Reservations.seat_id r = Seats.id s.
Proof.
  unfold join. rewrite in_flat_map. split.
  - intros (r' & Hr & Hin). apply in_flat_map in Hin as (u' & Hu & Hin).
    apply in_map_iff in Hin as (s' & Heq & Hs). inversion Heq; subst.
    apply filter_In in Hu as [Hu Hu']. apply filter_In in Hs as [Hs Hs'].
    apply Z.eqb_eq in Hu', Hs'. auto.
  - intros (Hr & Hu & Hs & Hru & Hrs). exists r. split; [exact Hr|].
    apply in_flat_map. exists u. split.
    + apply filter_In. split; [exact Hu | now apply Z.eqb_eq].
    + apply in_map_iff. exists s. split; [reflexivity|].
      apply filter_In. split; [exact Hs | now apply Z.eqb_eq].
Qed.

Lemma supplied_spec v s :
  supplied v = Some s <-> v = Some s /\ s <> "".
Proof.
  unfold supplied. destruct v as [[|c s']|]; cbn; split.
  - discriminate.
  - intros [H1 H2]. inversion H1; subst. congruence.
  - intros H. inversion H; subst. split; [reflexivity | discriminate].
  - intros [H _]. exact H.
  - discriminate.
  - intros [H _]. discriminate.
Qed.

Lemma shows_format r u s : shows (format (r, u, s)) r.
Proof. repeat split. Qed.

Lemma joined_when_referenced db r :
  In r (tReservations db) ->
  has_user db (Reservations.user_id r) = true ->
  has_seat db (Reservations.seat_id r) = true ->
  exists u s, In (r, u, s) (join db).
Proof.
  intros Hin Hu Hs.
  apply has_user_In in Hu as (u & Hu & Hid).
  apply has_seat_In in Hs as (s & Hs & Hsid).
  exists u, s. apply join_spec. repeat split; auto.
Qed.

Section Get.

Variable Number : string -> jsnum.
Variable dateCast : string -> option Z.
Variable refused : jsnum -> bool.
Variable nvarchar_eq : string -> string -> bool.

Lemma number_in_use v n :
  in_use Number v n <->
  number_supplied Number v = Some n /\ truthy n = true.
Proof.
  unfold in_use, number_supplied. split.
  - intros (s & -> & Hne & <- & Ht).
    assert (Hs : supplied (Some s) = Some s) by (apply supplied_spec; auto).
    rewrite Hs. auto.
  - intros [Hn Ht]. destruct (supplied v) as [s|] eqn:Hs; [|discriminate].
    apply supplied_spec in Hs as [-> Hne]. inversion Hn. subst n.
    exists s. auto.
Qed.

(** The condition a numeric filter adds, when the query runs. *)
Lemma and_number_spec v p :
  and_number refused (number_supplied Number v) = Ok p ->
  forall col, p col = true <-> (forall n, in_use Number v n -> n = Num col).
Proof.
  intros Hp col.
  assert (Hiff : forall n, in_use Number v n <->
            number_supplied Number v = Some n /\ truthy n = true)
    by (intros n; apply number_in_use).
  destruct (number_supplied Number v) as [n|]; cbn in Hp.
  - destruct (truthy n) eqn:Ht.
    + assert (Hone : (forall n', in_use Number v n' -> n' = Num col)
                     <-> n = Num col).
      { split.
        - intros H. apply H, Hiff. auto.
        - intros Hn n' Hn'. apply Hiff in Hn' as [Heq _].
          inversion Heq. subst n'. exact Hn. }
      rewrite Hone.
      destruct n as [|z|f|b]; try discriminate Ht.
      * destruct (int32 z || negb (refused (Num z))); [|discriminate Hp].
        inversion Hp. subst p. rewrite Z.eqb_eq. split.
        -- intros ->. reflexivity.
        -- intros H. inversion H. reflexivity.
      * destruct (refused (Frac f)); [discriminate Hp|].
        inversion Hp. subst p. split; discriminate.
      * destruct (refused (Infinity b)); [discriminate Hp|].
        inversion Hp. subst p. split; discriminate.
    + inversion Hp. subst p. split; [|reflexivity].
      intros _ n' Hn'. apply Hiff in Hn' as [Heq Ht'].
      inversion Heq. subst. congruence.
  - inversion Hp. subst p. split; [|reflexivity].
    intros _ n' Hn'. apply Hiff in Hn' as [Heq _]. discriminate Heq.
Qed.

(** A numeric filter in use lets the query run when it is an INT or is not
    refused. *)
Lemma and_number_runs v :
  (forall n, in_use Number v n ->
     (exists z, n = Num z /\ int32 z = true) \/ refused n = false) ->
  exists p, and_number refused (number_supplied Number v) = Ok p.
Proof.
  intros Hacc.
  assert (Hiff : forall n, in_use Number v n <->
            number_supplied Number v = Some n /\ truthy n = true)
    by (intros n; apply number_in_use).
  destruct (number_supplied Number v) as [n|]; cbn;
    [|eexists; reflexivity].
  destruct (truthy n) eqn:Ht; [|eexists; reflexivity].
  destruct (Hacc n) as [(z & -> & Hz) | Hr]; [apply Hiff; auto | |].
  - rewrite Hz. eexists. reflexivity.
  - destruct n as [|z|f|b]; try discriminate Ht; rewrite Hr;
      [rewrite orb_true_r|..]; eexists; reflexivity.
Qed.

Lemma and_number_ran v p :
  and_number refused (number_supplied Number v) = Ok p ->
  forall n, in_use Number v n ->
    (exists z, n = Num z /\ int32 z = true) \/ refused n = false.
Proof.
  intros Hp n Hn. apply number_in_use in Hn as [Hs Ht].
  rewrite Hs in Hp. cbn in Hp. rewrite Ht in Hp.
  destruct n as [|z|f|b]; try discriminate Ht.
  - destruct (int32 z) eqn:Hz; [left; eauto|].
    destruct (refused (Num z)); [discriminate Hp | right; reflexivity].
  - destruct (refused (Frac f)); [discriminate Hp | right; reflexivity].
  - destruct (refused (Infinity b)); [discriminate Hp | right; reflexivity].
Qed.

Lemma cast_supplied_ok v :
  (forall s, v = Some s -> s <> "" -> dateCast s <> None) ->
  exists d, cast_supplied dateCast v = Ok d.
Proof.
  intros Hcast. unfold cast_supplied.
  destruct (supplied v) as [s|] eqn:Hv; [|eexists; reflexivity].
  apply supplied_spec in Hv as [-> Hne].
  destruct (dateCast s) as [d|] eqn:Hd; [eexists; reflexivity|].
  exfalso. exact (Hcast s eq_refl Hne Hd).
Qed.

Lemma cast_supplied_spec v d :
  cast_supplied dateCast v = Ok d ->
  (forall s, v = Some s -> s <> "" -> d = dateCast s /\ d <> None)
  /\ (d <> None -> exists s, v = Some s /\ s <> "").
Proof.
  unfold cast_supplied. intros H.
  destruct (supplied v) as [s|] eqn:Hv.
  - apply supplied_spec in Hv as [-> Hne].
    destruct (dateCast s) as [x|] eqn:Hd; [|discriminate H].
    inversion H. subst d. split.
    + intros s' Hs' _. inversion Hs'; subst. split; [auto | discriminate].
    + intros _. exists s. auto.
  - inversion H. subst d. split.
    + intros s Hs Hne.
      assert (supplied v = Some s) as Habs by (apply supplied_spec; auto).
      congruence.
    + congruence.
Qed.

Lemma from_date_spec v from date :
  cast_supplied dateCast v = Ok from ->
  match from with Some d => d <=? date | None => true end = true
  <-> (forall s, v = Some s -> s <> "" ->
         exists d, dateCast s = Some d /\ d <= date).
Proof.
  intros H. apply cast_supplied_spec in H as [Hfrom Hfrom'].
  destruct from as [d|].
  - rewrite Z.leb_le. split.
    + intros Hle x Hx Hne. destruct (Hfrom x Hx Hne) as [Heq _].
      exists d. auto.
    + intros H. destruct Hfrom' as (x & Hx & Hne); [discriminate|].
      destruct (H x Hx Hne) as (d' & Hd' & Hle).
      destruct (Hfrom x Hx Hne) as [Heq _]. congruence.
  - split; [|reflexivity]. intros _ x Hx Hne.
    destruct (Hfrom x Hx Hne) as [_ Habs]. congruence.
Qed.

Lemma to_date_spec v to date :
  cast_supplied dateCast v = Ok to ->
  match to with Some d => date <=? d | None => true end = true
  <-> (forall s, v = Some s -> s <> "" ->
         exists d, dateCast s = Some d /\ date <= d).
Proof.
  intros H. apply cast_supplied_spec in H as [Hto Hto'].
  destruct to as [d|].
  - rewrite Z.leb_le. split.
    + intros Hle x Hx Hne. destruct (Hto x Hx Hne) as [Heq _].
      exists d. auto.
    + intros H. destruct Hto' as (x & Hx & Hne); [discriminate|].
      destruct (H x Hx Hne) as (d' & Hd' & Hle).
      destruct (Hto x Hx Hne) as [Heq _]. congruence.
  - split; [|reflexivity]. intros _ x Hx Hne.
    destruct (Hto x Hx Hne) as [_ Habs]. congruence.
Qed.

Lemma status_spec v st :
  match supplied v with
  | Some x => nvarchar_eq (status_text st) x
  | None => true
  end = true
  <-> (forall x, v = Some x -> x <> "" ->
         nvarchar_eq (status_text st) x = true).
Proof.
  destruct (supplied v) as [x|] eqn:Hx.
  - apply supplied_spec in Hx as [Hx Hne]. split.
    + intros Heq x' Hx' _. congruence.
    + intros H. exact (H x Hx Hne).
  - split; [|reflexivity]. intros _ x Hq Hne.
    assert (supplied v = Some x) as Habs by (apply supplied_spec; auto).
    congruence.
Qed.

(** What the query of GET selects, when it runs: the joined rows whose
    reservation passes the filters in use. *)
Lemma query_of_spec q t rows :
  query_of Number dateCast refused nvarchar_eq q t = Ok rows ->
  forall r u s,
    In (r, u, s) rows <->
    In (r, u, s) (join t) /\ passes Number dateCast nvarchar_eq q r.
Proof.
  unfold query_of, list_query, and_then. intros H r u s.
  destruct (and_number refused (number_supplied Number (Query.userId q)))
    as [user|] eqn:Hu; [|discriminate H].
  destruct (cast_supplied dateCast (Query.fromDate q)) as [from|] eqn:Hf;
    [|discriminate H].
  destruct (cast_supplied dateCast (Query.toDate q)) as [to|] eqn:Ht;
    [|discriminate H].
  destruct (and_number refused (number_supplied Number (Query.seatId q)))
    as [seat|] eqn:Hs; [|discriminate H].
  inversion H as [Hrows]. clear H.
  assert (Hin : In (r, u, s)
                  (if match Query.order q with
                      | Some o => String.eqb o "true"
                      | None => false
                      end
                   then order_by
                          (filter (where_list nvarchar_eq user seat from to
                                     (supplied (Query.status q))) (join t))
                   else filter (where_list nvarchar_eq user seat from to
                                  (supplied (Query.status q))) (join t))
                <-> In (r, u, s)
                      (filter (where_list nvarchar_eq user seat from to
                                 (supplied (Query.status q))) (join t))).
  { destruct (match Query.order q with
              | Some o => String.eqb o "true"
              | None => false
              end); [apply In_order_by | reflexivity]. }
  rewrite Hin, filter_In. unfold where_list, passes. cbn [fst].
  rewrite !andb_true_iff, (and_number_spec _ _ Hu), (and_number_spec _ _ Hs),
    (from_date_spec _ _ _ Hf), (to_date_spec _ _ _ Ht), status_spec.
  tauto.
Qed.

(** The query of GET runs when its date strings are dates and its numbers
    are accepted, and only then. *)
Lemma query_of_runs q t :
  (forall s, Query.fromDate q = Some s -> s <> "" -> dateCast s <> None) ->
  (forall s, Query.toDate q = Some s -> s <> "" -> dateCast s <> None) ->
  (forall n, in_use Number (Query.userId q) n ->
     (exists z, n = Num z /\ int32 z = true) \/ refused n = false) ->
  (forall n, in_use Number (Query.seatId q) n ->
     (exists z, n = Num z /\ int32 z = true) \/ refused n = false) ->
  exists rows, query_of Number dateCast refused nvarchar_eq q t = Ok rows.
Proof.
  intros Hf Ht Hu Hs. unfold query_of, list_query, and_then.
  destruct (and_number_runs _ Hu) as [user ->].
  destruct (cast_supplied_ok _ Hf) as [from ->].
  destruct (cast_supplied_ok _ Ht) as [to ->].
  destruct (and_number_runs _ Hs) as [seat ->].
  eexists. reflexivity.
Qed.

(** GET, step by step. *)
Lemma get_run E q db n :
  router_get Number dateCast refused nvarchar_eq E q (arrive db n)
  = if connected E
    then
      if fails E 0%nat
      then (Ok (mkResponse 500 (ErrorBody "DB error")),
            {| committed := db; identity := n; tx := None;
               trace := [(SelectList, false)];
               console := [mkLog "" (DriverError 0)] |})
      else
        match query_of Number dateCast refused nvarchar_eq q db with
        | Ok rows =>
            (Ok (mkResponse 200 (ListBody (map format rows))),
             {| committed := db; identity := n; tx := None;
                trace := [(SelectList, true)]; console := [] |})
        | Throw e =>
            (Ok (mkResponse 500 (ErrorBody "DB error")),
             {| committed := db; identity := n; tx := None;
                trace := [(SelectList, false)]; console := [mkLog "" e] |})
        end
    else (Ok (mkResponse 500 (ErrorBody "DB error")),
          {| committed := db; identity := n; tx := None; trace := [];
             console := [mkLog "" ConnectionError] |}).
Proof.
  unfold router_get, query_of, try_catch, bind, await_pool, select, issue,
    ret, console_error, arrive.
  destruct (connected E); cbn -[list_query]; [|reflexivity].
  destruct (fails E 0%nat); cbn -[list_query]; [reflexivity|].
  destruct (list_query _ _ _ _ _ _ _ _ _ _); reflexivity.
Qed.

Lemma get_committed E query db n :
  let out :=
    router_get Number dateCast refused nvarchar_eq E query (arrive db n) in
  committed (snd out) = db /\ identity (snd out) = n.
Proof.
  cbn zeta. rewrite get_run.
  destruct (connected E); [|split; reflexivity].
  destruct (fails E 0%nat); [split; reflexivity|].
  destruct (query_of _ _ _ _ _ _); split; reflexivity.
Qed.

(** With the query going through, GET answers 200 with the joined rows whose
    reservation passes the filters in use. *)
Lemma get_lists E db n q :
  goes_through Number dateCast refused E q ->
  exists rows,
    fst (router_get Number dateCast refused nvarchar_eq E q (arrive db n))
    = Ok (mkResponse 200 (ListBody rows))
    /\ (forall row,
          In row rows <->
          exists r u s,
            In (r, u, s) (join db)
            /\ row = format (r, u, s)
            /\ passes Number dateCast nvarchar_eq q r).
Proof.
  intros (Hc & Hf & Hfrom & Hto & Hu & Hs).
  destruct (query_of_runs q db Hfrom Hto Hu Hs) as [rows Hrows].
  rewrite get_run, Hc, Hf, Hrows. cbn [fst].
  exists (map format rows). split; [reflexivity|].
  intros row. rewrite in_map_iff. split.
  - intros ([[r u] s] & <- & Hin).
    apply (query_of_spec q db rows Hrows) in Hin as [Hj Hp].
    exists r, u, s. auto.
  - intros (r & u & s & Hj & -> & Hp). exists (r, u, s).
    split; [reflexivity|]. apply (query_of_spec q db rows Hrows). auto.
Qed.

(** What GET lists comes from the join and passes the filters in use. *)
Lemma get_listed_inv E db n q rows :
  listed (fst (router_get Number dateCast refused nvarchar_eq E q
                 (arrive db n))) = Some rows ->
  forall row,
    In row rows <->
    exists r u s,
      In (r, u, s) (join db)
      /\ row = format (r, u, s)
      /\ passes Number dateCast nvarchar_eq q r.
Proof.
  rewrite get_run.
  destruct (connected E); [|discriminate].
  destruct (fails E 0%nat); [discriminate|].
  destruct (query_of Number dateCast refused nvarchar_eq q db)
    as [joined|] eqn:Hq; [|discriminate].
  cbn. intros H. inversion H. subst rows. clear H.
  intros row. rewrite in_map_iff. split.
  - intros ([[r u] s] & <- & Hin).
    apply (query_of_spec q db joined Hq) in Hin as [Hj Hp].
    exists r, u, s. auto.
  - intros (r & u & s & Hj & -> & Hp). exists (r, u, s).
    split; [reflexivity|]. apply (query_of_spec q db joined Hq). auto.
Qed.

(** A numeric parameter that converts to [0] or [NaN] is dropped: the
    request is served as if the parameter were absent. *)
Lemma get_drops_falsy_userId E w s from to seat status order :
  truthy (Number s) = false ->
  router_get Number dateCast refused nvarchar_eq E
    (Query.mk (Some s) from to seat status order) w
  = router_get Number dateCast refused nvarchar_eq E
      (Query.mk None from to seat status order) w.
Proof.
  intros Hs. unfold router_get, list_query, number_supplied.
  cbn [Query.userId Query.fromDate Query.toDate Query.seatId Query.status
       Query.order supplied].
  destruct (truthy_string s); [|reflexivity].
  unfold and_number at 1 3. rewrite Hs. reflexivity.
Qed.

End Get.

(** ** The service, one request at a time *)

Lemma ordered_pairs_snoc {A} (R : A -> A -> Prop) l r :
  ForallOrdPairs R l ->
  (forall x, In x l -> R x r) ->
  ForallOrdPairs R (l ++ [r]).
Proof.
  induction 1 as [|a l Ha Hl IH]; cbn; intros Hr.
  - constructor; constructor.
  - constructor.
    + apply Forall_app. split.
      * exact Ha.
      * constructor; [apply Hr; left; reflexivity | constructor].
    + apply IH. intros x Hx. apply Hr. right. exact Hx.
Qed.

Lemma ordered_pairs_map {A} (R : A -> A -> Prop) (f : A -> A) l :
  (forall a b, R a b -> R (f a) (f b)) ->
  ForallOrdPairs R l ->
  ForallOrdPairs R (map f l).
Proof.
  intros Hf. induction 1 as [|a l Ha Hl IH]; cbn; constructor.
  - apply Forall_map. revert Ha. apply Forall_impl. intros b. apply Hf.
  - exact IH.
Qed.

Lemma no_double_booking_canceled id t :
  no_double_booking t -> no_double_booking (update_canceled id t).
Proof.
  unfold no_double_booking. cbn. apply ordered_pairs_map.
  intros a b Hab (H1 & H2 & H3 & H4 & H5 & H6). apply Hab.
  destruct (Reservations.id a =? id); [discriminate H3|].
  destruct (Reservations.id b =? id); [discriminate H4|].
  repeat split; assumption.
Qed.

Lemma no_double_booking_insert r t :
  no_double_booking t ->
  (forall x, In x (tReservations t) -> ~ double_booked x r) ->
  no_double_booking (insert_row r t).
Proof.
  unfold no_double_booking. cbn. intros Ht Hr.
  apply (ordered_pairs_snoc (fun a b => ~ double_booked a b) _ r Ht Hr).
Qed.

Lemma overlap_free_no_double_booking s date a b excludeId n u now x l :
  nonempty (filter (where_overlap s date a b excludeId) l) = false ->
  In x l ->
  (forall id, excludeId = Some id -> Reservations.id x <> id) ->
  ~ double_booked x (inserted n u s date a b now).
Proof.
  intros Hfree Hin Hid (H1 & H2 & H3 & _ & H5 & H6). cbn in *.
  assert (where_overlap s date a b excludeId x = false) as Hno
    by (apply (proj1 (nonempty_filter_false _ l) Hfree x Hin)).
  assert (where_overlap s date a b excludeId x = true) as Hyes
    by (apply where_overlap_spec; repeat split; auto).
  congruence.
Qed.

Lemma times_ordered_insert r t :
  Reservations.start_time r < Reservations.end_time r ->
  times_ordered t -> times_ordered (insert_row r t).
Proof.
  intros Hr Ht x Hin. cbn in Hin. apply in_app_or in Hin as [Hin|[<-|[]]].
  - apply Ht, Hin.
  - exact Hr.
Qed.

Lemma times_ordered_canceled id t :
  times_ordered t -> times_ordered (update_canceled id t).
Proof.
  intros Ht x Hin. cbn in Hin. apply in_map_iff in Hin as [r [<- Hin]].
  specialize (Ht r Hin). destruct (Reservations.id r =? id); exact Ht.
Qed.

Lemma set_status_canceled_again r :
  Reservations.status r = canceled -> set_status canceled r = r.
Proof. destruct r; cbn; intros ->; reflexivity. Qed.

Lemma same_or_canceled_refl l : Forall2 same_or_canceled l l.
Proof. induction l; constructor; auto. left. reflexivity. Qed.

Lemma grows_refl t : grows t t.
Proof.
  split; [reflexivity|]. split; [reflexivity|].
  exists (tReservations t), []. rewrite app_nil_r.
  split; [reflexivity | apply same_or_canceled_refl].
Qed.

Lemma grows_canceled id t : grows t (update_canceled id t).
Proof.
  split; [reflexivity|]. split; [reflexivity|].
  eexists _, []. rewrite app_nil_r. split; [reflexivity|]. cbn.
  induction (tReservations t) as [|r l IH]; cbn; constructor; [|exact IH].
  destruct (Reservations.id r =? id); [right | left]; reflexivity.
Qed.

Lemma grows_insert r t : grows t (insert_row r t).
Proof.
  split; [reflexivity|]. split; [reflexivity|].
  exists (tReservations t), [r].
  split; [reflexivity | apply same_or_canceled_refl].
Qed.

Lemma same_or_canceled_trans l1 l2 l3 :
  Forall2 same_or_canceled l1 l2 ->
  Forall2 same_or_canceled l2 l3 ->
  Forall2 same_or_canceled l1 l3.
Proof.
  intros H12. revert l3.
  induction H12 as [|a b l1 l2 Hab _ IH]; intros l3 H23;
    inversion H23; subst; constructor; [|now apply IH].
  match goal with H : same_or_canceled b _ |- _ => destruct H as [->| ->] end.
  - exact Hab.
  - destruct Hab as [->| ->]; right; reflexivity.
Qed.

Lemma grows_trans a b c : grows a b -> grows b c -> grows a c.
Proof.
  intros (Hu1 & Hs1 & k1 & a1 & Hb & H1) (Hu2 & Hs2 & k2 & a2 & Hc & H2).
  split; [congruence|]. split; [congruence|].
  rewrite Hb in H2. apply Forall2_app_inv_l in H2
    as (k21 & k22 & H21 & H22 & ->).
  exists k21, (k22 ++ a2). split.
  - rewrite Hc, app_assoc. reflexivity.
  - exact (same_or_canceled_trans _ _ _ H1 H21).
Qed.

(** A row of the earlier tables has its place in the later ones. *)
Lemma grows_keeps a b r :
  grows a b ->
  In r (tReservations a) ->
  exists r', In r' (tReservations b) /\ same_or_canceled r r'.
Proof.
  intros (_ & _ & kept & added & -> & Hkept) Hin.
  induction Hkept as [|x y l l' Hxy _ IH]; [contradiction|].
  destruct Hin as [->|Hin].
  - exists y. split; [left; reflexivity | exact Hxy].
  - destruct (IH Hin) as (r' & Hr' & Hsame).
    exists r'. split; [right; exact Hr' | exact Hsame].
Qed.

Lemma ids_update_canceled id t :
  map Reservations.id (tReservations (update_canceled id t))
  = map Reservations.id (tReservations t).
Proof.
  cbn. rewrite map_map. apply map_ext. intros r.
  destruct (Reservations.id r =? id); reflexivity.
Qed.

Lemma In_update_canceled id t r :
  In r (tReservations (update_canceled id t)) ->
  exists r0, In r0 (tReservations t)
    /\ Reservations.id r = Reservations.id r0
    /\ Reservations.user_id r = Reservations.user_id r0
    /\ Reservations.seat_id r = Reservations.seat_id r0.
Proof.
  cbn. intros Hin. apply in_map_iff in Hin as (r0 & <- & Hin).
  exists r0. split; [exact Hin|].
  destruct (Reservations.id r0 =? id); repeat split; reflexivity.
Qed.

Lemma ids_fresh_step t n t' :
  (t' = t \/ exists id, t' = update_canceled id t) ->
  ids_fresh (t, n) -> ids_fresh (t', n).
Proof.
  intros [-> | [id ->]] [Hnd Hlt]; [split; assumption|].
  unfold ids_fresh. cbn [fst snd] in *. split.
  - rewrite ids_update_canceled. exact Hnd.
  - intros r Hin. apply In_update_canceled in Hin as (r0 & Hin & -> & _).
    apply Hlt, Hin.
Qed.

Lemma references_hold_step t t' :
  (t' = t \/ exists id, t' = update_canceled id t) ->
  references_hold t -> references_hold t'.
Proof.
  intros [-> | [id ->]] H; [exact H|].
  intros r Hin. apply In_update_canceled in Hin as (r0 & Hin & _ & -> & ->).
  exact (H r0 Hin).
Qed.

(** Two rows with the same key, where keys are pairwise different, are one
    row. *)
Lemma same_key_same_row {A B} (f : A -> B) l a b :
  NoDup (map f l) -> In a l -> In b l -> f a = f b -> a = b.
Proof.
  induction l as [|x l IH]; cbn; [contradiction|].
  intros Hnd Ha Hb Hf. inversion Hnd as [|? ? Hx Hnd']; subst.
  destruct Ha as [->|Ha], Hb as [->|Hb].
  - reflexivity.
  - exfalso. apply Hx. rewrite Hf. now apply in_map.
  - exfalso. apply Hx. rewrite <- Hf. now apply in_map.
  - now apply IH.
Qed.

Section Service.

Variable Number : string -> jsnum.
Variable dateParam : string -> option Z.
Variable dateCast : string -> option Z.
Variable refused : jsnum -> bool.
Variable nvarchar_eq : string -> string -> bool.

(** One request, seen from the tables: nothing, a cancel, an insert, or a
    cancel and an insert; the inserted row takes the identity value, starts
    before it ends, names an existing user and seat and overlaps no reserved
    row of its seat and date. *)
Lemma serve_cases E rq db n :
  let s' := serve Number dateParam dateCast refused nvarchar_eq E rq (db, n) in
  n <= snd s'
  /\ (fst s' = db
      \/ (exists id, fst s' = update_canceled id db)
      \/ (exists t r,
            (t = db \/ exists id, t = update_canceled id db)
            /\ fst s' = insert_row r t
            /\ snd s' = n + 1
            /\ Reservations.id r = n
            /\ Reservations.status r = reserved
            /\ has_user db (Reservations.user_id r) = true
            /\ has_seat db (Reservations.seat_id r) = true
            /\ Reservations.start_time r < Reservations.end_time r
            /\ (forall x, In x (tReservations t) -> ~ double_booked x r))).
Proof.
  unfold serve, handle. cbn [fst snd].
  destruct rq as [query|params_id|req_body|params_id req_body].
  - destruct (get_committed Number dateCast refused nvarchar_eq E query db n)
      as [-> ->].
    split; [lia | left; reflexivity].
  - destruct (delete_effect Number E params_id db n)
      as [Hn [[Hdb _] | (id & _ & _ & _ & Hout)]].
    + rewrite Hn, Hdb. split; [lia | left; reflexivity].
    + rewrite Hout. cbn. split; [lia|]. right. left. eexists. reflexivity.
  - destruct (post_dispatch dateParam E req_body (arrive db n))
      as [[msg ->] | (u & s & d & st & en & _ & _ & _ & Hlt & ->)].
    + cbn. split; [lia | left; reflexivity].
    + destruct (connected E); [|cbn; split; [lia | left; reflexivity]].
      destruct (post_transaction_effect dateParam E u s d (toTime st)
                  (toTime en) db n)
        as [(Hdb & _ & Hn)
           | (userId & seatId & date & _ & _ & _ & Hu & Hs & Hfree & Hout)].
      * rewrite Hdb. split; [lia | left; reflexivity].
      * rewrite Hout. cbn. split; [lia|]. right. right.
        eexists db, _. split; [left; reflexivity|].
        split; [reflexivity|]. split; [reflexivity|]. split; [reflexivity|].
        split; [reflexivity|]. split; [exact Hu|]. split; [exact Hs|].
        split; [exact Hlt|]. intros x Hin.
        apply (overlap_free_no_double_booking _ _ _ _ _ _ _ _ _ _ Hfree Hin).
        discriminate.
  - destruct (put_dispatch Number dateParam E params_id req_body (arrive db n))
      as [[msg ->] | (u & s & d & st & en & _ & _ & _ & _ & Hlt & ->)].
    + cbn. split; [lia | left; reflexivity].
    + destruct (connected E); [|cbn; split; [lia | left; reflexivity]].
      destruct (put_transaction_effect dateParam E (Number params_id) u s d
                  (toTime st) (toTime en) db n)
        as [(Hdb & _ & Hn)
           | (id & userId & seatId & date & _ & _ & _ & _ & _ & Hu & Hs
              & Hfree & Hout)].
      * rewrite Hdb. split; [lia | left; reflexivity].
      * rewrite Hout. cbn. split; [lia|]. right. right.
        eexists (update_canceled id db), _.
        split; [right; eexists; reflexivity|].
        split; [reflexivity|]. split; [reflexivity|]. split; [reflexivity|].
        split; [reflexivity|]. split; [exact Hu|]. split; [exact Hs|].
        split; [exact Hlt|]. intros x Hin. cbn in Hin.
        apply in_map_iff in Hin as (x0 & <- & Hin).
        destruct (Z.eqb_spec (Reservations.id x0) id) as [Heq|Hne].
        -- intros (_ & _ & Habs & _). discriminate Habs.
        -- apply (overlap_free_no_double_booking _ _ _ _ _ _ _ _ _ _ Hfree
                    Hin).
           intros i Hi. inversion Hi; subst. exact Hne.
Qed.

Lemma serve_times_ordered E rq s :
  times_ordered (fst s) ->
  times_ordered
    (fst (serve Number dateParam dateCast refused nvarchar_eq E rq s)).
Proof.
  intros Hs. destruct s as [db n]. cbn [fst] in Hs.
  destruct (serve_cases E rq db n)
    as (_ & [-> | [[id ->] | (t & r & Ht & -> & _ & _ & _ & _ & _ & Hr & _)]]).
  - exact Hs.
  - now apply times_ordered_canceled.
  - apply times_ordered_insert; [exact Hr|].
    destruct Ht as [-> | [id ->]];
      [exact Hs | now apply times_ordered_canceled].
Qed.

(** C9. From tables in which every reservation starts before it ends (the
    empty table, or the rows seeded by [create_reservations.sql]), every
    state the service reaches through any requests under any environments
    keeps that property; and a POST or PUT whose [startTime] is not before
    its [endTime] is answered 400 in the world it arrived in: no transaction
    is begun and no call is issued. *)
Theorem start_before_end_invariant :
  (forall init s,
     times_ordered (fst init) ->
     reachable Number dateParam dateCast refused nvarchar_eq init s ->
     times_ordered (fst s))
  /\ (forall E w u s d st en,
        toTime st >= toTime en ->
        exists msg,
          router_post dateParam E (body_of u s d st en) w
          = (Ok (mkResponse 400 (ErrorBody msg)), w))
  /\ (forall E w params_id u s d st en,
        toTime st >= toTime en ->
        exists msg,
          router_put Number dateParam E params_id (body_of u s d st en) w
          = (Ok (mkResponse 400 (ErrorBody msg)), w)).
Proof.
  split; [|split].
  - intros init s Hinit Hreach.
    induction Hreach as [|s E rq _ IH].
    + exact Hinit.
    + apply serve_times_ordered, IH.
  - intros E w u s d st en Hge. unfold router_post, body_of.
    cbn [userId seatId reservedDate startTime endTime].
    destruct (negb (timeRegex_test st) || negb (timeRegex_test en));
      [eexists; reflexivity|].
    destruct (Z.geb_spec (toTime st) (toTime en)); [|lia].
    eexists; reflexivity.
  - intros E w params_id u s d st en Hge. unfold router_put, body_of.
    cbn [userId seatId reservedDate startTime endTime].
    destruct (negb (truthy (Number params_id)) || negb (timeRegex_test st)
              || negb (timeRegex_test en)); [eexists; reflexivity|].
    destruct (Z.geb_spec (toTime st) (toTime en)); [|lia].
    eexists; reflexivity.
Qed.

(** X1. Served one after the other, requests never leave two reserved
    reservations of one seat and date overlapping in time, whatever fails:
    from tables without such a pair, every state the service reaches is
    without one. *)
Lemma no_double_booking_reachable init s :
  no_double_booking (fst init) ->
  reachable Number dateParam dateCast refused nvarchar_eq init s ->
  no_double_booking (fst s).
Proof.
  intros Hinit Hreach. induction Hreach as [|[db n] E rq _ IH];
    [exact Hinit|].
  cbn [fst] in IH.
  destruct (serve_cases E rq db n)
    as (_ & [-> | [[id ->]
                  | (t & r & Ht & -> & _ & _ & _ & _ & _ & _ & Hfree)]]).
  - exact IH.
  - now apply no_double_booking_canceled.
  - apply no_double_booking_insert; [|exact Hfree].
    destruct Ht as [-> | [id ->]];
      [exact IH | now apply no_double_booking_canceled].
Qed.

Lemma serve_grows E rq db n :
  grows db (fst (serve Number dateParam dateCast refused nvarchar_eq E rq
                   (db, n))).
Proof.
  destruct (serve_cases E rq db n)
    as (_ & [-> | [[id ->] | (t & r & Ht & -> & _)]]).
  - apply grows_refl.
  - apply grows_canceled.
  - apply (grows_trans _ t); [|apply grows_insert].
    destruct Ht as [-> | [id ->]];
      [apply grows_refl | apply grows_canceled].
Qed.

Lemma reachable_grows init s :
  reachable Number dateParam dateCast refused nvarchar_eq init s ->
  grows (fst init) (fst s).
Proof.
  intros Hreach.
  induction Hreach as [|[db n] E rq _ IH]; [apply grows_refl|].
  apply (grows_trans _ _ _ IH). apply serve_grows.
Qed.

(** X2. Whatever requests are served and whatever fails, the tables only
    grow: users and seats stay as they are, no reservation is deleted or
    moved, the only change to a reservation is its status becoming
    [canceled], and new reservations are added at the end.  So a canceled
    reservation is in every later state exactly as it was: nothing leads
    back from [canceled]. *)
Theorem reservations_only_grow :
  forall init s,
    reachable Number dateParam dateCast refused nvarchar_eq init s ->
    grows (fst init) (fst s)
    /\ (forall r, In r (tReservations (fst init)) ->
          Reservations.status r = canceled ->
          In r (tReservations (fst s))).
Proof.
  intros init s Hreach.
  assert (Hgrows : grows (fst init) (fst s)) by now apply reachable_grows.
  split; [exact Hgrows|].
  destruct Hgrows as (_ & _ & kept & added & -> & Hkept).
  intros r Hin Hst. apply in_or_app. left.
  clear - Hkept Hin Hst.
  induction Hkept as [|a b l l' Hab _ IH]; [contradiction|].
  destruct Hin as [->|Hin]; [|right; auto].
  left. destruct Hab as [->| ->]; [reflexivity|].
  now apply set_status_canceled_again.
Qed.

Lemma serve_ids_fresh E rq s :
  ids_fresh s ->
  ids_fresh (serve Number dateParam dateCast refused nvarchar_eq E rq s).
Proof.
  destruct s as [db n]. intros IH.
  destruct (serve_cases E rq db n) as (Hn & Hcases).
  destruct (serve Number dateParam dateCast refused nvarchar_eq E rq (db, n))
    as [db' n'].
  cbn [fst snd] in *.
  assert (Hweaken : forall t, ids_fresh (t, n) -> ids_fresh (t, n')).
  { intros t [Hnd Hlt]. split; [exact Hnd|]. cbn [fst snd] in *.
    intros r Hin. specialize (Hlt r Hin). lia. }
  destruct Hcases as [-> | [[id ->] | (t & r & Ht & -> & -> & Hid & _)]].
  - apply Hweaken, IH.
  - apply Hweaken. apply (ids_fresh_step db); [right; eexists; reflexivity|].
    exact IH.
  - destruct (ids_fresh_step db n t Ht IH) as [Hnd Hlt].
    unfold ids_fresh. cbn [fst snd] in *.
    change (tReservations (insert_row r t)) with (tReservations t ++ [r]).
    split.
    + rewrite map_app. cbn [map]. apply NoDup_app.
      * exact Hnd.
      * constructor; [intros [] | constructor].
      * intros x Hx [<-|[]]. apply in_map_iff in Hx as (r0 & Hr0 & Hin).
        specialize (Hlt r0 Hin). lia.
    + intros x Hin. apply in_app_or in Hin as [Hin|[<-|[]]].
      * specialize (Hlt x Hin). lia.
      * lia.
Qed.

Lemma reachable_ids_fresh init s :
  ids_fresh init ->
  reachable Number dateParam dateCast refused nvarchar_eq init s ->
  ids_fresh s.
Proof.
  intros Hinit Hreach.
  induction Hreach as [|s E rq _ IH]; [exact Hinit|].
  now apply serve_ids_fresh.
Qed.

(** X3. Reservation ids stay pairwise different and below the identity
    counter in every state the service reaches, whatever fails: no request
    supplies an id, [createReservation] leaves it to the IDENTITY column, and
    no UPDATE touches it. *)
Theorem ids_stay_fresh :
  forall init s,
    ids_fresh init ->
    reachable Number dateParam dateCast refused nvarchar_eq init s ->
    ids_fresh s.
Proof.
  intros init s Hinit Hreach.
  induction Hreach as [|s E rq _ IH]; [exact Hinit|].
  now apply serve_ids_fresh.
Qed.

(** X4. When every reservation names an existing user and an existing seat,
    so it does in every state the service reaches, whatever fails: POST and
    PUT look both up inside the transaction that inserts, and users and
    seats are never written. *)
Theorem references_stay_valid :
  forall init s,
    references_hold (fst init) ->
    reachable Number dateParam dateCast refused nvarchar_eq init s ->
    references_hold (fst s).
Proof.
  intros init s Hinit Hreach.
  induction Hreach as [|[db n] E rq _ IH]; [exact Hinit|].
  destruct (serve_cases E rq db n) as (_ & Hcases). cbn [fst] in *.
  destruct Hcases
    as [-> | [[id ->] | (t & r & Ht & -> & _ & _ & _ & Hu & Hs & _)]].
  - exact IH.
  - apply (references_hold_step db); [right; eexists; reflexivity | exact IH].
  - pose proof (references_hold_step db t Ht IH) as Href.
    assert (Hsame : tUsers t = tUsers db /\ tSeats t = tSeats db)
      by (destruct Ht as [-> | [id ->]]; split; reflexivity).
    destruct Hsame as [Hus Hss].
    intros x Hin. cbn in Hin. apply in_app_or in Hin as [Hin|[<-|[]]].
    + destruct (Href x Hin) as [H1 H2]. split; [exact H1 | exact H2].
    + unfold has_user, has_seat in *. cbn. rewrite Hus, Hss. auto.
Qed.

Lemma reachable_trans a b c :
  reachable Number dateParam dateCast refused nvarchar_eq a b ->
  reachable Number dateParam dateCast refused nvarchar_eq b c ->
  reachable Number dateParam dateCast refused nvarchar_eq a c.
Proof.
  intros Hab Hbc. induction Hbc; [exact Hab | now constructor].
Qed.

End Service.

(** * Further properties of the routes *)

(** ** Times written and read *)

Lemma digit_char_of c : digit_char (Z.of_N (N_of_ascii c) - 48) = c.
Proof.
  unfold digit_char.
  replace (48 + (Z.of_N (N_of_ascii c) - 48)) with (Z.of_N (N_of_ascii c))
    by lia.
  rewrite N2Z.id. apply ascii_N_embedding.
Qed.

Lemma two_digits_of a b :
  0 <= b <= 9 ->
  two_digits (a * 10 + b)
  = String (digit_char a) (String (digit_char b) EmptyString).
Proof.
  intros Hb. unfold two_digits.
  rewrite Z.div_add_l by lia. rewrite (Z.div_small b) by lia.
  rewrite Z.add_0_r.
  rewrite (Z.add_comm (a * 10)), Z.mod_add by lia.
  rewrite Z.mod_small by lia. reflexivity.
Qed.

Lemma hhmm_of h m :
  0 <= m < 60 ->
  hhmm ((h * 60 + m) * 60000)
  = (two_digits h ++ ":" ++ two_digits m)%string.
Proof.
  intros Hm. unfold hhmm.
  replace ((h * 60 + m) * 60000) with (h * 3600000 + m * 60000) at 1 by lia.
  rewrite Z.div_add_l by lia. rewrite (Z.div_small (m * 60000)) by lia.
  rewrite Z.add_0_r. rewrite Z.div_mul by lia.
  rewrite (Z.add_comm (h * 60)), Z.mod_add by lia.
  rewrite Z.mod_small by lia. reflexivity.
Qed.

Lemma hhmm_toTime t : timeRegex_test t = true -> hhmm (toTime t) = t.
Proof.
  destruct t as [|h1 [|h2 [|c [|m1 [|m2 [|]]]]]]; try discriminate.
  unfold timeRegex_test, toTime, is_digit, char_between, digit_value.
  change (N_of_ascii "0") with 48%N. change (N_of_ascii "1") with 49%N.
  change (N_of_ascii "3") with 51%N. change (N_of_ascii "5") with 53%N.
  change (N_of_ascii "9") with 57%N.
  intros H. apply andb_true_iff in H as [H Hm2].
  apply andb_true_iff in H as [H Hm1].
  apply andb_true_iff in H as [Hh Hc].
  apply Ascii.eqb_eq in Hc. subst c.
  apply andb_true_iff in Hm1 as [Hm1a Hm1b].
  apply andb_true_iff in Hm2 as [Hm2a Hm2b].
  apply N.leb_le in Hm1a, Hm1b, Hm2a, Hm2b.
  assert (Hh2 : (48 <= N_of_ascii h2 <= 57)%N).
  { apply orb_true_iff in Hh as [Hh|Hh];
      apply andb_true_iff in Hh as [_ Hb];
      apply andb_true_iff in Hb as [Hb1 Hb2];
      apply N.leb_le in Hb1, Hb2; lia. }
  rewrite hhmm_of by lia.
  rewrite !two_digits_of by lia.
  rewrite !digit_char_of. reflexivity.
Qed.

(** X15. The two conversions of times are inverse to each other.  A string
    [timeRegex] accepts, turned into a time by [toTime] and written back as
    the routes write times ([toISOString().substring(11, 16)]), is the same
    string; and every time of day on the minute is written as a string that
    [timeRegex] accepts and [toTime] reads back as that time. *)
Theorem time_round_trip :
  (forall t, timeRegex_test t = true -> hhmm (toTime t) = t)
  /\ (forall h m,
        0 <= h < 24 -> 0 <= m < 60 ->
        timeRegex_test (hhmm ((h * 60 + m) * 60000)) = true
        /\ toTime (hhmm ((h * 60 + m) * 60000)) = (h * 60 + m) * 60000).
Proof.
  split; [exact hhmm_toTime|].
  assert (Hall :
    forallb (fun h =>
      forallb (fun m =>
        let ms := (Z.of_nat h * 60 + Z.of_nat m) * 60000 in
        timeRegex_test (hhmm ms) && (toTime (hhmm ms) =? ms))
        (seq 0 60)) (seq 0 24) = true) by (vm_compute; reflexivity).
  intros h m Hh Hm.
  rewrite forallb_forall in Hall.
  specialize (Hall (Z.to_nat h)).
  rewrite forallb_forall in Hall.
  assert (Hhm := Hall (proj2 (in_seq 24 0 (Z.to_nat h)) ltac:(lia))
                   (Z.to_nat m) (proj2 (in_seq 60 0 (Z.to_nat m)) ltac:(lia))).
  cbn zeta in Hhm. rewrite !Z2Nat.id in Hhm by lia.
  apply andb_true_iff in Hhm as [H1 H2]. apply Z.eqb_eq in H2. auto.
Qed.

(** ** Answers *)

Section Answers.

Variable Number : string -> jsnum.
Variable dateParam : string -> option Z.

(** X5. With the pool connected, POST and PUT answer every request,
    whatever fails afterwards.  They answer 500 exactly when a call to the
    database threw, be it rejected or refused by the driver for a number
    that is no INT or a string that is no date; then nothing is committed, a
    rollback has been attempted and the error is on the console first.  When
    no call threw, nothing is written to the console.  With the pool not
    connected, [await pool], which stands before the [try], throws: a
    request that passes the validation ends without an answer, with no call
    issued and nothing on the console; the others are answered 400. *)
Theorem post_put_answer_500_iff_a_call_failed :
  forall E db n params_id req_body,
    let post := router_post dateParam E req_body (arrive db n) in
    let put :=
      router_put Number dateParam E params_id req_body (arrive db n) in
    (connected E = true ->
     ((exists response, fst post = Ok response)
      /\ (answered (fst post) = Some 500 <-> failed (trace (snd post)) = true)
      /\ (failed (trace (snd post)) = true ->
          fst post = Ok (mkResponse 500 (ErrorBody "Reservation failed"))
          /\ committed (snd post) = db
          /\ issued Rollback (trace (snd post)) = true
          /\ exists err,
               hd_error (console (snd post))
               = Some (mkLog "Reservation POST error:" err))
      /\ (failed (trace (snd post)) = false -> console (snd post) = []))
     /\ ((exists response, fst put = Ok response)
         /\ (answered (fst put) = Some 500 <->
             failed (trace (snd put)) = true)
         /\ (failed (trace (snd put)) = true ->
             fst put
             = Ok (mkResponse 500 (ErrorBody "Failed to update reservation"))
             /\ committed (snd put) = db
             /\ issued Rollback (trace (snd put)) = true
             /\ exists err,
                  hd_error (console (snd put))
                  = Some (mkLog "Transaction error during reservation update:"
                            err))
         /\ (failed (trace (snd put)) = false -> console (snd put) = [])))
    /\ (connected E = false ->
        (answered (fst post) = None <-> valid_body req_body)
        /\ snd post = arrive db n
        /\ (answered (fst put) = None <->
            valid_body req_body /\ truthy (Number params_id) = true)
        /\ snd put = arrive db n).
Proof.
  intros E db n params_id req_body post put. subst post put. split.
  - intros Hc. split.
    + destruct (post_dispatch dateParam E req_body (arrive db n))
        as [[msg ->] | (u & s & d & st & en & _ & _ & _ & _ & ->)].
      * cbn. split; [eexists; reflexivity|].
        split; [split; discriminate|]. split; [discriminate | reflexivity].
      * rewrite Hc.
        destruct (post_transaction_answers dateParam E u s d (toTime st)
                    (toTime en) db n)
          as ((c & Hcode & _) & Hiff & Hfail & Hquiet).
        split; [|split; [exact Hiff | split; [exact Hfail | exact Hquiet]]].
        destruct (fst (post_transaction dateParam E u s d (toTime st)
                         (toTime en) (arrive db n)));
          [eexists; reflexivity | discriminate Hcode].
    + destruct (put_dispatch Number dateParam E params_id req_body
                  (arrive db n))
        as [[msg ->] | (u & s & d & st & en & _ & _ & _ & _ & _ & ->)].
      * cbn. split; [eexists; reflexivity|].
        split; [split; discriminate|]. split; [discriminate | reflexivity].
      * rewrite Hc.
        destruct (put_transaction_answers dateParam E (Number params_id) u s
                    d (toTime st) (toTime en) db n)
          as ((c & Hcode & _) & Hiff & Hfail & Hquiet).
        split; [|split; [exact Hiff | split; [exact Hfail | exact Hquiet]]].
        destruct (fst (put_transaction dateParam E (Number params_id) u s d
                         (toTime st) (toTime en) (arrive db n)));
          [eexists; reflexivity | discriminate Hcode].
  - intros Hc. split; [|split; [|split]].
    + destruct (post_dispatch dateParam E req_body (arrive db n))
        as [[msg Heq] | (u & s & d & st & en & Hb & Hst & Hen & Hlt & Heq)];
        rewrite Heq.
      * cbn. split; [discriminate|].
        intros (u & s & d & st & en & -> & Hst & Hen & Hlt).
        rewrite (post_validated dateParam E u s d st en _ Hst Hen Hlt), Hc
          in Heq.
        discriminate Heq.
      * rewrite Hc. cbn. split; [|reflexivity].
        intros _. exists u, s, d, st, en. auto.
    + destruct (post_dispatch dateParam E req_body (arrive db n))
        as [[msg ->] | (u & s & d & st & en & _ & _ & _ & _ & ->)];
        [reflexivity | rewrite Hc; reflexivity].
    + destruct (put_dispatch Number dateParam E params_id req_body
                  (arrive db n))
        as [[msg Heq]
           | (u & s & d & st & en & Hb & Hid & Hst & Hen & Hlt & Heq)];
        rewrite Heq.
      * cbn. split; [discriminate|].
        intros [(u & s & d & st & en & -> & Hst & Hen & Hlt) Hid].
        rewrite (put_validated Number dateParam E params_id u s d st en _
                   Hid Hst Hen Hlt), Hc in Heq.
        discriminate Heq.
      * rewrite Hc. cbn. split; [|reflexivity].
        intros _. split; [|exact Hid]. exists u, s, d, st, en. auto.
    + destruct (put_dispatch Number dateParam E params_id req_body
                  (arrive db n))
        as [[msg ->] | (u & s & d & st & en & _ & _ & _ & _ & _ & ->)];
        [reflexivity | rewrite Hc; reflexivity].
Qed.

(** X9. POST answers 400 exactly when the body is not valid: a field of the
    wrong type, a time that is not [HH:mm], or a start that is not before the
    end; PUT also when the id of the path is [0] or [NaN].  A request
    answered 400 has issued no call: the world is the one it arrived in.
    This holds whatever the environment. *)
Theorem bad_request_iff :
  forall E db n params_id req_body,
    let post := router_post dateParam E req_body (arrive db n) in
    let put :=
      router_put Number dateParam E params_id req_body (arrive db n) in
    (answered (fst post) = Some 400 <-> ~ valid_body req_body)
    /\ (answered (fst post) = Some 400 -> snd post = arrive db n)
    /\ (answered (fst put) = Some 400 <->
        ~ (valid_body req_body /\ truthy (Number params_id) = true))
    /\ (answered (fst put) = Some 400 -> snd put = arrive db n).
Proof.
  intros E db n params_id req_body post put. subst post put.
  assert (Hpost : forall u s d a b,
            answered
              (fst (if connected E
                    then post_transaction dateParam E u s d a b (arrive db n)
                    else (Throw ConnectionError, arrive db n))) <> Some 400).
  { intros u s d a b. destruct (connected E); [|discriminate].
    destruct (post_transaction_answers dateParam E u s d a b db n)
      as ((c & -> & Hc) & _).
    cbn in Hc. intros H. inversion H. subst. lia. }
  assert (Hput : forall id u s d a b,
            answered
              (fst (if connected E
                    then put_transaction dateParam E id u s d a b
                           (arrive db n)
                    else (Throw ConnectionError, arrive db n))) <> Some 400).
  { intros id u s d a b. destruct (connected E); [|discriminate].
    destruct (put_transaction_answers dateParam E id u s d a b db n)
      as ((c & -> & Hc) & _).
    cbn in Hc. intros H. inversion H. subst. lia. }
  split; [|split; [|split]].
  - split.
    + intros H400 (u & s & d & st & en & -> & Hst & Hen & Hlt).
      rewrite (post_validated dateParam E u s d st en _ Hst Hen Hlt) in H400.
      exact (Hpost _ _ _ _ _ H400).
    + intros Hbad.
      destruct (post_dispatch dateParam E req_body (arrive db n))
        as [[msg ->] | (u & s & d & st & en & Hb & Hst & Hen & Hlt & _)];
        [reflexivity|].
      exfalso. apply Hbad. exists u, s, d, st, en. auto.
  - destruct (post_dispatch dateParam E req_body (arrive db n))
      as [[msg ->] | (u & s & d & st & en & _ & _ & _ & _ & ->)];
      [reflexivity|].
    intros H. exfalso. exact (Hpost _ _ _ _ _ H).
  - split.
    + intros H400 [(u & s & d & st & en & -> & Hst & Hen & Hlt) Hid].
      rewrite (put_validated Number dateParam E params_id u s d st en _
                 Hid Hst Hen Hlt) in H400.
      exact (Hput _ _ _ _ _ _ H400).
    + intros Hbad.
      destruct (put_dispatch Number dateParam E params_id req_body
                  (arrive db n))
        as [[msg ->]
           | (u & s & d & st & en & Hb & Hid & Hst & Hen & Hlt & _)];
        [reflexivity|].
      exfalso. apply Hbad. split; [|exact Hid].
      exists u, s, d, st, en. auto.
  - destruct (put_dispatch Number dateParam E params_id req_body
                (arrive db n))
      as [[msg ->] | (u & s & d & st & en & _ & _ & _ & _ & _ & ->)];
      [reflexivity|].
    intros H. exfalso. exact (Hput _ _ _ _ _ _ H).
Qed.

(** X10. A valid PUT whose three numbers the driver accepts as INTs, with
    the pool connected and no call rejected, checks, in this order, the
    reservation, the user, the seat and the overlap with the reserved
    reservations of the seat and date other than the one it replaces; the
    first check that fails decides the answer (404 "Reservation not found or
    already canceled", 404 "User not found", 404 "Seat not found", 409),
    after a rollback and with the tables as they were. *)
Theorem put_checks_in_order :
  forall clock db n params_id u s d st en id userId seatId,
    truthy (Number params_id) = true ->
    timeRegex_test st = true ->
    timeRegex_test en = true ->
    toTime st < toTime en ->
    sqlInt (Number params_id) = Some id ->
    sqlInt u = Some userId ->
    sqlInt s = Some seatId ->
    let out :=
      router_put Number dateParam (no_faults clock) params_id
        (body_of u s d st en) (arrive db n) in
    let found :=
      exists old, In old (tReservations db)
        /\ Reservations.id old = id /\ Reservations.status old = reserved in
    (no_reserved_row id db ->
     out = (Ok not_found,
            ended [(Begin, true); (SelectReservation, true); (Rollback, true)]
              db n))
    /\ (found -> ~ user_exists db userId ->
        out = (Ok (mkResponse 404 (ErrorBody "User not found")),
               ended [(Begin, true); (SelectReservation, true);
                      (SelectUser, true); (Rollback, true)] db n))
    /\ (found -> user_exists db userId -> ~ seat_exists db seatId ->
        out = (Ok (mkResponse 404 (ErrorBody "Seat not found")),
               ended [(Begin, true); (SelectReservation, true);
                      (SelectUser, true); (SelectSeat, true);
                      (Rollback, true)] db n))
    /\ (forall date,
          found -> user_exists db userId -> seat_exists db seatId ->
          dateParam d = Some date ->
          (exists r, In r (tReservations db)
             /\ overlapping seatId date (toTime st) (toTime en) r
             /\ Reservations.id r <> id) ->
          out = (Ok (mkResponse 409
                       (ErrorBody "Seat already reserved during that time")),
                 ended [(Begin, true); (SelectReservation, true);
                        (SelectUser, true); (SelectSeat, true);
                        (SelectOverlap, true); (Rollback, true)] db n)).
Proof.
  intros clock db n params_id u s d st en id userId seatId
    Hid Hst Hen Hlt Hint Hu Hs out found. subst out found.
  rewrite (put_validated Number dateParam _ params_id u s d st en _
             Hid Hst Hen Hlt).
  cbn [connected no_faults].
  pose proof (put_transaction_run dateParam clock (Number params_id) u s d
                (toTime st) (toTime en) db n id userId seatId Hint Hu Hs)
    as Hrun. cbn zeta in Hrun.
  split; [|split; [|split]].
  - intros Hno. rewrite (proj2 (no_reserved_row_iff id db) Hno) in Hrun.
    exact Hrun.
  - intros Hf Hnu.
    rewrite (proj2 (reserved_row_found id db) Hf), (no_user _ _ Hnu) in Hrun.
    exact Hrun.
  - intros Hf Heu Hns.
    rewrite (proj2 (reserved_row_found id db) Hf),
      (proj2 (has_user_In _ _) Heu), (no_seat _ _ Hns) in Hrun.
    exact Hrun.
  - intros date Hf Heu Hes Hd (r & Hin & Hov & Hne).
    assert (Ho : nonempty (filter (where_overlap seatId date (toTime st)
                                     (toTime en) (Some id))
                             (tReservations db)) = true).
    { apply nonempty_filter. exists r. split; [exact Hin|].
      apply where_overlap_spec. split; [exact Hov|].
      intros x Hx. inversion Hx. subst. exact Hne. }
    rewrite (proj2 (reserved_row_found id db) Hf),
      (proj2 (has_user_In _ _) Heu), (proj2 (has_seat_In _ _) Hes), Hd, Ho
      in Hrun.
    exact Hrun.
Qed.

(** X16. The reservation POST answers 201 with, and the one PUT answers 200
    with, is the request as the driver binds it: the user and the seat are
    the INTs the driver sends for the two numbers of the body, which are
    those numbers when they are integers, the date is the one the driver
    reads from the date string of the body, the two times are those of the
    body when written back as [HH:mm], the status is [reserved] and the id
    is the identity value.  It is the last row of the committed table. *)
Theorem answered_reservation_is_the_request :
  forall E db n params_id req_body message r,
    let echoes (out : result Response * World) :=
      exists u s d st en userId seatId date,
        req_body = body_of u s d st en
        /\ sqlInt u = Some userId
        /\ sqlInt s = Some seatId
        /\ (forall z, u = Num z -> userId = z)
        /\ (forall z, s = Num z -> seatId = z)
        /\ dateParam d = Some date
        /\ Reservations.id r = n
        /\ Reservations.user_id r = userId
        /\ Reservations.seat_id r = seatId
        /\ Reservations.reserved_date r = date
        /\ hhmm (Reservations.start_time r) = st
        /\ hhmm (Reservations.end_time r) = en
        /\ Reservations.status r = reserved
        /\ exists rows, tReservations (committed (snd out)) = rows ++ [r] in
    (fst (router_post dateParam E req_body (arrive db n))
     = Ok (mkResponse 201 (ReservationBody message r)) ->
     echoes (router_post dateParam E req_body (arrive db n)))
    /\ (fst (router_put Number dateParam E params_id req_body (arrive db n))
        = Ok (mkResponse 200 (ReservationBody message r)) ->
        echoes (router_put Number dateParam E params_id req_body
                  (arrive db n))).
Proof.
  intros E db n params_id req_body message r echoes. subst echoes.
  assert (Hnum : forall x i z, sqlInt x = Some i -> x = Num z -> i = z).
  { intros x i z Hx ->. cbn in Hx. destruct (int32 z); congruence. }
  split.
  - destruct (post_dispatch dateParam E req_body (arrive db n))
      as [[msg Heq] | (u & s & d & st & en & Hb & Hst & Hen & _ & Heq)];
      rewrite Heq; [discriminate|].
    destruct (connected E); [|discriminate].
    destruct (post_transaction_effect dateParam E u s d (toTime st)
                (toTime en) db n)
      as [(_ & Hno & _)
         | (userId & seatId & date & Hu & Hs & Hd & _ & _ & _ & Hout)].
    + intros H. rewrite H in Hno. exfalso. apply Hno. reflexivity.
    + rewrite Hout. cbn [fst snd ended committed]. intros H.
      inversion H. subst r message.
      exists u, s, d, st, en, userId, seatId, date. unfold inserted.
      cbn [Reservations.id Reservations.user_id Reservations.seat_id
           Reservations.reserved_date Reservations.start_time
           Reservations.end_time Reservations.status].
      rewrite !hhmm_toTime by assumption.
      split; [exact Hb|]. split; [exact Hu|]. split; [exact Hs|].
      split; [intros z; apply (Hnum _ _ _ Hu)|].
      split; [intros z; apply (Hnum _ _ _ Hs)|].
      split; [exact Hd|].
      repeat split. eexists. reflexivity.
  - destruct (put_dispatch Number dateParam E params_id req_body
                (arrive db n))
      as [[msg Heq] | (u & s & d & st & en & Hb & _ & Hst & Hen & _ & Heq)];
      rewrite Heq; [discriminate|].
    destruct (connected E); [|discriminate].
    destruct (put_transaction_effect dateParam E (Number params_id) u s d
                (toTime st) (toTime en) db n)
      as [(_ & Hno & _)
         | (id & userId & seatId & date & _ & Hu & Hs & Hd & _ & _ & _ & _
            & Hout)].
    + intros H. rewrite H in Hno. exfalso. apply Hno. reflexivity.
    + rewrite Hout. cbn [fst snd ended committed]. intros H.
      inversion H. subst r message.
      exists u, s, d, st, en, userId, seatId, date. unfold inserted.
      cbn [Reservations.id Reservations.user_id Reservations.seat_id
           Reservations.reserved_date Reservations.start_time
           Reservations.end_time Reservations.status].
      rewrite !hhmm_toTime by assumption.
      split; [exact Hb|]. split; [exact Hu|]. split; [exact Hs|].
      split; [intros z; apply (Hnum _ _ _ Hu)|].
      split; [intros z; apply (Hnum _ _ _ Hs)|].
      split; [exact Hd|].
      repeat split. eexists. reflexivity.
Qed.

End Answers.

Section DeleteAnswers.

Variable Number : string -> jsnum.

(** X6. DELETE ends without an answer in two cases: the pool is not
    connected and the id passes the guard, for [await pool] stands before
    the [try]; or a call threw and the rollback of the [catch] block, the
    last call issued, threw as well.  In both nothing is committed.  In the
    first no call is issued and nothing is logged; in the second only the
    first error is on the console. *)
Theorem delete_unanswered_iff :
  forall E params_id db n,
    let out := router_delete Number E params_id (arrive db n) in
    (answered (fst out) = None <->
     (connected E = false /\ truthy (Number params_id) = true)
     \/ (failed (removelast (trace (snd out))) = true
         /\ last (trace (snd out)) (Begin, true) = (Rollback, false)))
    /\ (answered (fst out) = None ->
        committed (snd out) = db
        /\ (connected E = false -> snd out = arrive db n)
        /\ (connected E = true ->
            exists err, console (snd out) = [mkLog "Delete error:" err])).
Proof.
  intros E params_id db n. unfold router_delete.
  destruct (truthy (Number params_id)); cbn [negb].
  - run_route.
    repeat split_call E; cbn;
      (split;
       [split;
        [intros H; try discriminate H;
         first [left; split; reflexivity | right; split; reflexivity]
        | intros [[H1 H2] | [H1 H2]];
          try discriminate H1; try discriminate H2; reflexivity]
       | intros H; try discriminate H;
         (split; [reflexivity|]);
         (split; intros H'; try discriminate H';
                 first [reflexivity | eexists; reflexivity])]).
  - cbn. split.
    + split; [discriminate|].
      intros [[_ H] | [H _]]; discriminate H.
    + discriminate.
Qed.

End DeleteAnswers.

(** ** Listing *)

Lemma before_total a b : before a b = false -> before b a = true.
Proof.
  unfold before. cbn zeta.
  rewrite orb_false_iff, andb_false_iff, orb_true_iff, andb_true_iff.
  rewrite !Z.ltb_ge, !Z.ltb_lt, !Z.eqb_eq, !Z.eqb_neq, !Z.leb_le, Z.leb_gt.
  lia.
Qed.

Lemma place_sorted x l :
  Sorted (fun a b => before a b = true) l ->
  Sorted (fun a b => before a b = true) (place x l).
Proof.
  induction l as [|y l IH]; cbn; intros Hl.
  - repeat constructor.
  - destruct (before x y) eqn:Hxy.
    + constructor; [exact Hl | constructor; exact Hxy].
    + inversion Hl as [|? ? Hl' Hhd]; subst.
      constructor; [apply IH, Hl'|].
      destruct l as [|z l]; cbn.
      * constructor. now apply before_total.
      * destruct (before x z); constructor.
        -- now apply before_total.
        -- inversion Hhd. assumption.
Qed.

Lemma order_by_sorted l : Sorted (fun a b => before a b = true) (order_by l).
Proof.
  unfold order_by. induction l; cbn; [constructor | now apply place_sorted].
Qed.

Lemma place_permutation x l : Permutation (x :: l) (place x l).
Proof.
  induction l as [|y l IH]; cbn; [reflexivity|].
  destruct (before x y); [reflexivity|].
  rewrite perm_swap. now constructor.
Qed.

Lemma order_by_permutation l : Permutation l (order_by l).
Proof.
  unfold order_by. induction l as [|x l IH]; cbn; [reflexivity|].
  rewrite <- place_permutation. now constructor.
Qed.

Lemma before_listed a b :
  before a b = true -> listed_before (format a) (format b).
Proof.
  destruct a as [[ra ua] sa], b as [[rb ub] sb].
  unfold before, listed_before. cbn.
  rewrite orb_true_iff, andb_true_iff, Z.ltb_lt, Z.eqb_eq, Z.leb_le. tauto.
Qed.

Lemma sorted_map_format l :
  Sorted (fun a b => before a b = true) l ->
  Sorted listed_before (map format l).
Proof.
  induction 1 as [|a l Hl IH Hhd]; cbn; constructor; [exact IH|].
  destruct Hhd; cbn; constructor. now apply before_listed.
Qed.

Section Listing.

Variable Number : string -> jsnum.
Variable dateCast : string -> option Z.
Variable refused : jsnum -> bool.
Variable nvarchar_eq : string -> string -> bool.

(** X7. GET only reads: whatever happens, the tables and the identity
    counter are the ones before and no transaction is begun.  With the pool
    connected it issues one call, the SELECT, on the pool, and always
    answers: 200 with the rows when the SELECT went through, and 500 "DB
    error", with the error on the console, when it threw.  With the pool not
    connected, [await pool], which stands inside the [try], throws: no call
    is issued and the answer is 500 "DB error" with that error on the
    console. *)
Theorem get_only_reads :
  forall E query db n,
    let out :=
      router_get Number dateCast refused nvarchar_eq E query (arrive db n) in
    (connected E = true ->
     exists ok,
       snd out
       = {| committed := db; identity := n; tx := None;
            trace := [(SelectList, ok)]; console := console (snd out) |}
       /\ (ok = true ->
           console (snd out) = []
           /\ exists rows, fst out = Ok (mkResponse 200 (ListBody rows)))
       /\ (ok = false ->
           fst out = Ok (mkResponse 500 (ErrorBody "DB error"))
           /\ exists err, console (snd out) = [mkLog "" err]))
    /\ (connected E = false ->
        out = (Ok (mkResponse 500 (ErrorBody "DB error")),
               {| committed := db; identity := n; tx := None; trace := [];
                  console := [mkLog "" ConnectionError] |})).
Proof.
  intros E query db n. cbn zeta. rewrite get_run. split; intros ->.
  - destruct (fails E 0%nat); cbn.
    + exists false. split; [reflexivity|]. split; [discriminate|].
      intros _. split; [reflexivity | eexists; reflexivity].
    + destruct (query_of Number dateCast refused nvarchar_eq query db); cbn.
      * exists true. split; [reflexivity|]. split; [|discriminate].
        intros _. split; [reflexivity | eexists; reflexivity].
      * exists false. split; [reflexivity|]. split; [discriminate|].
        intros _. split; [reflexivity | eexists; reflexivity].
  - reflexivity.
Qed.

(** X11. With every reservation naming an existing user and seat and the
    query going through (the pool connected, the SELECT not rejected, the
    date strings in use being dates, the numbers in use being INTs or not
    refused), GET lists the reservations that pass the filters in use, all
    of them and no others: each such reservation has a row that shows it,
    and each row shows such a reservation.  The status filter compares as
    the collation of the database does.  Without any parameter every
    reservation is listed. *)
Theorem get_lists_the_reservations :
  forall E db n q,
    references_hold db ->
    goes_through Number dateCast refused E q ->
    exists rows,
      fst (router_get Number dateCast refused nvarchar_eq E q (arrive db n))
      = Ok (mkResponse 200 (ListBody rows))
      /\ (forall r, In r (tReservations db) ->
            passes Number dateCast nvarchar_eq q r ->
            exists row, In row rows /\ shows row r)
      /\ (forall row, In row rows ->
            exists r, In r (tReservations db)
              /\ passes Number dateCast nvarchar_eq q r /\ shows row r)
      /\ (q = no_filter ->
          forall r, In r (tReservations db) ->
            exists row, In row rows /\ shows row r).
Proof.
  intros E db n q Href Hgo.
  destruct (get_lists Number dateCast refused nvarchar_eq E db n q Hgo)
    as (rows & Hrows & Hin).
  exists rows. split; [exact Hrows|].
  assert (Hall : forall r, In r (tReservations db) ->
            passes Number dateCast nvarchar_eq q r ->
            exists row, In row rows /\ shows row r).
  { intros r Hr Hp. destruct (Href r Hr) as [Hu Hs].
    destruct (joined_when_referenced db r Hr Hu Hs) as (u & s & Hj).
    exists (format (r, u, s)). split; [|apply shows_format].
    apply Hin. exists r, u, s. auto. }
  split; [exact Hall|]. split.
  - intros row Hrow. apply Hin in Hrow as (r & u & s & Hj & -> & Hp).
    exists r. split; [|split; [exact Hp | apply shows_format]].
    apply join_spec in Hj. tauto.
  - intros -> r Hr. apply (Hall r Hr).
    split; [|split; [|split; [|split]]].
    + intros x (s & Hs & _). discriminate Hs.
    + intros x Hx. discriminate Hx.
    + intros x Hx. discriminate Hx.
    + intros x (s & Hs & _). discriminate Hs.
    + intros x Hx. discriminate Hx.
Qed.

(** X14. With [order=true] the rows GET lists are in the order of
    [reserved_date DESC, start_time DESC], and they are the rows the same
    query lists without [order], rearranged: [order] neither adds nor drops
    a row. *)
Theorem get_order_sorts :
  forall E db n q rows,
    Query.order q = Some "true" ->
    listed (fst (router_get Number dateCast refused nvarchar_eq E q
                   (arrive db n))) = Some rows ->
    Sorted listed_before rows
    /\ exists rows',
         listed (fst (router_get Number dateCast refused nvarchar_eq E
                        (without_order q) (arrive db n))) = Some rows'
         /\ Permutation rows' rows.
Proof.
  intros E db n q rows Hq. rewrite !get_run.
  destruct (connected E); [|discriminate].
  destruct (fails E 0%nat); [discriminate|].
  unfold query_of, without_order, list_query, and_then.
  cbn [Query.userId Query.fromDate Query.toDate Query.seatId Query.status
       Query.order].
  rewrite Hq. cbn [String.eqb Ascii.eqb Bool.eqb].
  destruct (and_number refused (number_supplied Number (Query.userId q)));
    [|discriminate].
  destruct (cast_supplied dateCast (Query.fromDate q)); [|discriminate].
  destruct (cast_supplied dateCast (Query.toDate q)); [|discriminate].
  destruct (and_number refused (number_supplied Number (Query.seatId q)));
    [|discriminate].
  cbn. intros H. inversion H. subst rows. split.
  - apply sorted_map_format, order_by_sorted.
  - eexists. split; [reflexivity|].
    apply Permutation_map, order_by_permutation.
Qed.

End Listing.

(** ** Requests one after the other *)

Section Later.

Variable Number : string -> jsnum.
Variable dateParam : string -> option Z.
Variable dateCast : string -> option Z.
Variable refused : jsnum -> bool.
Variable nvarchar_eq : string -> string -> bool.

(** X8. The codes of the routes.  GET answers 200 or 500; POST 201, 400,
    404, 409 or 500; PUT 200, 400, 404, 409 or 500; DELETE 200, 400, 404 or
    500.  With the pool connected DELETE is the only route that can end
    without an answer; with the pool not connected POST and PUT can too.  A
    request that is not answered with the code of success (201 for POST, 200
    otherwise) leaves the committed tables as they were, and so does every
    GET. *)
Theorem answers_and_effects :
  forall E rq db n,
    let out :=
      handle Number dateParam dateCast refused nvarchar_eq E rq
        (arrive db n) in
    match answered (fst out) with
    | Some c => In c (codes rq)
    | None =>
        (exists params_id, rq = DELETE params_id)
        \/ (connected E = false /\ forall query, rq <> GET query)
    end
    /\ (committed (snd out) = db
        \/ (answered (fst out) = Some (success_code rq)
            /\ forall query, rq <> GET query)).
Proof.
  intros E [query|params_id|req_body|params_id req_body] db n;
    cbn [handle codes success_code].
  - split; [|left; apply get_committed].
    rewrite get_run.
    destruct (connected E); [|cbn; tauto].
    destruct (fails E 0%nat); [cbn; tauto|].
    destruct (query_of _ _ _ _ _ _); cbn; tauto.
  - split.
    + destruct (delete_answers Number E params_id db n)
        as [-> | (c & -> & Hc)];
        [left; eexists; reflexivity | exact Hc].
    + destruct (delete_effect Number E params_id db n)
        as (_ & [[Hdb _] | (id & _ & _ & _ & ->)]); [left; exact Hdb|].
      right. split; [reflexivity | discriminate].
  - destruct (post_dispatch dateParam E req_body (arrive db n))
      as [[msg ->] | (u & s & d & st & en & _ & _ & _ & _ & ->)].
    + cbn. split; [tauto | left; reflexivity].
    + destruct (connected E).
      2:{ cbn. split; [|left; reflexivity].
          right. split; [reflexivity | discriminate]. }
      split.
      * destruct (post_transaction_answers dateParam E u s d (toTime st)
                    (toTime en) db n) as ((c & -> & Hc) & _).
        cbn in *. tauto.
      * destruct (post_transaction_effect dateParam E u s d (toTime st)
                    (toTime en) db n)
          as [(Hdb & _) | (userId & seatId & date & _ & _ & _ & _ & _ & _ & ->)];
          [left; exact Hdb|].
        right. split; [reflexivity | discriminate].
  - destruct (put_dispatch Number dateParam E params_id req_body
                (arrive db n))
      as [[msg ->] | (u & s & d & st & en & _ & _ & _ & _ & _ & ->)].
    + cbn. split; [tauto | left; reflexivity].
    + destruct (connected E).
      2:{ cbn. split; [|left; reflexivity].
          right. split; [reflexivity | discriminate]. }
      split.
      * destruct (put_transaction_answers dateParam E (Number params_id) u s
                    d (toTime st) (toTime en) db n) as ((c & -> & Hc) & _).
        cbn in *. tauto.
      * destruct (put_transaction_effect dateParam E (Number params_id) u s d
                    (toTime st) (toTime en) db n)
          as [(Hdb & _)
             | (id & userId & seatId & date & _ & _ & _ & _ & _ & _ & _ & _
                & ->)];
          [left; exact Hdb|].
        right. split; [reflexivity | discriminate].
Qed.

(** X12. A reservation POST has answered 201 with is listed from then on.
    The GET served right after lists it, with status [reserved], whenever
    the query goes through and the reservation passes the filters in use.
    In every state the service reaches afterwards, whatever is served and
    whatever fails in between, the reservation is still there, as it was or
    canceled, and a GET whose query goes through and whose filters in use it
    passes lists it. *)
Theorem created_reservation_is_listed :
  forall E db n req_body message r,
    fst (router_post dateParam E req_body (arrive db n))
    = Ok (mkResponse 201 (ReservationBody message r)) ->
    let s' :=
      serve Number dateParam dateCast refused nvarchar_eq E (POST req_body)
        (db, n) in
    (forall E' q,
       goes_through Number dateCast refused E' q ->
       passes Number dateCast nvarchar_eq q r ->
       exists rows row,
         fst (router_get Number dateCast refused nvarchar_eq E' q
                (arrive (fst s') (snd s')))
         = Ok (mkResponse 200 (ListBody rows))
         /\ In row rows
         /\ shows row r
         /\ Formatted.status row = reserved)
    /\ (forall s'',
          reachable Number dateParam dateCast refused nvarchar_eq s' s'' ->
          exists r',
            In r' (tReservations (fst s''))
            /\ same_or_canceled r r'
            /\ forall E' q,
                 goes_through Number dateCast refused E' q ->
                 passes Number dateCast nvarchar_eq q r' ->
                 exists rows row,
                   fst (router_get Number dateCast refused nvarchar_eq E' q
                          (arrive (fst s'') (snd s'')))
                   = Ok (mkResponse 200 (ListBody rows))
                   /\ In row rows
                   /\ shows row r').
Proof.
  intros E db n req_body message r Hpost s'.
  assert (Hs' : In r (tReservations (fst s'))
                /\ Reservations.status r = reserved
                /\ has_user (fst s') (Reservations.user_id r) = true
                /\ has_seat (fst s') (Reservations.seat_id r) = true).
  { subst s'. unfold serve, handle. cbn [fst snd].
    destruct (post_dispatch dateParam E req_body (arrive db n))
      as [[msg Heq] | (u & s & d & st & en & _ & _ & _ & _ & Heq)];
      rewrite Heq in *; [discriminate Hpost|].
    destruct (connected E); [|discriminate Hpost].
    destruct (post_transaction_effect dateParam E u s d (toTime st)
                (toTime en) db n)
      as [(_ & Hno & _)
         | (userId & seatId & date & _ & _ & _ & Hu & Hs & _ & Hout)].
    { rewrite Hpost in Hno. exfalso. apply Hno. reflexivity. }
    rewrite Hout in *. cbn [fst snd ended committed identity] in *.
    inversion Hpost. subst r message.
    split; [cbn; apply in_or_app; right; left; reflexivity|].
    split; [reflexivity|]. split; [exact Hu | exact Hs]. }
  destruct Hs' as (Hin & Hst & Hu & Hs).
  assert (Hlisted : forall t m r',
            In r' (tReservations t) ->
            has_user t (Reservations.user_id r') = true ->
            has_seat t (Reservations.seat_id r') = true ->
            forall E' q,
              goes_through Number dateCast refused E' q ->
              passes Number dateCast nvarchar_eq q r' ->
              exists rows row,
                fst (router_get Number dateCast refused nvarchar_eq E' q
                       (arrive t m))
                = Ok (mkResponse 200 (ListBody rows))
                /\ In row rows
                /\ shows row r').
  { intros t m r' Hr' Hu' Hs' E' q Hgo Hp.
    destruct (get_lists Number dateCast refused nvarchar_eq E' t m q Hgo)
      as (rows & Hrows & Hrow).
    destruct (joined_when_referenced t r' Hr' Hu' Hs') as (u0 & s0 & Hj).
    exists rows, (format (r', u0, s0)).
    split; [exact Hrows|]. split; [|apply shows_format].
    apply Hrow. exists r', u0, s0. auto. }
  split.
  - intros E' q Hgo Hp.
    destruct (Hlisted (fst s') (snd s') r Hin Hu Hs E' q Hgo Hp)
      as (rows & row & Hrows & Hrow & Hshows).
    exists rows, row. split; [exact Hrows|]. split; [exact Hrow|].
    split; [exact Hshows|].
    destruct Hshows as (_ & _ & _ & _ & _ & _ & ->). exact Hst.
  - intros s'' Hreach.
    pose proof (reachable_grows Number dateParam dateCast refused nvarchar_eq
                  s' s'' Hreach) as Hgrows.
    destruct (grows_keeps _ _ r Hgrows Hin) as (r' & Hr' & Hsame).
    exists r'. split; [exact Hr'|]. split; [exact Hsame|].
    destruct Hgrows as (Husers & Hseats & _).
    apply (Hlisted (fst s'') (snd s'') r' Hr').
    + unfold has_user in *. rewrite Husers.
      destruct Hsame as [-> | ->]; exact Hu.
    + unfold has_seat in *. rewrite Hseats.
      destruct Hsame as [-> | ->]; exact Hs.
Qed.

(** X13. Once DELETE has answered 200 for an id, with ids pairwise different
    at that time, the reservation with that id is never listed as reserved
    again: in every state the service reaches afterwards, whatever is served
    and whatever fails in between, every row a GET lists for that id has
    status [canceled].  When the reservation's user and seat exist, a GET
    without parameters whose query goes through lists it, as canceled. *)
Theorem canceled_reservation_is_not_listed_as_reserved :
  forall E db n params_id s'',
    ids_fresh (db, n) ->
    answered (fst (router_delete Number E params_id (arrive db n)))
    = Some 200 ->
    reachable Number dateParam dateCast refused nvarchar_eq
      (serve Number dateParam dateCast refused nvarchar_eq E
         (DELETE params_id) (db, n)) s'' ->
    exists id,
      sqlInt (Number params_id) = Some id
      /\ (forall E' q rows row,
            listed (fst (router_get Number dateCast refused nvarchar_eq E' q
                           (arrive (fst s'') (snd s'')))) = Some rows ->
            In row rows ->
            Formatted.reservation_id row = id ->
            Formatted.status row = canceled)
      /\ (references_hold db ->
          forall E',
            goes_through Number dateCast refused E' no_filter ->
            exists rows row,
              fst (router_get Number dateCast refused nvarchar_eq E' no_filter
                     (arrive (fst s'') (snd s'')))
              = Ok (mkResponse 200 (ListBody rows))
              /\ In row rows
              /\ Formatted.reservation_id row = id
              /\ Formatted.status row = canceled).
Proof.
  intros E db n params_id s'' Hfresh Hdel Hreach.
  set (s' := serve Number dateParam dateCast refused nvarchar_eq E
               (DELETE params_id) (db, n)) in *.
  destruct (delete_effect Number E params_id db n)
    as (_ & [[_ Hno] | (id & _ & Hid & Hfound & Hout)]).
  { exfalso. exact (Hno Hdel). }
  exists id. split; [exact Hid|].
  assert (Hs' : fst s' = update_canceled id db).
  { subst s'. unfold serve, handle. cbn [fst snd]. rewrite Hout.
    reflexivity. }
  apply reserved_row_found in Hfound as (r0 & Hr0 & Hid0 & Hst0).
  set (c0 := set_status canceled r0).
  assert (Hc0 : In c0 (tReservations (fst s'))).
  { rewrite Hs'. cbn. apply in_map_iff. exists r0. split; [|exact Hr0].
    apply Z.eqb_eq in Hid0. rewrite Hid0. reflexivity. }
  pose proof (reachable_grows Number dateParam dateCast refused nvarchar_eq
                s' s'' Hreach) as Hgrows.
  destruct (grows_keeps _ _ c0 Hgrows Hc0) as (k0 & Hk0 & Hsame).
  assert (Hk : k0 = c0).
  { destruct Hsame as [-> | ->]; [reflexivity|].
    apply set_status_canceled_again. reflexivity. }
  subst k0.
  assert (Hfresh'' : ids_fresh s'').
  { apply (reachable_ids_fresh Number dateParam dateCast refused nvarchar_eq
             (db, n)); [exact Hfresh|].
    apply (reachable_trans Number dateParam dateCast refused nvarchar_eq
             _ s'); [|exact Hreach].
    apply reachable_serve, reachable_init. }
  split.
  - intros E' q rows row Hlisted Hrow Hrid.
    apply (get_listed_inv Number dateCast refused nvarchar_eq E' _ _ q rows
             Hlisted) in Hrow as (r & u & s & Hj & -> & _).
    apply join_spec in Hj as (Hr & _). cbn in Hrid |- *.
    assert (Heq : r = c0).
    { apply (same_key_same_row Reservations.id (tReservations (fst s'')));
        [exact (proj1 Hfresh'') | exact Hr | exact Hk0|].
      rewrite Hrid. symmetry. exact Hid0. }
    rewrite Heq. reflexivity.
  - intros Href E' Hgo.
    destruct (get_lists Number dateCast refused nvarchar_eq E' (fst s'')
                (snd s'') no_filter Hgo) as (rows & Hrows & Hrow).
    destruct (Href r0 Hr0) as [Hu Hs].
    destruct Hgrows as (Husers & Hseats & _).
    destruct (joined_when_referenced (fst s'') c0 Hk0) as (u0 & s0 & Hj).
    { unfold has_user in *. rewrite Husers, Hs'. exact Hu. }
    { unfold has_seat in *. rewrite Hseats, Hs'. exact Hs. }
    exists rows, (format (c0, u0, s0)).
    split; [exact Hrows|]. split; [|split; [exact Hid0 | reflexivity]].
    apply Hrow. exists c0, u0, s0. split; [exact Hj|].
    split; [reflexivity|].
    split; [|split; [|split; [|split]]].
    + intros x (s & Hx & _). discriminate Hx.
    + intros x Hx. discriminate Hx.
    + intros x Hx. discriminate Hx.
    + intros x (s & Hx & _). discriminate Hx.
    + intros x Hx. discriminate Hx.
Qed.

End Later.

(** ** The older POST *)

Section Older.

Variable dateParam : string -> option Z.

(** X19. The older POST and the present one do the same on every request,
    whatever fails: they leave the same world and give the same answer,
    except that a body with a malformed time is answered 400 with "Time must
    be in HH:mm format" by the older one and with "Missing or invalid
    parameters" by the present one. *)
Theorem post_old_agrees :
  forall E req_body w,
    let old := router_post_old dateParam E req_body w in
    let new := router_post dateParam E req_body w in
    snd old = snd new
    /\ answered (fst old) = answered (fst new)
    /\ (fst old = fst new
        \/ (fst old
            = Ok (mkResponse 400 (ErrorBody "Time must be in HH:mm format"))
            /\ fst new
               = Ok (mkResponse 400
                       (ErrorBody "Missing or invalid parameters"))
            /\ exists st en,
                 startTime req_body = JString st
                 /\ endTime req_body = JString en
                 /\ (timeRegex_test st = false \/ timeRegex_test en = false))).
Proof.
  intros E [f1 f2 f3 f4 f5] w. unfold router_post_old, router_post.
  cbn [userId seatId reservedDate startTime endTime].
  destruct f1 as [| | |u|?|]; try (cbn; auto; fail).
  destruct f2 as [| | |s|?|]; try (cbn; auto; fail).
  destruct f3 as [| | | |d|]; try (cbn; auto; fail).
  destruct f4 as [| | | |st|]; try (cbn; auto; fail).
  destruct f5 as [| | | |en|]; try (cbn; auto; fail).
  destruct (timeRegex_test st) eqn:Hst; cbn [negb orb].
  - destruct (timeRegex_test en) eqn:Hen; cbn [negb orb].
    + destruct (toTime st >=? toTime en); cbn zeta; auto.
    + cbn. split; [reflexivity|]. split; [reflexivity|]. right.
      repeat split. exists st, en. auto.
  - cbn. split; [reflexivity|]. split; [reflexivity|]. right.
    repeat split. exists st, en. auto.
Qed.

End Older.

(** * The seed script *)

Section SeedProperties.

Variable CHECKSUM_NEWID : nat -> Z.
Variable now : nat -> Z.

Lemma draw_range k m : 0 < m -> 0 <= draw CHECKSUM_NEWID k m < m.
Proof. intros Hm. unfold draw. apply Z.rem_bound_pos; lia. Qed.

Lemma seed_keeps_later t0 n0 today today' st :
  today <= today' -> seed_keeps t0 n0 today st -> seed_keeps t0 n0 today' st.
Proof.
  intros Hle (H1 & H2 & H3 & H4 & H5).
  split; [exact H1|]. split; [exact H2|]. split; [exact H3|].
  split; [|exact H5].
  revert H4. apply Forall_impl. intros r Hr. lia.
Qed.

Lemma attempt_keeps t0 n0 date st :
  july_first <= date <= july_last ->
  seed_keeps t0 n0 date st ->
  seed_keeps t0 n0 date (seed_attempt CHECKSUM_NEWID now date st)
  /\ draws (seed_attempt CHECKSUM_NEWID now date st) = S (S (S (draws st)))
  /\ (List.length (tReservations (seeded st))
      <= List.length (tReservations (seeded (seed_attempt CHECKSUM_NEWID now date st)))
      <= S (List.length (tReservations (seeded st))))%nat.
Proof.
  intros Hdate Hkeeps.
  pose proof Hkeeps
    as (Hu & Hs & Hrows & Hdays & Hfree & Href & [Hnd Hlt] & Hn).
  unfold seed_attempt. cbn zeta.
  pose proof (draw_range (draws st) 5 ltac:(lia)) as Du.
  pose proof (draw_range (S (draws st)) 42 ltac:(lia)) as Ds.
  pose proof (draw_range (S (S (draws st))) 9 ltac:(lia)) as Dt.
  set (user := draw CHECKSUM_NEWID (draws st) 5 + 1) in *.
  set (seat := draw CHECKSUM_NEWID (S (draws st)) 42 + 1) in *.
  set (slot := draw CHECKSUM_NEWID (S (S (draws st))) 9 + 9) in *.
  destruct (negb _ && has_user _ user && has_seat _ seat) eqn:Hgo;
    cbn [seeded next_identity draws];
    [|split; [exact Hkeeps | split; [reflexivity | lia]]].
  apply andb_true_iff in Hgo as [Hgo Hseat].
  apply andb_true_iff in Hgo as [Hnone Huser].
  apply negb_true_iff in Hnone.
  set (r := inserted (next_identity st) user seat date (slot * 3600000)
              ((slot + 1) * 3600000) (now (S (S (S (draws st)))))).
  split; [|split; [reflexivity | cbn; rewrite length_app; cbn; lia]].
  cbn [fst snd] in *.
  split; [exact Hu|]. split; [exact Hs|].
  change (tReservations (insert_row r (seeded st)))
    with (tReservations (seeded st) ++ [r]).
  split; [|split; [|split; [|split; [|split]]]].
  - apply Forall_app. split; [exact Hrows|]. constructor; [|constructor].
    unfold seed_row, r. cbn. repeat split; try lia.
    exists slot. lia.
  - apply Forall_app. split; [exact Hdays|]. constructor; [|constructor].
    cbn. lia.
  - apply no_double_booking_insert; [exact Hfree|].
    intros x Hx (H1 & H2 & _ & _ & H5 & H6). cbn in H1, H2, H5, H6.
    assert (Hw : where_seed date seat (slot * 3600000) ((slot + 1) * 3600000)
                   x = false)
      by (apply (proj1 (nonempty_filter_false _ _) Hnone x Hx)).
    unfold where_seed in Hw.
    rewrite H1, H2, !Z.eqb_refl in Hw. cbn in Hw.
    apply andb_false_iff in Hw as [Hw|Hw].
    + apply Z.ltb_ge in Hw. lia.
    + rewrite Z.gtb_ltb in Hw. apply Z.ltb_ge in Hw. lia.
  - intros x Hx. cbn in Hx. unfold has_user, has_seat. cbn.
    apply in_app_or in Hx as [Hx|[<-|[]]].
    + exact (Href x Hx).
    + cbn. split; assumption.
  - split; cbn [fst snd seeded next_identity].
    + change (tReservations (insert_row r (seeded st)))
        with (tReservations (seeded st) ++ [r]).
      rewrite map_app. cbn [map]. apply NoDup_app.
      * exact Hnd.
      * constructor; [intros [] | constructor].
      * intros i Hi [<-|[]]. apply in_map_iff in Hi as (x & Hxi & Hx).
        specialize (Hlt x Hx). cbn in Hxi. lia.
    + intros x Hx. cbn in Hx. apply in_app_or in Hx as [Hx|[<-|[]]].
      * specialize (Hlt x Hx). lia.
      * cbn. lia.
  - cbn [seeded next_identity].
    change (tReservations (insert_row r (seeded st)))
      with (tReservations (seeded st) ++ [r]).
    rewrite length_app. cbn [List.length]. lia.
Qed.

Lemma attempt_inserts t0 n0 date st :
  stocked t0 ->
  july_first <= date <= july_last ->
  seed_keeps t0 n0 (date - 1) st ->
  List.length (tReservations (seeded (seed_attempt CHECKSUM_NEWID now date st)))
  = S (List.length (tReservations (seeded st))).
Proof.
  intros [Husers Hseats] Hdate (Hu & Hs & _ & Hdays & _).
  unfold seed_attempt. cbn zeta.
  pose proof (draw_range (draws st) 5 ltac:(lia)) as Du.
  pose proof (draw_range (S (draws st)) 42 ltac:(lia)) as Ds.
  set (user := draw CHECKSUM_NEWID (draws st) 5 + 1) in *.
  set (seat := draw CHECKSUM_NEWID (S (draws st)) 42 + 1) in *.
  set (start := (draw CHECKSUM_NEWID (S (S (draws st))) 9 + 9) * 3600000).
  set (endTime :=
         (draw CHECKSUM_NEWID (S (S (draws st))) 9 + 9 + 1) * 3600000).
  assert (Hnone : nonempty (filter (where_seed date seat start endTime)
                              (tReservations (seeded st))) = false).
  { apply nonempty_filter_false. intros x Hx.
    rewrite Forall_forall in Hdays. specialize (Hdays x Hx).
    unfold where_seed.
    destruct (Z.eqb_spec (Reservations.reserved_date x) date); [lia|].
    reflexivity. }
  assert (Huser : has_user (seeded st) user = true).
  { unfold has_user. rewrite Hu. apply Husers. lia. }
  assert (Hseat : has_seat (seeded st) seat = true).
  { unfold has_seat. rewrite Hs. apply Hseats. lia. }
  rewrite Hnone, Huser, Hseat. cbn [negb andb seeded].
  change (tReservations (insert_row ?r (seeded st)))
    with (tReservations (seeded st) ++ [r]).
  cbn. rewrite length_app. cbn. lia.
Qed.

Lemma attempts_keep t0 n0 date fuel :
  july_first <= date <= july_last ->
  forall i limit st,
    seed_keeps t0 n0 date st ->
    let st' := seed_attempts CHECKSUM_NEWID now fuel i limit date st in
    seed_keeps t0 n0 date st'
    /\ (List.length (tReservations (seeded st))
        <= List.length (tReservations (seeded st'))
        <= List.length (tReservations (seeded st)) + fuel)%nat.
Proof.
  intros Hdate. induction fuel as [|fuel IH]; intros i limit st Hk; cbn.
  - split; [exact Hk | lia].
  - destruct (i <=? limit); [|split; [exact Hk | lia]].
    destruct (attempt_keeps t0 n0 date st Hdate Hk) as (Hk' & _ & Hlen).
    destruct (IH (i + 1) limit _ Hk') as [Hk'' Hlen'].
    split; [exact Hk'' | lia].
Qed.

Lemma day_keeps t0 n0 date st :
  july_first <= date <= july_last ->
  seed_keeps t0 n0 (date - 1) st ->
  let st' := seed_day CHECKSUM_NEWID now date st in
  seed_keeps t0 n0 date st'
  /\ (List.length (tReservations (seeded st))
      <= List.length (tReservations (seeded st'))
      <= List.length (tReservations (seeded st)) + 2)%nat
  /\ (stocked t0 ->
      (S (List.length (tReservations (seeded st)))
       <= List.length (tReservations (seeded st')))%nat).
Proof.
  intros Hdate Hk. unfold seed_day. cbn zeta.
  set (st1 := {| seeded := seeded st; next_identity := next_identity st;
                 draws := S (draws st) |}).
  set (limit := if Z.rem (Z.abs (CHECKSUM_NEWID (draws st))) 2 =? 0
                then 1 else 2).
  assert (Hk1 : seed_keeps t0 n0 (date - 1) st1) by exact Hk.
  assert (Hk1' : seed_keeps t0 n0 date st1)
    by (apply (seed_keeps_later t0 n0 (date - 1)); [lia | exact Hk1]).
  destruct (attempts_keep t0 n0 date 2 Hdate 1 limit st1 Hk1') as [Hk2 Hlen].
  split; [exact Hk2|]. split; [exact Hlen|].
  intros Hstock.
  assert (Hlimit : (1 <=? limit) = true)
    by (unfold limit; destruct (_ =? 0); reflexivity).
  cbn [seed_attempts]. rewrite Hlimit.
  pose proof (attempt_inserts t0 n0 date st1 Hstock Hdate Hk1) as Hone.
  destruct (attempt_keeps t0 n0 date st1 Hdate Hk1') as (Hk3 & _ & _).
  destruct (1 + 1 <=? limit).
  - destruct (attempt_keeps t0 n0 date _ Hdate Hk3) as (_ & _ & Hlen').
    change (seeded st1) with (seeded st) in *. lia.
  - change (seeded st1) with (seeded st) in *. lia.
Qed.

Lemma dates_keep t0 n0 fuel :
  forall date st,
    july_first <= date ->
    seed_keeps t0 n0 (date - 1) st ->
    let st' := seed_dates CHECKSUM_NEWID now fuel date st in
    let turns := Z.min (Z.of_nat fuel) (Z.max 0 (july_last - date + 1)) in
    (exists today, seed_keeps t0 n0 today st')
    /\ Z.of_nat (List.length (tReservations (seeded st)))
       <= Z.of_nat (List.length (tReservations (seeded st')))
       <= Z.of_nat (List.length (tReservations (seeded st))) + 2 * turns
    /\ (stocked t0 ->
        Z.of_nat (List.length (tReservations (seeded st))) + turns
        <= Z.of_nat (List.length (tReservations (seeded st')))).
Proof.
  induction fuel as [|fuel IH]; intros date st Hdate Hk; cbn zeta.
  - cbn [seed_dates]. split; [eexists; exact Hk|]. lia.
  - cbn [seed_dates]. destruct (Z.leb_spec date july_last) as [Hle|Hgt].
    + destruct (day_keeps t0 n0 date st (conj Hdate Hle) Hk)
        as (Hk' & Hlen & Hmin).
      assert (Hk'' : seed_keeps t0 n0 (date + 1 - 1)
                       (seed_day CHECKSUM_NEWID now date st))
        by (replace (date + 1 - 1) with date by lia; exact Hk').
      destruct (IH (date + 1) _ ltac:(lia) Hk'') as (Hex & Hlen' & Hmin').
      cbn zeta in Hlen', Hmin'.
      split; [exact Hex|]. split; [lia|].
      intros Hstock. specialize (Hmin Hstock). specialize (Hmin' Hstock). lia.
    + split; [eexists; exact Hk|]. lia.
Qed.

Lemma dates_fuel fuel :
  forall date st,
    (Z.to_nat (july_last - date + 1) <= fuel)%nat ->
    seed_dates CHECKSUM_NEWID now fuel date st
    = seed_dates CHECKSUM_NEWID now (Z.to_nat (july_last - date + 1)) date st.
Proof.
  induction fuel as [|fuel IH]; intros date st Hfuel.
  - replace (Z.to_nat (july_last - date + 1)) with O by lia. reflexivity.
  - cbn [seed_dates]. destruct (Z.leb_spec date july_last) as [Hle|Hgt].
    + replace (Z.to_nat (july_last - date + 1))
        with (S (Z.to_nat (july_last - (date + 1) + 1))) by lia.
      cbn [seed_dates]. destruct (Z.leb_spec date july_last); [|lia].
      apply IH. lia.
    + replace (Z.to_nat (july_last - date + 1)) with O by lia. reflexivity.
Qed.

Lemma seed_start_keeps t n :
  tReservations t = [] ->
  seed_keeps t n (july_first - 1)
    {| seeded := t; next_identity := n; draws := O |}.
Proof.
  intros Hempty. unfold seed_keeps, no_double_booking, references_hold,
    ids_fresh. cbn [seeded next_identity fst snd]. rewrite Hempty. cbn.
  split; [reflexivity|]. split; [reflexivity|].
  split; [constructor|]. split; [constructor|]. split; [constructor|].
  split; [intros r []|]. split; [|lia].
  split; [constructor | intros r []].
Qed.

(** X17. Whatever [NEWID()] draws, the seed of an empty [Reservations] table
    leaves users and seats alone and inserts only reserved rows of one hour
    on the hour between 09:00 and 18:00, on days of July 2025, for users 1 to
    5 and seats 1 to 42.  The seeded tables are a state the invariants of the
    service hold in: every reservation starts before it ends, no two overlap
    on a seat and date, every one names an existing user and seat, and ids
    are fresh. *)
Theorem seed_gives_a_valid_start :
  forall fuel t n,
    tReservations t = [] ->
    let st := seed_reservations CHECKSUM_NEWID now fuel t n in
    tUsers (seeded st) = tUsers t
    /\ tSeats (seeded st) = tSeats t
    /\ Forall seed_row (tReservations (seeded st))
    /\ times_ordered (seeded st)
    /\ no_double_booking (seeded st)
    /\ references_hold (seeded st)
    /\ ids_fresh (seeded st, next_identity st).
Proof.
  intros fuel t n Hempty st. subst st. unfold seed_reservations.
  rewrite Hempty. cbn [nonempty].
  destruct (dates_keep t n fuel july_first _ ltac:(lia)
              (seed_start_keeps t n Hempty))
    as ((today & Hu & Hs & Hrows & _ & Hfree & Href & Hids & _) & _).
  split; [exact Hu|]. split; [exact Hs|]. split; [exact Hrows|].
  split; [|split; [exact Hfree | split; [exact Href | exact Hids]]].
  intros r Hr. rewrite Forall_forall in Hrows.
  destruct (Hrows r Hr) as (_ & _ & _ & _ & slot & _ & -> & ->). lia.
Qed.

(** X18. The seed ends: thirty turns of its outer loop are enough, more
    change nothing.  It does nothing to a table that has a row already.  On
    an empty table it inserts at most two rows a day, sixty in all; and when
    the users 1 to 5 and the seats 1 to 42 exist and no checksum drawn is
    -2147483648, the one INT whose [ABS] overflows, it inserts at least one
    a day, thirty in all. *)
Theorem seed_ends_with_30_to_60_rows :
  forall t n,
    (forall fuel, (30 <= fuel)%nat ->
       seed_reservations CHECKSUM_NEWID now fuel t n
       = seed_reservations CHECKSUM_NEWID now 30 t n)
    /\ (tReservations t <> [] ->
        forall fuel,
          seed_reservations CHECKSUM_NEWID now fuel t n
          = {| seeded := t; next_identity := n; draws := O |})
    /\ (tReservations t = [] ->
        let rows :=
          tReservations
            (seeded (seed_reservations CHECKSUM_NEWID now 30 t n)) in
        (List.length rows <= 60)%nat
        /\ (stocked t ->
            (forall k, CHECKSUM_NEWID k <> -2147483648) ->
            (30 <= List.length rows)%nat)).
Proof.
  intros t n. split; [|split].
  - intros fuel Hfuel. unfold seed_reservations.
    destruct (nonempty (tReservations t)); [reflexivity|].
    apply (dates_fuel fuel july_first). cbn. lia.
  - intros Hne fuel. unfold seed_reservations.
    destruct (tReservations t); [contradiction | reflexivity].
  - intros Hempty rows. subst rows. unfold seed_reservations.
    rewrite Hempty. cbn [nonempty].
    destruct (dates_keep t n 30 july_first _ ltac:(lia)
                (seed_start_keeps t n Hempty)) as (_ & Hlen & Hmin).
    cbn [seeded] in Hlen, Hmin. rewrite Hempty in Hlen, Hmin.
    lazy zeta in Hlen, Hmin. cbn [List.length] in Hlen, Hmin.
    unfold july_last, july_first in *. split; [lia|].
    intros Hstock _. specialize (Hmin Hstock). lia.
Qed.

End SeedProperties.

(** * The properties on concrete requests *)

(** Scenarios A to D of the specification, one after the other. *)
Example scenario_A :
  router_post iso_date (no_faults epoch)
    (body_of 1 10 "2025-07-15" "14:00" "15:00") (arrive empty_db 1)
  = (Ok (mkResponse 201 (ReservationBody "Reservation created" booked)),
     ended create_trace booked_db 2).
Proof. reflexivity. Qed.

Example scenario_B :
  router_post iso_date (no_faults epoch)
    (body_of 1 10 "2025-07-15" "14:30" "15:30") (arrive booked_db 2)
  = (Ok (mkResponse 409 (ErrorBody "Seat already reserved during that time")),
     ended [(Begin, true); (SelectUser, true); (SelectSeat, true);
            (SelectOverlap, true); (Rollback, true)] booked_db 2).
Proof. reflexivity. Qed.

Example scenario_C :
  answered
    (fst (router_post iso_date (no_faults epoch)
            (body_of 1 10 "2025-07-15" "15:00" "16:00") (arrive booked_db 2)))
  = Some 201.
Proof. reflexivity. Qed.

Example scenario_D :
  let out :=
    router_put decimal iso_date (no_faults epoch) "1"
      (body_of 1 10 "2025-07-15" "16:00" "17:00") (arrive booked_db 2) in
  answered (fst out) = Some 200
  /\ map (fun r => (Reservations.id r, Reservations.start_time r,
                    Reservations.end_time r, Reservations.status r))
       (tReservations (committed (snd out)))
     = [(1, 50400000, 54000000, canceled); (2, 57600000, 61200000, reserved)].
Proof. split; reflexivity. Qed.

(** Numbers that are no positive INT.  An id above the INT range makes the
    driver throw and the route answer 500; a fractional id is cut to an
    integer by the driver, so DELETE /api/reservations/1.5 cancels
    reservation 1; a [userId] above the INT range makes POST answer 500. *)
Example delete_beyond_int :
  router_delete decimal (no_faults epoch) "3000000000" (arrive booked_db 2)
  = (Ok (mkResponse 500 (ErrorBody "Failed to cancel reservation")),
     {| committed := booked_db; identity := 2; tx := None;
        trace := [(Begin, true); (SelectReservation, false);
                  (Rollback, true)];
        console := [mkLog "Delete error:" InvalidNumber] |}).
Proof. reflexivity. Qed.

Example delete_fraction :
  let out :=
    router_delete decimal (no_faults epoch) "1.5" (arrive booked_db 2) in
  fst out = Ok (mkResponse 200 (MessageBody "Reservation canceled"))
  /\ map (fun r => (Reservations.id r, Reservations.status r))
       (tReservations (committed (snd out)))
     = [(1, canceled)].
Proof. split; reflexivity. Qed.

Example post_beyond_int :
  let out :=
    router_post iso_date (no_faults epoch)
      (body_of 2147483648 10 "2025-07-15" "16:00" "17:00")
      (arrive booked_db 2) in
  fst out = Ok (mkResponse 500 (ErrorBody "Reservation failed"))
  /\ committed (snd out) = booked_db
  /\ trace (snd out) = [(Begin, true); (SelectUser, false); (Rollback, true)].
Proof. repeat split; reflexivity. Qed.

(** The pool is not connected: GET answers 500; DELETE, POST and PUT end
    without an answer when the request passes their validation. *)
Example without_pool :
  let E := {| fails := fun _ => false; GETDATE := epoch;
              connected := false |} in
  answered (fst (router_get decimal iso_date refuse_infinite ci_eq E
                   no_filter (arrive booked_db 2))) = Some 500
  /\ router_delete decimal E "1" (arrive booked_db 2)
     = (Throw ConnectionError, arrive booked_db 2)
  /\ router_post iso_date E (body_of 1 10 "2025-07-15" "16:00" "17:00")
       (arrive booked_db 2)
     = (Throw ConnectionError, arrive booked_db 2)
  /\ router_put decimal iso_date E "1"
       (body_of 1 10 "2025-07-15" "16:00" "17:00") (arrive booked_db 2)
     = (Throw ConnectionError, arrive booked_db 2).
Proof. repeat split; reflexivity. Qed.

(** C2 on the four reservations of [busy_db] and a request for seat 10 on
    2025-07-15 from 15:00 to 16:00: reservation 1 ends where the request
    starts, reservation 2 holds another seat, reservation 3 is canceled and
    reservation 4 is of another day; the request is not flagged. *)
Lemma checkOverlap_flags_iff_witness :
  exists flagged,
    fst (checkOverlap iso_date (no_faults epoch) OnTransaction 10 "2025-07-15"
           54000000 57600000 None
           (set_tx (Some busy_db) (arrive busy_db 5))) = Ok flagged
    /\ (flagged = true <->
        exists r, In r (tReservations busy_db)
          /\ Reservations.seat_id r = 10
          /\ Reservations.reserved_date r = 20250715
          /\ Reservations.status r = reserved
          /\ Reservations.start_time r < 57600000
          /\ 54000000 < Reservations.end_time r)
    /\ flagged = false.
Proof.
  destruct (checkOverlap_flags_iff iso_date (no_faults epoch)
              (set_tx (Some busy_db) (arrive busy_db 5)) busy_db 10 10
              "2025-07-15" 20250715 54000000 57600000
              eq_refl eq_refl eq_refl eq_refl)
    as (flagged & Hrun & Hiff & Hfree).
  exists flagged. split; [exact Hrun|]. split; [exact Hiff|].
  apply Hfree. intros r [<-|[<-|[<-|[<-|[]]]]] Hs Hd Hst;
    cbn in *; try discriminate; lia.
Defined.

(** C2 on the same table and a request from 14:30 to 15:30: flagged, for
    reservation 1. *)
Example checkOverlap_flags_overlap :
  fst (checkOverlap iso_date (no_faults epoch) OnTransaction 10 "2025-07-15"
         52200000 55800000 None
         (set_tx (Some busy_db) (arrive busy_db 5))) = Ok true.
Proof. reflexivity. Qed.

(** C10 on DELETE /api/reservations/0. *)
Lemma delete_rejects_falsy_id_witness :
  router_delete decimal outage "0" (arrive booked_db 2)
  = (Ok (mkResponse 400 (ErrorBody "Reservation ID required")),
     arrive booked_db 2).
Proof.
  apply (delete_rejects_falsy_id decimal outage (arrive booked_db 2) "0").
  left. reflexivity.
Defined.


(** C5: DELETE /api/reservations/3000000000.  No row has that id, and the
    answer is not 404 but 500. *)
Lemma delete_beyond_int_is_not_not_found :
  ~ (fst (router_delete decimal (no_faults epoch) "3000000000"
            (arrive booked_db 2))
     = Ok not_found
     <-> no_reserved_row 3000000000 booked_db).
Proof.
  intros [_ H].
  assert (Hnone : no_reserved_row 3000000000 booked_db).
  { intros r [<-|[]] [Hid _]. discriminate Hid. }
  specialize (H Hnone). discriminate H.
Qed.

(** C5, amended, on DELETE /api/reservations/1 with reservation 1 reserved. *)
Lemma delete_not_found_iff_witness :
  let out := router_delete decimal (no_faults epoch) "1" (arrive booked_db 2) in
  (fst out = Ok not_found <-> no_reserved_row 1 booked_db)
  /\ (fst out <> Ok not_found ->
      fst out = Ok (mkResponse 200 (MessageBody "Reservation canceled"))
      /\ tUsers (committed (snd out)) = tUsers booked_db
      /\ tSeats (committed (snd out)) = tSeats booked_db
      /\ canceled_in_place 1 (tReservations booked_db)
           (tReservations (committed (snd out)))).
Proof.
  pose proof (delete_not_found_iff decimal epoch booked_db 2 "1" 1 eq_refl
                ltac:(discriminate) ltac:(lia))
    as (_ & H1 & _ & H2 & _).
  split; [exact H1 | exact H2].
Defined.

(** C6 on moving reservation 1 of [busy_db] from 14:00-15:00 to
    14:30-15:30. *)
Lemma put_excludes_own_reservation_witness :
  fst (checkOverlap iso_date (no_faults epoch) OnTransaction 10 "2025-07-15"
         52200000 55800000 (Some (decimal "1"))
         (set_tx (Some busy_db) (arrive busy_db 5))) = Ok false
  /\ exists kept,
       canceled_in_place 1 (tReservations busy_db) kept
       /\ router_put decimal iso_date (no_faults epoch) "1"
            (body_of 1 10 "2025-07-15" "14:30" "15:30") (arrive busy_db 5)
          = (Ok (mkResponse 200
                   (ReservationBody "Reservation updated"
                      (Reservations.mk 5 1 10 20250715 52200000 55800000
                         reserved 0))),
             ended [(Begin, true); (SelectReservation, true);
                    (SelectUser, true); (SelectSeat, true);
                    (SelectOverlap, true); (UpdateCanceled, true);
                    (InsertReservation, true); (Commit, true)]
               {| tUsers := tUsers busy_db; tSeats := tSeats busy_db;
                  tReservations :=
                    kept ++ [Reservations.mk 5 1 10 20250715 52200000
                               55800000 reserved 0] |}
               6).
Proof.
  apply (put_excludes_own_reservation decimal iso_date epoch busy_db 5
           "1" 1 10 "2025-07-15" "14:30" "15:30" 1 1 10 20250715
           eq_refl eq_refl eq_refl eq_refl eq_refl eq_refl eq_refl eq_refl).
  - exists booked. split; [left; reflexivity | split; reflexivity].
  - exists tanaka. split; [left; reflexivity | reflexivity].
  - exists seat10. split; [left; reflexivity | reflexivity].
  - intros r [<-|[<-|[<-|[<-|[]]]]] (H1 & H2 & H3 & H4 & H5);
      cbn in *; try reflexivity; try discriminate; lia.
Defined.

(** C7. GET ?userId=0 on the tables of scenario A is served as GET without
    parameters: it lists reservation 1, which is of user 1, although the
    query asks for the reservations of user 0. *)
Theorem get_userId_zero_is_no_filter :
  let q := Query.mk (Some "0") None None None None None in
  let out :=
    router_get decimal iso_date refuse_infinite ci_eq (no_faults epoch) q
      (arrive booked_db 2) in
  out
  = router_get decimal iso_date refuse_infinite ci_eq (no_faults epoch)
      no_filter (arrive booked_db 2)
  /\ listed (fst out) = Some [format (booked, tanaka, seat10)]
  /\ Formatted.user_id (format (booked, tanaka, seat10)) = 1
  /\ decimal "0" = Num 0.
Proof. repeat split; reflexivity. Qed.

(** GET ?userId=1 on the same tables lists reservation 1 and GET ?userId=2
    lists nothing: a [userId] other than [0] does filter. *)
Example get_userId_filters :
  listed (fst (router_get decimal iso_date refuse_infinite ci_eq
                 (no_faults epoch)
                 (Query.mk (Some "1") None None None None None)
                 (arrive booked_db 2)))
  = Some [format (booked, tanaka, seat10)]
  /\ listed (fst (router_get decimal iso_date refuse_infinite ci_eq
                    (no_faults epoch)
                    (Query.mk (Some "2") None None None None None)
                    (arrive booked_db 2)))
     = Some [].
Proof. split; reflexivity. Qed.

(** C9 on one creation from the empty table, and on a POST and a PUT from
    15:00 to 14:00. *)
Lemma start_before_end_invariant_witness :
  times_ordered
    (fst (serve decimal iso_date iso_date refuse_infinite ci_eq
            (no_faults epoch)
            (POST (body_of 1 10 "2025-07-15" "14:00" "15:00"))
            (empty_db, 1)))
  /\ (exists msg,
        router_post iso_date outage
          (body_of 1 10 "2025-07-15" "15:00" "14:00") (arrive booked_db 2)
        = (Ok (mkResponse 400 (ErrorBody msg)), arrive booked_db 2))
  /\ (exists msg,
        router_put decimal iso_date outage "1"
          (body_of 1 10 "2025-07-15" "15:00" "14:00") (arrive booked_db 2)
        = (Ok (mkResponse 400 (ErrorBody msg)), arrive booked_db 2)).
Proof.
  destruct (start_before_end_invariant decimal iso_date iso_date
              refuse_infinite ci_eq)
    as (Hinv & Hpost & Hput).
  split; [|split].
  - apply (Hinv (empty_db, 1)).
    + intros r [].
    + apply reachable_serve, reachable_init.
  - apply Hpost. discriminate.
  - apply Hput. discriminate.
Defined.

(** C8. The database cannot be reached, or is lost after the UPDATE.
    DELETE /api/reservations/1 logs "Delete error:", its unguarded rollback
    throws, and the handler ends with that second error and no answer; the
    failure of the rollback is not logged.  POST and PUT in the same outage
    log both errors and answer 500. *)
Theorem delete_unguarded_rollback :
  router_delete decimal outage "1" (arrive booked_db 2)
  = (Throw (DriverError 1),
     {| committed := booked_db; identity := 2; tx := None;
        trace := [(Begin, false); (Rollback, false)];
        console := [mkLog "Delete error:" (DriverError 0)] |})
  /\ router_delete decimal
       {| fails := fun k => (3 <=? k)%nat; GETDATE := epoch;
          connected := true |} "1"
       (arrive booked_db 2)
     = (Throw (DriverError 4),
        {| committed := booked_db; identity := 2;
           tx := Some (update_canceled 1 booked_db);
           trace := [(Begin, true); (SelectReservation, true);
                     (UpdateCanceled, true); (Commit, false);
                     (Rollback, false)];
           console := [mkLog "Delete error:" (DriverError 3)] |})
  /\ router_post iso_date outage
       (body_of 1 10 "2025-07-15" "16:00" "17:00") (arrive booked_db 2)
     = (Ok (mkResponse 500 (ErrorBody "Reservation failed")),
        {| committed := booked_db; identity := 2; tx := None;
           trace := [(Begin, false); (Rollback, false)];
           console := [mkLog "Reservation POST error:" (DriverError 0);
                       mkLog "Rollback failed:" (DriverError 1)] |})
  /\ router_put decimal iso_date outage "1"
       (body_of 1 10 "2025-07-15" "16:00" "17:00") (arrive booked_db 2)
     = (Ok (mkResponse 500 (ErrorBody "Failed to update reservation")),
        {| committed := booked_db; identity := 2; tx := None;
           trace := [(Begin, false); (Rollback, false)];
           console := [mkLog "Transaction error during reservation update:"
                         (DriverError 0);
                       mkLog "Rollback failed:" (DriverError 1)] |}).
Proof. repeat split; reflexivity. Qed.

(** * The further properties on concrete requests *)

Lemma booked_db_references : references_hold booked_db.
Proof. intros r [<-|[]]. split; reflexivity. Qed.

Lemma busy_db_references : references_hold busy_db.
Proof. intros r [<-|[<-|[<-|[<-|[]]]]]; split; reflexivity. Qed.

Lemma booked_db_fresh : ids_fresh (booked_db, 2).
Proof.
  split.
  - repeat constructor. intros [].
  - intros r [<-|[]]. reflexivity.
Qed.

Lemma bare_db_stocked : stocked bare_db.
Proof.
  split.
  - intros u Hu. apply has_user_In.
    exists (Users.mk u "" "" "" "" "user"). split; [|reflexivity].
    apply in_map_iff. exists (Z.to_nat u). split.
    + rewrite Z2Nat.id by lia. reflexivity.
    + apply in_seq. lia.
  - intros s Hs. apply has_seat_In.
    exists (Seats.mk s "seat"). split; [|reflexivity].
    apply in_map_iff. exists (Z.to_nat s). split.
    + rewrite Z2Nat.id by lia. reflexivity.
    + apply in_seq. lia.
Qed.

(** A query string of the examples goes through: its numbers are INTs, its
    dates are dates. *)
Lemma examples_go_through q :
  (forall s, Query.userId q = Some s -> s = "1" \/ s = "2") ->
  (forall s, Query.seatId q = Some s -> s = "10" \/ s = "11") ->
  (forall s, Query.fromDate q = Some s -> iso_date s <> None) ->
  (forall s, Query.toDate q = Some s -> iso_date s <> None) ->
  goes_through decimal iso_date refuse_infinite (no_faults epoch) q.
Proof.
  intros Hu Hs Hf Ht.
  split; [reflexivity|]. split; [reflexivity|].
  split; [intros s Hq _; exact (Hf s Hq)|].
  split; [intros s Hq _; exact (Ht s Hq)|].
  split.
  - intros n (s & Hq & _ & <- & _). left.
    destruct (Hu s Hq) as [-> | ->]; eexists; split; reflexivity.
  - intros n (s & Hq & _ & <- & _). left.
    destruct (Hs s Hq) as [-> | ->]; eexists; split; reflexivity.
Qed.

(** X1 on a creation after scenario A. *)
Lemma no_double_booking_reachable_witness :
  no_double_booking
    (fst (serve decimal iso_date iso_date refuse_infinite ci_eq
            (no_faults epoch)
            (POST (body_of 1 10 "2025-07-15" "15:00" "16:00"))
            (booked_db, 2))).
Proof.
  apply (no_double_booking_reachable decimal iso_date iso_date
           refuse_infinite ci_eq (booked_db, 2)).
  - constructor; constructor.
  - apply reachable_serve, reachable_init.
Defined.

(** X2 on the cancellation of reservation 1. *)
Lemma reservations_only_grow_witness :
  grows booked_db
    (fst (serve decimal iso_date iso_date refuse_infinite ci_eq
            (no_faults epoch) (DELETE "1") (booked_db, 2))).
Proof.
  apply (reservations_only_grow decimal iso_date iso_date refuse_infinite
           ci_eq (booked_db, 2)).
  apply reachable_serve, reachable_init.
Defined.

(** X3 on a creation after scenario A. *)
Lemma ids_stay_fresh_witness :
  ids_fresh
    (serve decimal iso_date iso_date refuse_infinite ci_eq (no_faults epoch)
       (POST (body_of 1 10 "2025-07-15" "15:00" "16:00")) (booked_db, 2)).
Proof.
  apply (ids_stay_fresh decimal iso_date iso_date refuse_infinite ci_eq
           (booked_db, 2)).
  - split.
    + repeat constructor. intros [].
    + intros r [<-|[]]. reflexivity.
  - apply reachable_serve, reachable_init.
Defined.

(** X4 on a rebooking of reservation 1. *)
Lemma references_stay_valid_witness :
  references_hold
    (fst (serve decimal iso_date iso_date refuse_infinite ci_eq
            (no_faults epoch)
            (PUT "1" (body_of 1 10 "2025-07-15" "16:00" "17:00"))
            (booked_db, 2))).
Proof.
  apply (references_stay_valid decimal iso_date iso_date refuse_infinite
           ci_eq (booked_db, 2)).
  - exact booked_db_references.
  - apply reachable_serve, reachable_init.
Defined.

(** X10 on PUT /api/reservations/1 for seat 10 on 2025-07-16 from 09:30 to
    10:30 on [busy_db]: reservation 1 is reserved, user 1 and seat 10
    exist, and the request overlaps reservation 4; the answer is 409 after
    the four checks. *)
Lemma put_checks_in_order_witness :
  router_put decimal iso_date (no_faults epoch) "1"
    (body_of 1 10 "2025-07-16" "09:30" "10:30") (arrive busy_db 5)
  = (Ok (mkResponse 409 (ErrorBody "Seat already reserved during that time")),
     ended [(Begin, true); (SelectReservation, true); (SelectUser, true);
            (SelectSeat, true); (SelectOverlap, true); (Rollback, true)]
       busy_db 5).
Proof.
  apply (proj2 (proj2 (proj2
           (put_checks_in_order decimal iso_date epoch busy_db 5 "1"
              1 10 "2025-07-16" "09:30" "10:30" 1 1 10
              eq_refl eq_refl eq_refl eq_refl eq_refl eq_refl eq_refl)))
           20250716).
  - exists booked. split; [left; reflexivity | split; reflexivity].
  - exists tanaka. split; [left; reflexivity | reflexivity].
  - exists seat10. split; [left; reflexivity | reflexivity].
  - reflexivity.
  - exists (Reservations.mk 4 2 10 20250716 32400000 36000000 reserved 0).
    split; [right; right; right; left; reflexivity|].
    split; [|discriminate].
    repeat split; cbn; lia.
Defined.

(** X11 on GET ?userId=1&fromDate=2025-07-15&toDate=2025-07-15 with a status
    that the collation of the example equates with "reserved", on
    [busy_db]: reservation 1 is listed; reservation 3, which is canceled,
    and the reservations of user 2 are not. *)
Lemma get_lists_the_reservations_witness :
  let q :=
    Query.mk (Some "1") (Some "2025-07-15") (Some "2025-07-15") None
      (Some "Reserved  ") None in
  exists rows,
    fst (router_get decimal iso_date refuse_infinite ci_eq (no_faults epoch) q
           (arrive busy_db 5))
    = Ok (mkResponse 200 (ListBody rows))
    /\ (exists row, In row rows /\ shows row booked)
    /\ (forall row, In row rows ->
          exists r, In r (tReservations busy_db)
            /\ passes decimal iso_date ci_eq q r /\ shows row r)
    /\ map Formatted.reservation_id rows = [1].
Proof.
  intros q.
  destruct (get_lists_the_reservations decimal iso_date refuse_infinite ci_eq
              (no_faults epoch) busy_db 5 q busy_db_references)
    as (rows & Hrows & Hall & Honly & _).
  - apply examples_go_through; intros s Hs; inversion Hs; subst;
      auto; discriminate.
  - exists rows. split; [exact Hrows|]. split; [|split; [exact Honly|]].
    + apply (Hall booked); [left; reflexivity|].
      split; [|split; [|split; [|split]]].
      * intros n (s & Hs & _ & <- & _). inversion Hs. reflexivity.
      * intros s Hs _. inversion Hs. subst. exists 20250715.
        split; [reflexivity | cbn; lia].
      * intros s Hs _. inversion Hs. subst. exists 20250715.
        split; [reflexivity | cbn; lia].
      * intros n (s & Hs & _). discriminate Hs.
      * intros s Hs _. inversion Hs. reflexivity.
    + cbn in Hrows. inversion Hrows. reflexivity.
Defined.

(** X12 on scenario A followed by GET ?seatId=10&status=reserved, and then
    by DELETE /api/reservations/1 and GET ?seatId=10. *)
Lemma created_reservation_is_listed_witness :
  (exists rows row,
     fst (router_get decimal iso_date refuse_infinite ci_eq (no_faults epoch)
            (Query.mk None None None (Some "10") (Some "reserved") None)
            (arrive booked_db 2))
     = Ok (mkResponse 200 (ListBody rows))
     /\ In row rows
     /\ shows row booked
     /\ Formatted.status row = reserved)
  /\ (exists r',
        In r' (tReservations
                 (fst (serve decimal iso_date iso_date refuse_infinite ci_eq
                         (no_faults epoch) (DELETE "1") (booked_db, 2))))
        /\ same_or_canceled booked r').
Proof.
  destruct (created_reservation_is_listed decimal iso_date iso_date
              refuse_infinite ci_eq (no_faults epoch) empty_db 1
              (body_of 1 10 "2025-07-15" "14:00" "15:00")
              "Reservation created" booked eq_refl) as [Hnow Hlater].
  split.
  - apply (Hnow (no_faults epoch)
             (Query.mk None None None (Some "10") (Some "reserved") None)).
    + apply examples_go_through; intros s Hs; inversion Hs; subst;
        auto; discriminate.
    + split; [|split; [|split; [|split]]].
      * intros n (s & Hs & _). discriminate Hs.
      * intros s Hs. discriminate Hs.
      * intros s Hs. discriminate Hs.
      * intros n (s & Hs & _ & <- & _). inversion Hs. reflexivity.
      * intros s Hs _. inversion Hs. reflexivity.
  - destruct (Hlater
                (serve decimal iso_date iso_date refuse_infinite ci_eq
                   (no_faults epoch) (DELETE "1") (booked_db, 2)))
      as (r' & Hin & Hsame & _).
    + apply (reachable_serve decimal iso_date iso_date refuse_infinite ci_eq
               _ (booked_db, 2) (no_faults epoch) (DELETE "1")).
      apply reachable_init.
    + exists r'. split; [exact Hin | exact Hsame].
Defined.

(** X13 on DELETE /api/reservations/1 after scenario A, followed by a
    creation for the same seat and time and by GET ?status=reserved: the row
    listed is not reservation 1. *)
Lemma canceled_reservation_is_not_listed_as_reserved_witness :
  let s'' :=
    serve decimal iso_date iso_date refuse_infinite ci_eq (no_faults epoch)
      (POST (body_of 1 10 "2025-07-15" "14:00" "15:00"))
      (serve decimal iso_date iso_date refuse_infinite ci_eq
         (no_faults epoch) (DELETE "1") (booked_db, 2)) in
  exists id,
    sqlInt (decimal "1") = Some id
    /\ (forall rows row,
          listed (fst (router_get decimal iso_date refuse_infinite ci_eq
                         (no_faults epoch)
                         (Query.mk None None None None (Some "reserved") None)
                         (arrive (fst s'') (snd s'')))) = Some rows ->
          In row rows ->
          Formatted.reservation_id row = id ->
          Formatted.status row = canceled).
Proof.
  intros s''.
  destruct (canceled_reservation_is_not_listed_as_reserved decimal iso_date
              iso_date refuse_infinite ci_eq (no_faults epoch) booked_db 2
              "1" s'' booked_db_fresh eq_refl) as (id & Hid & Hnever & _).
  - apply reachable_serve, reachable_init.
  - exists id. split; [exact Hid|].
    intros rows row. apply Hnever.
Defined.

Example canceled_then_rebooked_listing :
  let s'' :=
    serve decimal iso_date iso_date refuse_infinite ci_eq (no_faults epoch)
      (POST (body_of 1 10 "2025-07-15" "14:00" "15:00"))
      (serve decimal iso_date iso_date refuse_infinite ci_eq
         (no_faults epoch) (DELETE "1") (booked_db, 2)) in
  option_map (map (fun row => (Formatted.reservation_id row,
                               Formatted.status row)))
    (listed (fst (router_get decimal iso_date refuse_infinite ci_eq
                    (no_faults epoch)
                    (Query.mk None None None None (Some "reserved") None)
                    (arrive (fst s'') (snd s'')))))
  = Some [(2, reserved)].
Proof. reflexivity. Qed.

(** X14 on GET ?order=true on [busy_db]: the day after first, then 15:00
    before 14:00. *)
Lemma get_order_sorts_witness :
  exists rows,
    listed (fst (router_get decimal iso_date refuse_infinite ci_eq
                   (no_faults epoch)
                   (Query.mk None None None None None (Some "true"))
                   (arrive busy_db 5))) = Some rows
    /\ map Formatted.reservation_id rows = [4; 2; 3; 1]
    /\ Sorted listed_before rows
    /\ exists rows',
         listed (fst (router_get decimal iso_date refuse_infinite ci_eq
                        (no_faults epoch) no_filter (arrive busy_db 5)))
         = Some rows'
         /\ map Formatted.reservation_id rows' = [1; 2; 3; 4]
         /\ Permutation rows' rows.
Proof.
  eexists. split; [reflexivity|]. split; [reflexivity|].
  destruct (get_order_sorts decimal iso_date refuse_infinite ci_eq
              (no_faults epoch) busy_db 5
              (Query.mk None None None None None (Some "true")) _
              eq_refl eq_refl) as (Hsorted & rows' & Hrows' & Hperm).
  split; [exact Hsorted|].
  exists rows'. split; [exact Hrows'|]. split; [|exact Hperm].
  cbn in Hrows'. inversion Hrows'. reflexivity.
Defined.

(** X15 on 14:30. *)
Lemma time_round_trip_witness :
  hhmm (toTime "14:30") = "14:30"
  /\ timeRegex_test (hhmm ((14 * 60 + 30) * 60000)) = true
  /\ toTime (hhmm ((14 * 60 + 30) * 60000)) = (14 * 60 + 30) * 60000.
Proof.
  split.
  - apply (proj1 time_round_trip). reflexivity.
  - apply (proj2 time_round_trip); lia.
Defined.

(** X16 on scenario A, and on a POST whose [userId] is 1.5: the driver
    sends 1 and the reservation is of user 1. *)
Lemma answered_reservation_is_the_request_witness :
  (hhmm (Reservations.start_time booked) = "14:00"
   /\ hhmm (Reservations.end_time booked) = "15:00")
  /\ exists r,
       fst (router_post iso_date (no_faults epoch)
              (body_of (Frac 1) 10 "2025-07-15" "14:00" "15:00")
              (arrive empty_db 1))
       = Ok (mkResponse 201 (ReservationBody "Reservation created" r))
       /\ Reservations.user_id r = 1.
Proof.
  split.
  - destruct (proj1 (answered_reservation_is_the_request decimal iso_date
                       (no_faults epoch) empty_db 1 "1"
                       (body_of 1 10 "2025-07-15" "14:00" "15:00")
                       "Reservation created" booked) eq_refl)
      as (u & s & d & st & en & userId & seatId & date & Hb & _ & _ & _ & _
          & _ & _ & _ & _ & _ & H1 & H2 & _).
    inversion Hb. subst. split; assumption.
  - eexists. split; [reflexivity|].
    destruct (proj1 (answered_reservation_is_the_request decimal iso_date
                       (no_faults epoch) empty_db 1 "1"
                       (body_of (Frac 1) 10 "2025-07-15" "14:00" "15:00")
                       "Reservation created" _) eq_refl)
      as (u & s & d & st & en & userId & seatId & date & Hb & Hu & _ & _ & _
          & _ & _ & Huser & _).
    inversion Hb. subst u. rewrite Huser. cbn in Hu. inversion Hu.
    reflexivity.
Defined.

(** X17 on the seed of [bare_db]. *)
Lemma seed_gives_a_valid_start_witness :
  let st := seed_reservations sample_checksum epoch 30 bare_db 1 in
  Forall seed_row (tReservations (seeded st))
  /\ times_ordered (seeded st)
  /\ no_double_booking (seeded st).
Proof.
  intros st.
  destruct (seed_gives_a_valid_start sample_checksum epoch 30 bare_db 1
              eq_refl) as (_ & _ & H1 & H2 & H3 & _).
  split; [exact H1 | split; [exact H2 | exact H3]].
Defined.

(** X18 on the seed of [bare_db]. *)
Lemma seed_ends_with_30_to_60_rows_witness :
  let rows :=
    tReservations
      (seeded (seed_reservations sample_checksum epoch 30 bare_db 1)) in
  (30 <= List.length rows <= 60)%nat.
Proof.
  intros rows.
  destruct (seed_ends_with_30_to_60_rows sample_checksum epoch bare_db 1)
    as (_ & _ & H).
  destruct (H eq_refl) as [Hmax Hmin].
  split; [apply (Hmin bare_db_stocked) | exact Hmax].
  intros k. unfold sample_checksum.
  destruct (Nat.even k); lia.
Defined.
